(** * Room synchronisation engine: game rooms and voice rooms

    A shallow embedding of the two WebSocket managers of the server,
    [GameSyncManager] (server/gameSync.ts) and [VoiceChatManager]
    (server/voiceChat.ts), followed by the properties of the room life cycle,
    of the broadcast fan-out and of the gameplay and voice handlers.

    Conventions of the embedding.
    - A handler is a function from the manager's state (and the message) to
      the new state and the list of effects it performed, in program order.
    - A JavaScript [Map] iterates in insertion order and the handlers depend
      on that order (host transfer, ranking, fan-out), so a [Map] is an
      association list with the [Map] operations written out ([JsMap]).
    - A [number] the handlers compute with (score, lives, damage,
      coordinates, radius) is an IEEE-754 double ([PrimFloat]).  A capacity
      is only tested and compared: it is known by its value ([Number]).  The
      level and the volume stay the whole numbers they are set to ([Z]).
    - An [async] handler runs up to its first [await] when its message is
      delivered and resumes later.  The voice handlers that have something
      left to do after their [await] ([handleRoomJoin] after the eviction it
      awaits, [handleRoomCreate] after the join it awaits) are two steps of
      a run of the voice manager, and other events may come between them;
      each is also given run to completion, as it goes when no event comes
      in between.  The game handlers that await ([handlePlayerScore],
      [endGame]) have changed the manager by then and await the saving of
      the scores only: they are given run to completion.
    - The [timestamp: Date.now()] of an outgoing message, the [createdAt] of
      a room (never read) and [console.log] are not represented;
      [new Date()] and [Math.random()] results are inputs of the handler
      that draws them.
    - The ready state of a socket belongs to the transport, not to the
      managers: handlers read it through [readyState]. *)

From Stdlib Require Import List ZArith Bool String Ascii Lia QArith.
From Stdlib Require Import Permutation Sorted.
From Stdlib Require Import PrimFloat SpecFloat FloatOps FloatAxioms.
Import ListNotations.

Local Open Scope string_scope.
Local Open Scope Z_scope.

(** ** Sockets *)

(** A [WebSocket] object, known by its identity. *)
Definition WebSocket := nat.

Inductive ReadyState := CONNECTING | OPEN | CLOSING | CLOSED.

Definition isOPEN (r : ReadyState) : bool :=
  match r with OPEN => true | _ => false end.

(** ** JavaScript values used as opaque payloads and state blobs *)

#[local] Unset Elimination Schemes.
Inductive JsValue :=
| JUndefined
| JNull
| JBool (b : bool)
| JNum (q : Q)
| JStr (s : string)
| JArr (items : list JsValue)
| JObj (fields : list (string * JsValue)).
#[local] Set Elimination Schemes.

(** [o1 || o2] on optional values whose falsy inhabitants are given by
    [truthy]. *)
Definition js_or {A} (truthy : A -> bool) (o : option A) (dflt : A) : A :=
  match o with
  | Some a => if truthy a then a else dflt
  | None => dflt
  end.

Definition truthy_num (n : Z) : bool := negb (n =? 0).
Definition truthy_bool (b : bool) : bool := b.
Definition truthy_str (s : string) : bool := negb (s =? "")%string.

(** [a !== b] on values that are a string or [undefined]. *)
Definition strict_neq (a b : option string) : bool :=
  match a, b with
  | Some x, Some y => negb (x =? y)%string
  | None, None => false
  | _, _ => true
  end.

(** ** Numbers that are stored and compared, never computed with

    A capacity arrives as a JSON number; the managers test it for truthiness
    and compare it with a count, nothing else.  It is known by its value: the
    rational that a finite double is, or an infinity (the literal [1e999]).
    [JSON.parse] yields no [NaN]. *)

Module Number.

Inductive t := finite (q : Q) | infinity | minus_infinity.

Definition of_Z (n : Z) : t := finite (inject_Z n).

(** Falsy: [0] and [-0]. *)
Definition truthy (n : t) : bool :=
  match n with
  | finite q => negb (Qeq_bool q 0)
  | infinity | minus_infinity => true
  end.

(** [a <= b] *)
Definition leb (a b : t) : bool :=
  match a, b with
  | minus_infinity, _ => true
  | _, infinity => true
  | finite p, finite q => Qle_bool p q
  | _, _ => false
  end.

End Number.

(** ** [parseInt(string)], with no radix

    Leading white space is skipped, then a sign, then [0x] or [0X] selects
    radix 16; the longest run of digits that follows is the value, [NaN] when
    there is none.  The value is rounded to the nearest double (beyond 20
    significant digits the standard lets an engine round earlier).  Strings
    are UTF-8 here: the white space of more than one
    byte is U+00A0, U+1680, U+2000 to U+200A, U+2028, U+2029, U+202F, U+205F,
    U+3000 and U+FEFF. *)

Definition whiteSpace1 (c : ascii) : bool :=
  let n := nat_of_ascii c in
  ((9 <=? n) && (n <=? 13) || (n =? 32))%nat.

Definition whiteSpace2 (c1 c2 : ascii) : bool :=
  ((nat_of_ascii c1 =? 194) && (nat_of_ascii c2 =? 160))%nat.

Definition whiteSpace3 (c1 c2 c3 : ascii) : bool :=
  let n1 := nat_of_ascii c1 in
  let n2 := nat_of_ascii c2 in
  let n3 := nat_of_ascii c3 in
  ((n1 =? 225) && (n2 =? 154) && (n3 =? 128)
   || (n1 =? 226) && (n2 =? 128)
      && ((128 <=? n3) && (n3 <=? 138) || (n3 =? 168) || (n3 =? 169)
          || (n3 =? 175))
   || (n1 =? 226) && (n2 =? 129) && (n3 =? 159)
   || (n1 =? 227) && (n2 =? 128) && (n3 =? 128)
   || (n1 =? 239) && (n2 =? 187) && (n3 =? 191))%nat.

Fixpoint trimStart (s : string) : string :=
  match s with
  | String c1 s1 =>
      if whiteSpace1 c1 then trimStart s1
      else
        match s1 with
        | String c2 s2 =>
            if whiteSpace2 c1 c2 then trimStart s2
            else
              match s2 with
              | String c3 s3 =>
                  if whiteSpace3 c1 c2 c3 then trimStart s3 else s
              | EmptyString => s
              end
        | EmptyString => s
        end
  | EmptyString => s
  end.

(** The value of [c] as a digit of radix 10 or 16. *)
Definition digit (radix : Z) (c : ascii) : option Z :=
  let n := Z.of_nat (nat_of_ascii c) in
  if (48 <=? n) && (n <=? 57) then Some (n - 48)
  else if (radix =? 16) && (97 <=? n) && (n <=? 102) then Some (n - 87)
  else if (radix =? 16) && (65 <=? n) && (n <=? 70) then Some (n - 55)
  else None.

(** The value of the longest run of digits at the head of [s], after the
    digits read so far. *)
Fixpoint digits (radix : Z) (read : option Z) (s : string) : option Z :=
  match s with
  | String c s' =>
      match digit radix c with
      | Some d =>
          digits radix
            (Some (match read with Some n => n * radix + d | None => d end))
            s'
      | None => read
      end
  | EmptyString => read
  end.

(** The double nearest to a whole number. *)
Definition number_of_Z (n : Z) : float :=
  SF2Prim (binary_normalize prec emax n 0 false).

Definition parseInt (s : string) : float :=
  let s1 := trimStart s in
  let (negative, s2) :=
    match s1 with
    | String "-" rest => (true, rest)
    | String "+" rest => (false, rest)
    | _ => (false, s1)
    end in
  let (radix, s3) :=
    match s2 with
    | String "0" (String "x" rest) | String "0" (String "X" rest) =>
        (16, rest)
    | _ => (10, s2)
    end in
  match digits radix None s3 with
  | None => PrimFloat.nan
  | Some n =>
      if negative then PrimFloat.opp (number_of_Z n) else number_of_Z n
  end.

(** ** Insertion-ordered maps with string keys *)

Module JsMap.

Definition t (V : Type) := list (string * V).

Section Ops.
Context {V : Type}.

Definition empty : t V := [].

Fixpoint get (k : string) (m : t V) : option V :=
  match m with
  | [] => None
  | (k', v) :: m' => if (k' =? k)%string then Some v else get k m'
  end.

Definition has (k : string) (m : t V) : bool :=
  match get k m with Some _ => true | None => false end.

(** [set] keeps the position of a key that is present and appends a new
    one. *)
Fixpoint set (k : string) (v : V) (m : t V) : t V :=
  match m with
  | [] => [(k, v)]
  | (k', v') :: m' =>
      if (k' =? k)%string then (k', v) :: m' else (k', v') :: set k v m'
  end.

Fixpoint delete (k : string) (m : t V) : t V :=
  match m with
  | [] => []
  | (k', v') :: m' =>
      if (k' =? k)%string then delete k m' else (k', v') :: delete k m'
  end.

Definition size (m : t V) : Z := Z.of_nat (List.length m).

Definition keys (m : t V) : list string := map fst m.

Definition values (m : t V) : list V := map snd m.

(** [m.values().next().value] *)
Definition first (m : t V) : option (string * V) :=
  match m with [] => None | kv :: _ => Some kv end.

(** Every key occurs once: what a [Map] guarantees. *)
Definition wf (m : t V) : Prop := NoDup (keys m).

End Ops.

(** Object spread [{...a, ...b}]. *)
Definition spread {V} (a b : t V) : t V :=
  fold_left (fun acc kv => set (fst kv) (snd kv) acc) b a.

End JsMap.

(** Truthiness of a payload value. *)
Definition truthy (v : JsValue) : bool :=
  match v with
  | JUndefined | JNull => false
  | JBool b => b
  | JNum q => negb (Qeq_bool q 0)
  | JStr s => truthy_str s
  | JArr _ | JObj _ => true
  end.

(** * The game synchronisation manager (server/gameSync.ts) *)

Module GameSync.

(** ** Data model *)

Module Position.
Record t := mk { x : float; y : float }.
End Position.

Inductive Status := waiting | playing | paused | finished.

Definition Status_eqb (a b : Status) : bool :=
  match a, b with
  | waiting, waiting | playing, playing
  | paused, paused | finished, finished => true
  | _, _ => false
  end.

Inductive GameMode := competitive | cooperative.
Inductive Difficulty := easy | medium | hard.

Module GamePlayer.
Record t := mk {
  id : string;
  username : string;
  isAdmin : bool;
  isHost : bool;
  score : float;
  lives : float;
  level : Z;
  position : Position.t;
  powerups : list string;
  isReady : bool;
  ws : WebSocket
}.

Definition with_isHost (b : bool) (p : t) : t :=
  mk (id p) (username p) (isAdmin p) b (score p) (lives p) (level p)
     (position p) (powerups p) (isReady p) (ws p).

Definition with_score (n : float) (p : t) : t :=
  mk (id p) (username p) (isAdmin p) (isHost p) n (lives p) (level p)
     (position p) (powerups p) (isReady p) (ws p).

Definition with_lives (n : float) (p : t) : t :=
  mk (id p) (username p) (isAdmin p) (isHost p) (score p) n (level p)
     (position p) (powerups p) (isReady p) (ws p).

Definition with_position (q : Position.t) (p : t) : t :=
  mk (id p) (username p) (isAdmin p) (isHost p) (score p) (lives p) (level p)
     q (powerups p) (isReady p) (ws p).
End GamePlayer.

Module Settings.
Record t := mk {
  maxPlayers : Number.t;
  isPrivate : bool;
  password : option string;
  gameMode : GameMode;
  difficulty : Difficulty
}.
End Settings.

Module GameRoom.
Record t := mk {
  id : string;
  name : string;
  gameType : string;
  players : JsMap.t GamePlayer.t;
  gameState : JsMap.t JsValue;
  settings : Settings.t;
  status : Status;
  hostId : string
}.

Definition with_players (ps : JsMap.t GamePlayer.t) (r : t) : t :=
  mk (id r) (name r) (gameType r) ps (gameState r) (settings r) (status r)
     (hostId r).

Definition with_gameState (g : JsMap.t JsValue) (r : t) : t :=
  mk (id r) (name r) (gameType r) (players r) g (settings r) (status r)
     (hostId r).

Definition with_status (st : Status) (r : t) : t :=
  mk (id r) (name r) (gameType r) (players r) (gameState r) (settings r) st
     (hostId r).

Definition with_hostId (h : string) (r : t) : t :=
  mk (id r) (name r) (gameType r) (players r) (gameState r) (settings r)
     (status r) h.
End GameRoom.

(** The handle of the delayed callback [() => this.endGame(roomId, reason)]
    armed by [setTimeout]. *)
Module Timeout.
Record t := mk { delay : Z; roomId : string; reason : string }.
End Timeout.

Record GameSyncManager := mkManager {
  rooms : JsMap.t GameRoom.t;
  playerRooms : JsMap.t string;
  gameTimers : JsMap.t Timeout.t
}.

Definition initial : GameSyncManager := mkManager [] [] [].

(** ** Incoming messages *)

Module PlayerInfo.
Record t := mk { id : string; username : string; isAdmin : option bool }.
End PlayerInfo.

Module CreateSettings.
Record t := mk {
  maxPlayers : option Number.t;
  isPrivate : option bool;
  password : option string;
  gameMode : option GameMode;
  difficulty : option Difficulty
}.
End CreateSettings.

Module BombData.
Record t := mk {
  explosionPosition : Position.t;
  radius : float;
  damage : float;
  rest : JsMap.t JsValue
}.
End BombData.

(** One constructor per [type] that [handleGameMessage] dispatches on, with
    the fields the handler reads; every other [type] is [other]. *)
Inductive GameMessage :=
| room_create (rnd : string) (gameType : string)
    (settings : CreateSettings.t) (playerInfo : PlayerInfo.t)
| room_join (roomId : option string) (playerInfo : PlayerInfo.t)
    (password : option string) (rnd_x rnd_y : float)
| room_leave (roomId playerId : string)
| game_start (roomId playerId : string)
| player_move (roomId playerId : string) (position : Position.t)
    (timestamp : Z)
| player_score (roomId playerId : string) (points : float)
    (itemType : option string)
| game_state_update (roomId playerId : string) (updates : JsMap.t JsValue)
| fruit_spawn (roomId playerId : string) (data : JsMap.t JsValue)
| bomb_explosion (roomId playerId : string) (data : BombData.t)
| other (type : string).

(** ** Outgoing messages *)

Module SerializedPlayer.
Record t := mk {
  id : string;
  username : string;
  isAdmin : bool;
  isHost : bool;
  score : float;
  lives : float;
  level : Z;
  position : Position.t;
  powerups : list string;
  isReady : bool
}.
End SerializedPlayer.

Module SerializedRoom.
Record t := mk {
  id : string;
  name : string;
  gameType : string;
  players : list SerializedPlayer.t;
  settings : Settings.t;
  status : Status;
  hostId : string
}.
End SerializedRoom.

Module Result.
Record t := mk { id : string; username : string; score : float; level : Z }.
End Result.

Inductive Data :=
| room_created (room : SerializedRoom.t) (message : string)
| error (text : string)
| joined (player : SerializedPlayer.t) (room : SerializedRoom.t)
| left (room : SerializedRoom.t)
| started (gameState : JsMap.t JsValue) (message : string)
| moved (position : Position.t) (timestamp : Z)
| scored (score points : float) (itemType : option string)
    (totalPlayers : Z)
| fruit (data : JsMap.t JsValue)
| explosion (data : BombData.t) (affectedPlayers : list (string * float))
| state (gameState : JsMap.t JsValue)
| ended (reason : string) (results : list Result.t) (winner : option Result.t).

Module Message.
Record t := mk { type : string; roomId : string; playerId : string; data : Data }.
End Message.

(** [Send]: [ws.send(JSON.stringify(message))];
    [saveGameScore]: the call [storage.saveGameScore(userId, gameName, score,
    level)]. *)
Inductive Effect :=
| Send (ws : WebSocket) (message : Message.t)
| saveGameScore (userId : float) (gameName : string) (score : float)
    (level : Z).

(** ** Handlers *)

Section Handlers.

(** [ws.readyState] at the time the handler runs. *)
Variable readyState : WebSocket -> ReadyState.

Definition sendToPlayer (ws : WebSocket) (message : Message.t) : list Effect :=
  if isOPEN (readyState ws) then [Send ws message] else [].

Definition sendError (ws : WebSocket) (text : string) : list Effect :=
  sendToPlayer ws (Message.mk "room_join" "" "" (error text)).

(** [playerId === excludePlayerId], where [excludePlayerId] may be
    [undefined]. *)
Definition excluded (playerId : string) (excludePlayerId : option string)
  : bool :=
  match excludePlayerId with
  | Some e => (playerId =? e)%string
  | None => false
  end.

Definition broadcastToRoom (s : GameSyncManager) (roomId : string)
    (message : Message.t) (excludePlayerId : option string) : list Effect :=
  match JsMap.get roomId (rooms s) with
  | None => []
  | Some room =>
      flat_map
        (fun kv =>
           if negb (excluded (fst kv) excludePlayerId)
              && isOPEN (readyState (GamePlayer.ws (snd kv)))
           then sendToPlayer (GamePlayer.ws (snd kv)) message
           else [])
        (GameRoom.players room)
  end.

Definition initializeGameState (gameType : string) : JsMap.t JsValue :=
  if (gameType =? "fruit_catching")%string then
    [ ("fruits", JArr []); ("bombs", JArr []); ("powerups", JArr []);
      ("gameSpeed", JNum 1); ("spawnRate", JNum 1000);
      ("difficulty", JStr "medium") ]
  else if (gameType =? "racing")%string then
    [ ("track", JStr "default"); ("laps", JNum 3);
      ("checkpoints", JArr []); ("obstacles", JArr []) ]
  else [].

(** [Math.pow(v, 2)] is taken as the correctly rounded square. *)
Definition pow2 (v : float) : float := PrimFloat.mul v v.

Definition calculateDistance (pos1 pos2 : Position.t) : float :=
  PrimFloat.sqrt
    (PrimFloat.add
       (pow2 (PrimFloat.sub (Position.x pos2) (Position.x pos1)))
       (pow2 (PrimFloat.sub (Position.y pos2) (Position.y pos1)))).

(** [Math.random().toString(36).substr(2, 9)] is the input [rnd]. *)
Definition generateRoomId (rnd : string) : string := "room_" ++ rnd.

Definition serializePlayer (player : GamePlayer.t) : SerializedPlayer.t :=
  SerializedPlayer.mk (GamePlayer.id player) (GamePlayer.username player)
    (GamePlayer.isAdmin player) (GamePlayer.isHost player)
    (GamePlayer.score player) (GamePlayer.lives player)
    (GamePlayer.level player) (GamePlayer.position player)
    (GamePlayer.powerups player) (GamePlayer.isReady player).

Definition serializeRoom (room : GameRoom.t) : SerializedRoom.t :=
  SerializedRoom.mk (GameRoom.id room) (GameRoom.name room)
    (GameRoom.gameType room)
    (map serializePlayer (JsMap.values (GameRoom.players room)))
    (GameRoom.settings room) (GameRoom.status room) (GameRoom.hostId room).

(** The room object [room] held under [roomId] after a mutation of its
    fields: the entry keeps its place in the store. *)
Definition storeRoom (roomId : string) (room : GameRoom.t)
    (s : GameSyncManager) : GameSyncManager :=
  mkManager (JsMap.set roomId room (rooms s)) (playerRooms s) (gameTimers s).

Definition createGameRoom (s : GameSyncManager) (ws : WebSocket)
    (rnd gameType : string) (settings : CreateSettings.t)
    (playerInfo : PlayerInfo.t) : GameSyncManager * list Effect :=
  let roomId := generateRoomId rnd in
  let player :=
    GamePlayer.mk (PlayerInfo.id playerInfo) (PlayerInfo.username playerInfo)
      (js_or truthy_bool (PlayerInfo.isAdmin playerInfo) false)
      true 0 3 1 (Position.mk 50 50) [] true ws in
  let room :=
    GameRoom.mk roomId ("غرفة " ++ PlayerInfo.username playerInfo) gameType
      (JsMap.set (PlayerInfo.id playerInfo) player JsMap.empty)
      (initializeGameState gameType)
      (Settings.mk
         (js_or Number.truthy (CreateSettings.maxPlayers settings)
            (Number.of_Z 4))
         (js_or truthy_bool (CreateSettings.isPrivate settings) false)
         (CreateSettings.password settings)
         (js_or (fun _ => true) (CreateSettings.gameMode settings) competitive)
         (js_or (fun _ => true) (CreateSettings.difficulty settings) medium))
      waiting (PlayerInfo.id playerInfo) in
  let s' :=
    mkManager (JsMap.set roomId room (rooms s))
      (JsMap.set (PlayerInfo.id playerInfo) roomId (playerRooms s))
      (gameTimers s) in
  (s', sendToPlayer ws
         (Message.mk "room_create" roomId (PlayerInfo.id playerInfo)
            (room_created (serializeRoom room)
               "تم إنشاء غرفة اللعبة بنجاح"))).

Definition joinGameRoom (s : GameSyncManager) (ws : WebSocket)
    (roomId : option string) (playerInfo : PlayerInfo.t)
    (password : option string) (rnd_x rnd_y : float)
  : GameSyncManager * list Effect :=
  match roomId with
  | None => (s, sendError ws "الغرفة غير موجودة")
  | Some roomId =>
  match JsMap.get roomId (rooms s) with
  | None => (s, sendError ws "الغرفة غير موجودة")
  | Some room =>
      if Status_eqb (GameRoom.status room) playing then
        (s, sendError ws "اللعبة قيد التشغيل حالياً")
      else if Number.leb (Settings.maxPlayers (GameRoom.settings room))
                (Number.of_Z (JsMap.size (GameRoom.players room))) then
        (s, sendError ws "الغرفة ممتلئة")
      else if Settings.isPrivate (GameRoom.settings room)
              && strict_neq (Settings.password (GameRoom.settings room))
                   password then
        (s, sendError ws "كلمة المرور خاطئة")
      else
        let player :=
          GamePlayer.mk (PlayerInfo.id playerInfo)
            (PlayerInfo.username playerInfo)
            (js_or truthy_bool (PlayerInfo.isAdmin playerInfo) false)
            false 0 3 1
            (Position.mk (PrimFloat.mul rnd_x 100) (PrimFloat.mul rnd_y 100))
            [] false ws in
        let room' :=
          GameRoom.with_players
            (JsMap.set (PlayerInfo.id playerInfo) player
               (GameRoom.players room)) room in
        let s' :=
          mkManager (JsMap.set roomId room' (rooms s))
            (JsMap.set (PlayerInfo.id playerInfo) roomId (playerRooms s))
            (gameTimers s) in
        (s', broadcastToRoom s' roomId
               (Message.mk "player_joined" roomId (PlayerInfo.id playerInfo)
                  (joined (serializePlayer player) (serializeRoom room')))
               None)
  end
  end.

Definition clearGameTimer (roomId : string) (s : GameSyncManager)
  : GameSyncManager :=
  match JsMap.get roomId (gameTimers s) with
  | Some _ =>
      mkManager (rooms s) (playerRooms s) (JsMap.delete roomId (gameTimers s))
  | None => s
  end.

Definition leaveGameRoom (s : GameSyncManager) (roomId playerId : string)
  : GameSyncManager * list Effect :=
  match JsMap.get roomId (rooms s) with
  | None => (s, [])
  | Some room =>
      if negb (JsMap.has playerId (GameRoom.players room)) then (s, [])
      else
        let remaining := JsMap.delete playerId (GameRoom.players room) in
        let index := JsMap.delete playerId (playerRooms s) in
        let room1 := GameRoom.with_players remaining room in
        let room2 :=
          if (GameRoom.hostId room1 =? playerId)%string
             && (JsMap.size remaining >? 0) then
            match JsMap.first remaining with
            | Some (key, newHost) =>
                GameRoom.with_players
                  (JsMap.set key (GamePlayer.with_isHost true newHost)
                     remaining)
                  (GameRoom.with_hostId (GamePlayer.id newHost) room1)
            | None => room1
            end
          else room1 in
        if JsMap.size (GameRoom.players room2) =? 0 then
          (clearGameTimer roomId
             (mkManager (JsMap.delete roomId (rooms s)) index (gameTimers s)),
           [])
        else
          let s' :=
            mkManager (JsMap.set roomId room2 (rooms s)) index (gameTimers s)
          in
          (s', broadcastToRoom s' roomId
                 (Message.mk "player_left" roomId playerId
                    (left (serializeRoom room2)))
                 None)
  end.

Definition startGameTimer (roomId : string) (s : GameSyncManager)
  : GameSyncManager :=
  match JsMap.get roomId (rooms s) with
  | None => s
  | Some _ =>
      let s1 := clearGameTimer roomId s in
      mkManager (rooms s1) (playerRooms s1)
        (JsMap.set roomId (Timeout.mk (5 * 60 * 1000) roomId "timeout")
           (gameTimers s1))
  end.

Definition startGame (s : GameSyncManager) (roomId hostId : string)
  : GameSyncManager * list Effect :=
  match JsMap.get roomId (rooms s) with
  | None => (s, [])
  | Some room =>
      if negb (GameRoom.hostId room =? hostId)%string then (s, [])
      else
        let allReady :=
          forallb GamePlayer.isReady (JsMap.values (GameRoom.players room)) in
        if negb allReady then
          (s, broadcastToRoom s roomId
                (Message.mk "game_start" roomId hostId
                   (error "ليس جميع اللاعبين جاهزين"))
                None)
        else
          let room' :=
            GameRoom.with_gameState
              (initializeGameState (GameRoom.gameType room))
              (GameRoom.with_status playing room) in
          let s' := startGameTimer roomId (storeRoom roomId room' s) in
          (s', broadcastToRoom s' roomId
                 (Message.mk "game_start" roomId hostId
                    (started (GameRoom.gameState room') "بدأت اللعبة!"))
                 None)
  end.

Definition handlePlayerMove (s : GameSyncManager) (roomId playerId : string)
    (position : Position.t) (timestamp : Z) : GameSyncManager * list Effect :=
  match JsMap.get roomId (rooms s) with
  | None => (s, [])
  | Some room =>
      if negb (Status_eqb (GameRoom.status room) playing) then (s, [])
      else
        match JsMap.get playerId (GameRoom.players room) with
        | None => (s, [])
        | Some player =>
            let player' := GamePlayer.with_position position player in
            let room' :=
              GameRoom.with_players
                (JsMap.set playerId player' (GameRoom.players room)) room in
            let s' := storeRoom roomId room' s in
            (s', broadcastToRoom s' roomId
                   (Message.mk "player_move" roomId playerId
                      (moved (GamePlayer.position player') timestamp))
                   (Some playerId))
        end
  end.

(** The handler run to completion: the persistence call is awaited between
    the update and the broadcast, and the broadcast is as it goes when no
    event comes in between. *)
Definition handlePlayerScore (s : GameSyncManager) (roomId playerId : string)
    (points : float) (itemType : option string)
  : GameSyncManager * list Effect :=
  match JsMap.get roomId (rooms s) with
  | None => (s, [])
  | Some room =>
      match JsMap.get playerId (GameRoom.players room) with
      | None => (s, [])
      | Some player =>
          let player' :=
            GamePlayer.with_score
              (PrimFloat.add (GamePlayer.score player) points) player in
          let room' :=
            GameRoom.with_players
              (JsMap.set playerId player' (GameRoom.players room)) room in
          let s' := storeRoom roomId room' s in
          (s', saveGameScore (parseInt playerId) (GameRoom.gameType room')
                 (GamePlayer.score player') (GamePlayer.level player')
               :: broadcastToRoom s' roomId
                    (Message.mk "player_score" roomId playerId
                       (scored (GamePlayer.score player') points itemType
                          (JsMap.size (GameRoom.players room'))))
                    None)
      end
  end.

(** [fruits.push] on a value that is not an array throws: the handler stops
    there, having changed nothing. *)
Definition handleFruitSpawn (s : GameSyncManager) (roomId playerId : string)
    (data : JsMap.t JsValue) : GameSyncManager * list Effect :=
  match JsMap.get roomId (rooms s) with
  | None => (s, [])
  | Some room =>
      if negb (Status_eqb (GameRoom.status room) playing) then (s, [])
      else
        let g := GameRoom.gameState room in
        let fruits :=
          match JsMap.get "fruits" g with
          | Some v => if truthy v then v else JArr []
          | None => JArr []
          end in
        match fruits with
        | JArr items =>
            let pushed :=
              match JsMap.get "fruit" data with
              | Some v => v
              | None => JUndefined
              end in
            let room' :=
              GameRoom.with_gameState
                (JsMap.set "fruits" (JArr (items ++ [pushed])) g) room in
            let s' := storeRoom roomId room' s in
            (s', broadcastToRoom s' roomId
                   (Message.mk "fruit_spawn" roomId playerId (fruit data))
                   None)
        | _ => (s, [])
        end
  end.

(** [calculateDistance(player.position, explosionPosition) <= radius]: the
    test of the [forEach] body and of the [filter] of [handleBombExplosion]. *)
Definition inBlast (data : BombData.t) (player : GamePlayer.t) : bool :=
  PrimFloat.leb
    (calculateDistance (GamePlayer.position player)
       (BombData.explosionPosition data))
    (BombData.radius data).

(** The [forEach] body of [handleBombExplosion] on one player. *)
Definition applyBlast (data : BombData.t) (player : GamePlayer.t)
  : GamePlayer.t :=
  if inBlast data player then
    let lives :=
      PrimFloat.sub (GamePlayer.lives player) (BombData.damage data) in
    GamePlayer.with_lives (if PrimFloat.leb lives 0 then 0%float else lives)
      player
  else player.

Definition handleBombExplosion (s : GameSyncManager)
    (roomId playerId : string) (data : BombData.t)
  : GameSyncManager * list Effect :=
  match JsMap.get roomId (rooms s) with
  | None => (s, [])
  | Some room =>
      let room' :=
        GameRoom.with_players
          (map (fun kv => (fst kv, applyBlast data (snd kv)))
             (GameRoom.players room)) room in
      let s' := storeRoom roomId room' s in
      (s', broadcastToRoom s' roomId
             (Message.mk "bomb_explosion" roomId playerId
                (explosion data
                   (map (fun p => (GamePlayer.id p, GamePlayer.lives p))
                      (filter (inBlast data)
                         (JsMap.values (GameRoom.players room'))))))
             None)
  end.

Definition broadcastGameState (s : GameSyncManager)
    (roomId playerId : string) (updates : JsMap.t JsValue)
  : GameSyncManager * list Effect :=
  match JsMap.get roomId (rooms s) with
  | None => (s, [])
  | Some room =>
      let room' :=
        GameRoom.with_gameState
          (JsMap.spread (GameRoom.gameState room) updates) room in
      let s' := storeRoom roomId room' s in
      (s', broadcastToRoom s' roomId
             (Message.mk "game_state_update" roomId playerId
                (state (GameRoom.gameState room')))
             None)
  end.

(** The first player, in the iteration order of the rooms and of their
    players, that owns the socket. *)
Fixpoint findSocket (ws : WebSocket) (rs : JsMap.t GameRoom.t)
  : option (string * string) :=
  match rs with
  | [] => None
  | (roomId, room) :: rs' =>
      match find (fun kv => Nat.eqb (GamePlayer.ws (snd kv)) ws)
              (GameRoom.players room) with
      | Some (playerId, _) => Some (roomId, playerId)
      | None => findSocket ws rs'
      end
  end.

Definition handlePlayerDisconnect (s : GameSyncManager) (ws : WebSocket)
  : GameSyncManager * list Effect :=
  match findSocket ws (rooms s) with
  | Some (roomId, playerId) => leaveGameRoom s roomId playerId
  | None => (s, [])
  end.

End Handlers.

(** [Array.prototype.sort(comparefn)]: a stable sort; [a] goes after [b]
    when [comparefn a b > 0], and a [NaN] from [comparefn] counts as [0].
    Written as the insertion sort that keeps equal elements in their order.
    For a consistent [comparefn] this is the one order the standard allows;
    for another one the standard leaves the order to the engine. *)
Section ArraySort.
Context {A : Type} (comparefn : A -> A -> float).

Fixpoint insert (a : A) (sorted : list A) : list A :=
  match sorted with
  | [] => [a]
  | b :: rest =>
      if PrimFloat.ltb 0 (comparefn a b) then b :: insert a rest
      else a :: b :: rest
  end.

Definition sort (l : list A) : list A := fold_right insert [] l.

End ArraySort.

Section TimedHandlers.
Variable readyState : WebSocket -> ReadyState.

(** The entry of a player in the [results] of [endGame]. *)
Definition toResult (player : GamePlayer.t) : Result.t :=
  Result.mk (GamePlayer.id player) (GamePlayer.username player)
    (GamePlayer.score player) (GamePlayer.level player).

(** The [results] array of [endGame]. *)
Definition results (room : GameRoom.t) : list Result.t :=
  sort (fun a b => PrimFloat.sub (Result.score b) (Result.score a))
    (map toResult (JsMap.values (GameRoom.players room))).

(** The handler run to completion: the persistence calls are awaited, one
    after the other, between the ranking and the broadcast, and the
    broadcast is as it goes when no event comes in between. *)
Definition endGame (s : GameSyncManager) (roomId reason : string)
  : GameSyncManager * list Effect :=
  match JsMap.get roomId (rooms s) with
  | None => (s, [])
  | Some room =>
      let room' := GameRoom.with_status finished room in
      let s' := clearGameTimer roomId (storeRoom roomId room' s) in
      (s', (map (fun p => saveGameScore (parseInt (GamePlayer.id p))
                            (GameRoom.gameType room') (GamePlayer.score p)
                            (GamePlayer.level p))
              (JsMap.values (GameRoom.players room'))
            ++ broadcastToRoom readyState s' roomId
                 (Message.mk "game_end" roomId ""
                    (ended reason (results room') (hd_error (results room'))))
                 None)%list)
  end.

Definition handleGameMessage (s : GameSyncManager) (ws : WebSocket)
    (message : GameMessage) : GameSyncManager * list Effect :=
  match message with
  | room_create rnd gameType settings playerInfo =>
      createGameRoom readyState s ws rnd gameType settings playerInfo
  | room_join roomId playerInfo password rnd_x rnd_y =>
      joinGameRoom readyState s ws roomId playerInfo password rnd_x rnd_y
  | room_leave roomId playerId => leaveGameRoom readyState s roomId playerId
  | game_start roomId playerId => startGame readyState s roomId playerId
  | player_move roomId playerId position timestamp =>
      handlePlayerMove readyState s roomId playerId position timestamp
  | player_score roomId playerId points itemType =>
      handlePlayerScore readyState s roomId playerId points itemType
  | game_state_update roomId playerId updates =>
      broadcastGameState readyState s roomId playerId updates
  | fruit_spawn roomId playerId data =>
      handleFruitSpawn readyState s roomId playerId data
  | bomb_explosion roomId playerId data =>
      handleBombExplosion readyState s roomId playerId data
  | other _ => (s, [])
  end.

End TimedHandlers.

(** What the event loop delivers to the manager: a message on a socket, the
    close of a socket, or the expiry of the timer armed for a room (a timer
    that was cleared never expires). *)
Inductive Event :=
| on_message (ws : WebSocket) (message : GameMessage)
| on_close (ws : WebSocket)
| on_timeout (roomId : string).

Definition step (readyState : WebSocket -> ReadyState) (s : GameSyncManager)
    (e : Event) : GameSyncManager * list Effect :=
  match e with
  | on_message ws message => handleGameMessage readyState s ws message
  | on_close ws => handlePlayerDisconnect readyState s ws
  | on_timeout roomId =>
      match JsMap.get roomId (gameTimers s) with
      | Some timer =>
          endGame readyState s (Timeout.roomId timer) (Timeout.reason timer)
      | None => (s, [])
      end
  end.

(** A run of the manager: each event comes with the ready states of the
    sockets at that time. *)
Fixpoint run (s : GameSyncManager)
    (trace : list ((WebSocket -> ReadyState) * Event))
  : GameSyncManager * list Effect :=
  match trace with
  | [] => (s, [])
  | (readyState, e) :: trace' =>
      let (s1, out1) := step readyState s e in
      let (s2, out2) := run s1 trace' in
      (s2, (out1 ++ out2)%list)
  end.

(** ** The read-only queries served to the HTTP routes *)

Definition getRooms (s : GameSyncManager) : list SerializedRoom.t :=
  map serializeRoom (JsMap.values (rooms s)).

(** [null] is [None]. *)
Definition getRoom (s : GameSyncManager) (roomId : string)
  : option SerializedRoom.t :=
  match JsMap.get roomId (rooms s) with
  | Some room => Some (serializeRoom room)
  | None => None
  end.

Definition getPlayerRoom (s : GameSyncManager) (playerId : string)
  : option SerializedRoom.t :=
  match JsMap.get playerId (playerRooms s) with
  | Some roomId => if truthy_str roomId then getRoom s roomId else None
  | None => None
  end.

End GameSync.

(** * The voice chat manager (server/voiceChat.ts) *)

Module VoiceChat.

(** ** Data model *)

Inductive Quality := low | medium | high.

(** [lastActivity] is a [Date], known by its time value. *)
Module VoiceUser.
Record t := mk {
  id : string;
  username : string;
  isAdmin : bool;
  isMuted : bool;
  isSpeaking : bool;
  isDeafened : bool;
  volume : Z;
  quality : Quality;
  ws : WebSocket;
  lastActivity : Z;
  micEnabled : bool;
  speakerEnabled : bool
}.

Definition with_isMuted (b : bool) (u : t) : t :=
  mk (id u) (username u) (isAdmin u) b (isSpeaking u) (isDeafened u)
     (volume u) (quality u) (ws u) (lastActivity u) (micEnabled u)
     (speakerEnabled u).

Definition with_isSpeaking (b : bool) (u : t) : t :=
  mk (id u) (username u) (isAdmin u) (isMuted u) b (isDeafened u)
     (volume u) (quality u) (ws u) (lastActivity u) (micEnabled u)
     (speakerEnabled u).

Definition with_volume (n : Z) (u : t) : t :=
  mk (id u) (username u) (isAdmin u) (isMuted u) (isSpeaking u)
     (isDeafened u) n (quality u) (ws u) (lastActivity u) (micEnabled u)
     (speakerEnabled u).

Definition with_quality (q : Quality) (u : t) : t :=
  mk (id u) (username u) (isAdmin u) (isMuted u) (isSpeaking u)
     (isDeafened u) (volume u) q (ws u) (lastActivity u) (micEnabled u)
     (speakerEnabled u).

Definition with_lastActivity (time : Z) (u : t) : t :=
  mk (id u) (username u) (isAdmin u) (isMuted u) (isSpeaking u)
     (isDeafened u) (volume u) (quality u) (ws u) time (micEnabled u)
     (speakerEnabled u).
End VoiceUser.

Module Settings.
Record t := mk {
  maxUsers : Number.t;
  isPrivate : bool;
  password : option string;
  autoMute : bool;
  noiseReduction : bool;
  echoCancellation : bool;
  bitrate : Z;
  sampleRate : Z
}.

Definition with_noiseReduction (b : bool) (c : t) : t :=
  mk (maxUsers c) (isPrivate c) (password c) (autoMute c) b
     (echoCancellation c) (bitrate c) (sampleRate c).
End Settings.

Module VoiceRoom.
Record t := mk {
  id : string;
  name : string;
  description : option string;
  users : JsMap.t VoiceUser.t;
  settings : Settings.t;
  ownerId : string;
  isTemporary : bool
}.

Definition with_users (us : JsMap.t VoiceUser.t) (r : t) : t :=
  mk (id r) (name r) (description r) us (settings r) (ownerId r)
     (isTemporary r).

Definition with_settings (c : Settings.t) (r : t) : t :=
  mk (id r) (name r) (description r) (users r) c (ownerId r) (isTemporary r).
End VoiceRoom.

Record VoiceChatManager := mkManager {
  rooms : JsMap.t VoiceRoom.t;
  userRooms : JsMap.t string
}.

(** ** Incoming messages *)

Module UserInfo.
Record t := mk { id : string; username : string; isAdmin : option bool }.
End UserInfo.

Module RoomData.
Record t := mk {
  name : option string;
  description : option string;
  isPrivate : option bool;
  password : option string;
  maxUsers : option Number.t
}.
End RoomData.

(** One constructor per [type] that [handleVoiceMessage] dispatches on, with
    the fields the handler reads; every other [type] is [other]. *)
Inductive VoiceMessage :=
| voice_room_join (roomId : option string) (userInfo : UserInfo.t)
    (password : option string)
| voice_room_leave (roomId userId : string)
| voice_start_speaking (roomId userId : string)
| voice_stop_speaking (roomId userId : string)
| voice_audio_data (roomId userId : string) (audioData : JsMap.t JsValue)
| voice_mute (roomId userId : string)
| voice_unmute (roomId userId : string)
| voice_room_create (rnd : string) (roomData : RoomData.t)
    (userInfo : UserInfo.t)
| voice_quality_change (roomId userId : string) (quality : Quality)
    (volume : option Z)
| voice_echo_test (roomId userId : string) (audioData : JsMap.t JsValue)
| voice_noise_reduction (roomId userId : string) (enabled : bool)
| other (type : string).

(** ** Outgoing messages *)

Module SerializedUser.
Record t := mk {
  id : string;
  username : string;
  isAdmin : bool;
  isMuted : bool;
  isSpeaking : bool;
  isDeafened : bool;
  volume : Z;
  quality : Quality;
  micEnabled : bool;
  speakerEnabled : bool;
  lastActivity : Z
}.
End SerializedUser.

Module SerializedRoom.
Record t := mk {
  id : string;
  name : string;
  description : option string;
  users : list SerializedUser.t;
  settings : Settings.t;
  ownerId : string;
  isTemporary : bool;
  userCount : Z
}.
End SerializedRoom.

Inductive Data :=
| welcome (room : SerializedRoom.t) (settings : Settings.t) (message : string)
| error (text : string)
| user_joined (user : SerializedUser.t) (message : string)
| user_left (message : string)
| speaking (username : string) (quality : Quality)
| silent (username : string)
| audio (audioData : JsMap.t JsValue) (senderId senderName : string)
    (quality : Quality)
| muted (username : string) (isMuted : bool)
| room_created (room : SerializedRoom.t) (message : string)
| quality_changed (quality : Quality) (volume : Z) (message : string)
| echo (audioData : JsMap.t JsValue) (delay : Z) (message : string)
| settings_changed (settings : Settings.t) (message : string).

Module Message.
Record t := mk { type : string; roomId : string; userId : string; data : Data }.
End Message.

(** [Send]: [ws.send(JSON.stringify(message))];
    [setTimeout]: [sendToUser(ws, message)] scheduled after [delay] ms. *)
Inductive Effect :=
| Send (ws : WebSocket) (message : Message.t)
| setTimeout (delay : Z) (ws : WebSocket) (message : Message.t).

(** ** Handlers.  The [emit] notifications of the manager have no listener
    in the server and are not represented. *)

Module RoomConfig.
Record t := mk {
  id : string;
  name : string;
  description : option string;
  ownerId : string;
  isPrivate : bool;
  password : option string;
  maxUsers : Number.t;
  isTemporary : bool
}.
End RoomConfig.

(** The room object that [createRoom] builds from its [config]. *)
Definition newRoom (config : RoomConfig.t) : VoiceRoom.t :=
  VoiceRoom.mk (RoomConfig.id config) (RoomConfig.name config)
    (RoomConfig.description config) JsMap.empty
    (Settings.mk (RoomConfig.maxUsers config) (RoomConfig.isPrivate config)
       (RoomConfig.password config) false true true 64000 44100)
    (RoomConfig.ownerId config) (RoomConfig.isTemporary config).

Definition createRoom (s : VoiceChatManager) (config : RoomConfig.t)
  : VoiceChatManager * VoiceRoom.t :=
  (mkManager (JsMap.set (RoomConfig.id config) (newRoom config) (rooms s))
     (userRooms s),
   newRoom config).

Definition setupDefaultRooms (s : VoiceChatManager) : VoiceChatManager :=
  let s1 :=
    fst (createRoom s
           (RoomConfig.mk "general" "الغرفة العامة"
              (Some "غرفة المحادثة الصوتية العامة للجميع") "system" false
              None (Number.of_Z 50) false)) in
  fst (createRoom s1
         (RoomConfig.mk "gaming" "غرفة الألعاب"
            (Some "للمحادثة الصوتية أثناء اللعب") "system" false None
            (Number.of_Z 20) false)).

(** The manager once its constructor has run. *)
Definition initial : VoiceChatManager := setupDefaultRooms (mkManager [] []).

Definition generateRoomId (rnd : string) : string := "voice_" ++ rnd.

Definition serializeVoiceUser (user : VoiceUser.t) : SerializedUser.t :=
  SerializedUser.mk (VoiceUser.id user) (VoiceUser.username user)
    (VoiceUser.isAdmin user) (VoiceUser.isMuted user)
    (VoiceUser.isSpeaking user) (VoiceUser.isDeafened user)
    (VoiceUser.volume user) (VoiceUser.quality user)
    (VoiceUser.micEnabled user) (VoiceUser.speakerEnabled user)
    (VoiceUser.lastActivity user).

Definition serializeVoiceRoom (room : VoiceRoom.t) : SerializedRoom.t :=
  SerializedRoom.mk (VoiceRoom.id room) (VoiceRoom.name room)
    (VoiceRoom.description room)
    (map serializeVoiceUser (JsMap.values (VoiceRoom.users room)))
    (VoiceRoom.settings room) (VoiceRoom.ownerId room)
    (VoiceRoom.isTemporary room) (JsMap.size (VoiceRoom.users room)).

(** [{...audioData, volume: volume / 100}] *)
Definition applyVolumeControl (audioData : JsMap.t JsValue) (volume : Z)
  : JsMap.t JsValue :=
  JsMap.set "volume" (JNum (volume # 100)) audioData.

(** The room object [room] held under [roomId] after a mutation of its
    fields: the entry keeps its place in the store. *)
Definition storeRoom (roomId : string) (room : VoiceRoom.t)
    (s : VoiceChatManager) : VoiceChatManager :=
  mkManager (JsMap.set roomId room (rooms s)) (userRooms s).

Section Handlers.

(** [ws.readyState] at the time the handler runs. *)
Variable readyState : WebSocket -> ReadyState.

(** The time that [new Date()] reads when the handler runs. *)
Variable now : Z.

Definition sendToUser (ws : WebSocket) (message : Message.t) : list Effect :=
  if isOPEN (readyState ws) then [Send ws message] else [].

Definition sendError (ws : WebSocket) (text : string) : list Effect :=
  sendToUser ws (Message.mk "voice_room_join" "" "" (error text)).

(** [userId === excludeUserId], where [excludeUserId] may be [undefined]. *)
Definition excluded (userId : string) (excludeUserId : option string)
  : bool :=
  match excludeUserId with
  | Some e => (userId =? e)%string
  | None => false
  end.

Definition broadcastToVoiceRoom (s : VoiceChatManager) (roomId : string)
    (message : Message.t) (excludeUserId : option string) : list Effect :=
  match JsMap.get roomId (rooms s) with
  | None => []
  | Some room =>
      flat_map
        (fun kv =>
           if negb (excluded (fst kv) excludeUserId)
              && isOPEN (readyState (VoiceUser.ws (snd kv)))
           then sendToUser (VoiceUser.ws (snd kv)) message
           else [])
        (VoiceRoom.users room)
  end.

Definition removeUserFromRoom (s : VoiceChatManager) (userId roomId : string)
  : VoiceChatManager * list Effect :=
  match JsMap.get roomId (rooms s) with
  | None => (s, [])
  | Some room =>
      match JsMap.get userId (VoiceRoom.users room) with
      | None => (s, [])
      | Some user =>
          let room' :=
            VoiceRoom.with_users (JsMap.delete userId (VoiceRoom.users room))
              room in
          let s1 :=
            mkManager (JsMap.set roomId room' (rooms s))
              (JsMap.delete userId (userRooms s)) in
          let out :=
            broadcastToVoiceRoom s1 roomId
              (Message.mk "voice_user_status" roomId userId
                 (user_left
                    ("غادر " ++ VoiceUser.username user
                     ++ " المحادثة الصوتية")))
              None in
          if VoiceRoom.isTemporary room'
             && (JsMap.size (VoiceRoom.users room') =? 0) then
            (mkManager (JsMap.delete roomId (rooms s1)) (userRooms s1), out)
          else (s1, out)
      end
  end.

(** The handler run to completion, as it goes when no event comes between
    the eviction it awaits and the rest.  The local [room] is the object
    fetched before the eviction of the previous membership.  When the
    eviction empties and deletes that very room (a temporary room the user
    rejoins alone), the object lives on outside the store and the rest of
    the handler writes to it there. *)
Definition handleRoomJoin (s : VoiceChatManager) (ws : WebSocket)
    (roomId : option string) (userInfo : UserInfo.t)
    (password : option string) : VoiceChatManager * list Effect :=
  match roomId with
  | None => (s, sendError ws "الغرفة الصوتية غير موجودة")
  | Some roomId =>
  match JsMap.get roomId (rooms s) with
  | None => (s, sendError ws "الغرفة الصوتية غير موجودة")
  | Some room =>
      if Number.leb (Settings.maxUsers (VoiceRoom.settings room))
           (Number.of_Z (JsMap.size (VoiceRoom.users room))) then
        (s, sendError ws "الغرفة الصوتية ممتلئة")
      else if Settings.isPrivate (VoiceRoom.settings room)
              && strict_neq (Settings.password (VoiceRoom.settings room))
                   password then
        (s, sendError ws "كلمة مرور الغرفة الصوتية خاطئة")
      else
        let userId := UserInfo.id userInfo in
        let (s1, out1) :=
          match JsMap.get userId (userRooms s) with
          | Some previousRoomId =>
              if truthy_str previousRoomId
              then removeUserFromRoom s userId previousRoomId
              else (s, [])
          | None => (s, [])
          end in
        let voiceUser :=
          VoiceUser.mk userId (UserInfo.username userInfo)
            (js_or truthy_bool (UserInfo.isAdmin userInfo) false)
            false false false 100 medium ws now true true in
        let stored := JsMap.get roomId (rooms s1) in
        let current :=
          match stored with
          | Some r => r
          | None =>
              VoiceRoom.with_users
                (JsMap.delete userId (VoiceRoom.users room)) room
          end in
        let room' :=
          VoiceRoom.with_users
            (JsMap.set userId voiceUser (VoiceRoom.users current)) current in
        let s' :=
          mkManager
            (match stored with
             | Some _ => JsMap.set roomId room' (rooms s1)
             | None => rooms s1
             end)
            (JsMap.set userId roomId (userRooms s1)) in
        (s', (out1
              ++ sendToUser ws
                   (Message.mk "voice_room_join" roomId userId
                      (welcome (serializeVoiceRoom room')
                         (VoiceRoom.settings room')
                         ("مرحباً بك في " ++ VoiceRoom.name room')))
              ++ broadcastToVoiceRoom s' roomId
                   (Message.mk "voice_user_status" roomId userId
                      (user_joined (serializeVoiceUser voiceUser)
                         ("انضم " ++ UserInfo.username userInfo
                          ++ " للمحادثة الصوتية")))
                   (Some userId))%list)
  end
  end.

Definition handleRoomLeave (s : VoiceChatManager) (roomId userId : string)
  : VoiceChatManager * list Effect :=
  removeUserFromRoom s userId roomId.

(** The user object [user] held under [userId] in the room under [roomId],
    after a mutation of its fields. *)
Definition storeUser (roomId userId : string) (room : VoiceRoom.t)
    (user : VoiceUser.t) (s : VoiceChatManager) : VoiceChatManager :=
  storeRoom roomId
    (VoiceRoom.with_users (JsMap.set userId user (VoiceRoom.users room)) room)
    s.

Definition handleStartSpeaking (s : VoiceChatManager)
    (roomId userId : string) : VoiceChatManager * list Effect :=
  match JsMap.get roomId (rooms s) with
  | None => (s, [])
  | Some room =>
      match JsMap.get userId (VoiceRoom.users room) with
      | None => (s, [])
      | Some user =>
          if VoiceUser.isMuted user then (s, [])
          else
            let user' :=
              VoiceUser.with_lastActivity now
                (VoiceUser.with_isSpeaking true user) in
            let s' := storeUser roomId userId room user' s in
            (s', broadcastToVoiceRoom s' roomId
                   (Message.mk "voice_start_speaking" roomId userId
                      (speaking (VoiceUser.username user')
                         (VoiceUser.quality user')))
                   (Some userId))
      end
  end.

Definition handleStopSpeaking (s : VoiceChatManager)
    (roomId userId : string) : VoiceChatManager * list Effect :=
  match JsMap.get roomId (rooms s) with
  | None => (s, [])
  | Some room =>
      match JsMap.get userId (VoiceRoom.users room) with
      | None => (s, [])
      | Some user =>
          let user' := VoiceUser.with_isSpeaking false user in
          let s' := storeUser roomId userId room user' s in
          (s', broadcastToVoiceRoom s' roomId
                 (Message.mk "voice_stop_speaking" roomId userId
                    (silent (VoiceUser.username user')))
                 (Some userId))
      end
  end.

Definition handleAudioData (s : VoiceChatManager) (roomId userId : string)
    (audioData : JsMap.t JsValue) : VoiceChatManager * list Effect :=
  match JsMap.get roomId (rooms s) with
  | None => (s, [])
  | Some room =>
      match JsMap.get userId (VoiceRoom.users room) with
      | None => (s, [])
      | Some sender =>
          if VoiceUser.isMuted sender then (s, [])
          else
            (s, flat_map
                  (fun kv =>
                     if negb (fst kv =? userId)%string
                        && negb (VoiceUser.isDeafened (snd kv))
                        && VoiceUser.speakerEnabled (snd kv)
                     then
                       if isOPEN (readyState (VoiceUser.ws (snd kv))) then
                         sendToUser (VoiceUser.ws (snd kv))
                           (Message.mk "voice_audio_data" roomId userId
                              (audio
                                 (applyVolumeControl audioData
                                    (VoiceUser.volume (snd kv)))
                                 userId (VoiceUser.username sender)
                                 (VoiceUser.quality sender)))
                       else []
                     else [])
                  (VoiceRoom.users room))
      end
  end.

Definition handleMute (s : VoiceChatManager) (roomId userId : string)
  : VoiceChatManager * list Effect :=
  match JsMap.get roomId (rooms s) with
  | None => (s, [])
  | Some room =>
      match JsMap.get userId (VoiceRoom.users room) with
      | None => (s, [])
      | Some user =>
          let user' :=
            VoiceUser.with_isSpeaking false (VoiceUser.with_isMuted true user)
          in
          let s' := storeUser roomId userId room user' s in
          (s', broadcastToVoiceRoom s' roomId
                 (Message.mk "voice_mute" roomId userId
                    (muted (VoiceUser.username user') true))
                 None)
      end
  end.

Definition handleUnmute (s : VoiceChatManager) (roomId userId : string)
  : VoiceChatManager * list Effect :=
  match JsMap.get roomId (rooms s) with
  | None => (s, [])
  | Some room =>
      match JsMap.get userId (VoiceRoom.users room) with
      | None => (s, [])
      | Some user =>
          let user' := VoiceUser.with_isMuted false user in
          let s' := storeUser roomId userId room user' s in
          (s', broadcastToVoiceRoom s' roomId
                 (Message.mk "voice_unmute" roomId userId
                    (muted (VoiceUser.username user') false))
                 None)
      end
  end.

(** The handler up to its [await].  The join issued from here carries
    [data: { userInfo }] only: its [data.roomId] and [data.password] are
    [undefined], and it is refused before any [await] of its own. *)
Definition handleRoomCreate_begin (s : VoiceChatManager) (ws : WebSocket)
    (rnd : string) (roomData : RoomData.t) (userInfo : UserInfo.t)
  : VoiceChatManager * list Effect :=
  let roomId := generateRoomId rnd in
  let (s1, room) :=
    createRoom s
      (RoomConfig.mk roomId
         (js_or truthy_str (RoomData.name roomData)
            ("غرفة " ++ UserInfo.username userInfo))
         (RoomData.description roomData) (UserInfo.id userInfo)
         (js_or truthy_bool (RoomData.isPrivate roomData) false)
         (RoomData.password roomData)
         (js_or Number.truthy (RoomData.maxUsers roomData) (Number.of_Z 10))
         true) in
  handleRoomJoin s1 ws None userInfo None.

(** The handler run to completion, as it goes when no event comes between
    the join it awaits and the confirmation. *)
Definition handleRoomCreate (s : VoiceChatManager) (ws : WebSocket)
    (rnd : string) (roomData : RoomData.t) (userInfo : UserInfo.t)
  : VoiceChatManager * list Effect :=
  let roomId := generateRoomId rnd in
  let (s1, room) :=
    createRoom s
      (RoomConfig.mk roomId
         (js_or truthy_str (RoomData.name roomData)
            ("غرفة " ++ UserInfo.username userInfo))
         (RoomData.description roomData) (UserInfo.id userInfo)
         (js_or truthy_bool (RoomData.isPrivate roomData) false)
         (RoomData.password roomData)
         (js_or Number.truthy (RoomData.maxUsers roomData) (Number.of_Z 10))
         true) in
  let (s2, out) := handleRoomJoin s1 ws None userInfo None in
  (s2, (out
        ++ sendToUser ws
             (Message.mk "voice_room_create" roomId (UserInfo.id userInfo)
                (room_created (serializeVoiceRoom room)
                   "تم إنشاء الغرفة الصوتية بنجاح")))%list).

Definition handleQualityChange (s : VoiceChatManager)
    (roomId userId : string) (quality : Quality) (volume : option Z)
  : VoiceChatManager * list Effect :=
  match JsMap.get roomId (rooms s) with
  | None => (s, [])
  | Some room =>
      match JsMap.get userId (VoiceRoom.users room) with
      | None => (s, [])
      | Some user =>
          let user' :=
            VoiceUser.with_volume
              (js_or truthy_num volume (VoiceUser.volume user))
              (VoiceUser.with_quality quality user) in
          let s' := storeUser roomId userId room user' s in
          (s', sendToUser (VoiceUser.ws user')
                 (Message.mk "voice_quality_change" roomId userId
                    (quality_changed (VoiceUser.quality user')
                       (VoiceUser.volume user') "تم تحديث إعدادات الصوت")))
      end
  end.

Definition handleEchoTest (s : VoiceChatManager) (ws : WebSocket)
    (roomId userId : string) (audioData : JsMap.t JsValue)
  : VoiceChatManager * list Effect :=
  (s, [setTimeout 500 ws
         (Message.mk "voice_echo_test" roomId userId
            (echo audioData 500 "اختبار الصدى مكتمل"))]).

Definition handleNoiseReduction (s : VoiceChatManager)
    (roomId userId : string) (enabled : bool)
  : VoiceChatManager * list Effect :=
  match JsMap.get roomId (rooms s) with
  | None => (s, [])
  | Some room =>
      match JsMap.get userId (VoiceRoom.users room) with
      | None => (s, [])
      | Some user =>
          if negb (VoiceUser.isAdmin user) then (s, [])
          else
            let room' :=
              VoiceRoom.with_settings
                (Settings.with_noiseReduction enabled
                   (VoiceRoom.settings room)) room in
            let s' := storeRoom roomId room' s in
            (s', broadcastToVoiceRoom s' roomId
                   (Message.mk "voice_room_settings" roomId userId
                      (settings_changed (VoiceRoom.settings room')
                         ("تم " ++ (if enabled then "تفعيل" else "إلغاء")
                          ++ " تقليل الضوضاء")))
                   None)
      end
  end.

Definition handleUserDisconnect (s : VoiceChatManager) (user : VoiceUser.t)
  : VoiceChatManager * list Effect :=
  match JsMap.get (VoiceUser.id user) (userRooms s) with
  | Some roomId =>
      if truthy_str roomId
      then removeUserFromRoom s (VoiceUser.id user) roomId
      else (s, [])
  | None => (s, [])
  end.

Definition handleVoiceMessage (s : VoiceChatManager) (ws : WebSocket)
    (message : VoiceMessage) : VoiceChatManager * list Effect :=
  match message with
  | voice_room_join roomId userInfo password =>
      handleRoomJoin s ws roomId userInfo password
  | voice_room_leave roomId userId => handleRoomLeave s roomId userId
  | voice_start_speaking roomId userId => handleStartSpeaking s roomId userId
  | voice_stop_speaking roomId userId => handleStopSpeaking s roomId userId
  | voice_audio_data roomId userId audioData =>
      handleAudioData s roomId userId audioData
  | voice_mute roomId userId => handleMute s roomId userId
  | voice_unmute roomId userId => handleUnmute s roomId userId
  | voice_room_create rnd roomData userInfo =>
      handleRoomCreate s ws rnd roomData userInfo
  | voice_quality_change roomId userId quality volume =>
      handleQualityChange s roomId userId quality volume
  | voice_echo_test roomId userId audioData =>
      handleEchoTest s ws roomId userId audioData
  | voice_noise_reduction roomId userId enabled =>
      handleNoiseReduction s roomId userId enabled
  | other _ => (s, [])
  end.

End Handlers.

(** ** The handlers across their [await]

    [handleRoomJoin] awaits the eviction of the previous membership: when
    the user has a previous room, the handler is suspended after the
    eviction and what follows (the new record, the index, the two messages)
    runs when it resumes.  [handleRoomCreate] awaits the join it issues: it
    is suspended after it, and the confirmation is sent when it resumes.
    Other events can be handled in between.  A suspended handler holds a
    room object: the one a join fetched before the eviction, the one a
    creation made.  That object is the one in the store under its id, or it
    has left the store meanwhile: deleted when it became empty, or replaced
    by a room created under the same id. *)

Inductive Held := stored | detached (cell : nat).

(** What a suspended handler has left to run: [handleRoomJoin] after the
    eviction, or [handleRoomCreate] after the join. *)
Inductive Continuation := afterEviction | afterJoin.

Module Suspended.
Record t := mk {
  continuation : Continuation;
  ws : WebSocket;
  roomId : string;
  userInfo : UserInfo.t;
  room : Held
}.
End Suspended.

(** The manager, the room objects that have left the store, and the
    handlers that are suspended, oldest first. *)
Record World := mkWorld {
  manager : VoiceChatManager;
  cells : list VoiceRoom.t;
  suspended : list Suspended.t
}.

(** The server once the constructor of the manager has run. *)
Definition start : World := mkWorld initial [] [].

Definition with_manager (s : VoiceChatManager) (w : World) : World :=
  mkWorld s (cells w) (suspended w).

(** The room object under [roomId] leaves the store as [room]: the
    handlers suspended on it keep it. *)
Definition detach (roomId : string) (room : VoiceRoom.t) (w : World)
  : World :=
  mkWorld (manager w) (cells w ++ [room])
    (map (fun k =>
            match Suspended.room k with
            | stored =>
                if (Suspended.roomId k =? roomId)%string
                then Suspended.mk (Suspended.continuation k) (Suspended.ws k)
                       (Suspended.roomId k) (Suspended.userInfo k)
                       (detached (List.length (cells w)))
                else k
            | detached _ => k
            end)
       (suspended w)).

(** The room object that [removeUserFromRoom] deletes from the store, when
    it deletes one. *)
Definition deletedRoom (s : VoiceChatManager) (userId roomId : string)
  : option VoiceRoom.t :=
  match JsMap.get roomId (rooms s) with
  | None => None
  | Some room =>
      match JsMap.get userId (VoiceRoom.users room) with
      | None => None
      | Some _ =>
          let room' :=
            VoiceRoom.with_users (JsMap.delete userId (VoiceRoom.users room))
              room in
          if VoiceRoom.isTemporary room'
             && (JsMap.size (VoiceRoom.users room') =? 0)
          then Some room'
          else None
      end
  end.

(** The room and the previous room of a join that passes the checks of
    [handleRoomJoin] and reaches its [await]. *)
Definition joinAwaits (s : VoiceChatManager) (roomId : option string)
    (userInfo : UserInfo.t) (password : option string)
  : option (string * string) :=
  match roomId with
  | None => None
  | Some roomId =>
  match JsMap.get roomId (rooms s) with
  | None => None
  | Some room =>
      if Number.leb (Settings.maxUsers (VoiceRoom.settings room))
           (Number.of_Z (JsMap.size (VoiceRoom.users room))) then None
      else if Settings.isPrivate (VoiceRoom.settings room)
              && strict_neq (Settings.password (VoiceRoom.settings room))
                   password then None
      else
        match JsMap.get (UserInfo.id userInfo) (userRooms s) with
        | Some previousRoomId =>
            if truthy_str previousRoomId then Some (roomId, previousRoomId)
            else None
        | None => None
        end
  end
  end.

Definition replace_nth {A} (n : nat) (a : A) (l : list A) : list A :=
  (firstn n l ++ a :: skipn (S n) l)%list.

Definition remove_nth {A} (n : nat) (l : list A) : list A :=
  (firstn n l ++ skipn (S n) l)%list.

Section Resume.
Variable readyState : WebSocket -> ReadyState.
Variable now : Z.

(** The room object that the suspended handler [k] holds. *)
Definition held (w : World) (k : Suspended.t) : option VoiceRoom.t :=
  match Suspended.room k with
  | stored => JsMap.get (Suspended.roomId k) (rooms (manager w))
  | detached cell => nth_error (cells w) cell
  end.

(** [handleRoomCreate] from the statement after its [await] to its end, for
    the suspended creation [k]. *)
Definition handleRoomCreate_resume (w : World) (k : Suspended.t)
  : World * list Effect :=
  match held w k with
  | Some room =>
      (w, sendToUser readyState (Suspended.ws k)
            (Message.mk "voice_room_create" (Suspended.roomId k)
               (UserInfo.id (Suspended.userInfo k))
               (room_created (serializeVoiceRoom room)
                  "تم إنشاء الغرفة الصوتية بنجاح")))
  | None => (w, [])
  end.

(** [handleRoomJoin] from the statement after its [await] to its end, for
    the suspended join [k]. *)
Definition handleRoomJoin_resume (w : World) (k : Suspended.t)
  : World * list Effect :=
  let s := manager w in
  let ws := Suspended.ws k in
  let roomId := Suspended.roomId k in
  let userInfo := Suspended.userInfo k in
  let userId := UserInfo.id userInfo in
  let voiceUser :=
    VoiceUser.mk userId (UserInfo.username userInfo)
      (js_or truthy_bool (UserInfo.isAdmin userInfo) false)
      false false false 100 medium ws now true true in
  let messages (room' : VoiceRoom.t) (s' : VoiceChatManager) :=
    (sendToUser readyState ws
       (Message.mk "voice_room_join" roomId userId
          (welcome (serializeVoiceRoom room') (VoiceRoom.settings room')
             ("مرحباً بك في " ++ VoiceRoom.name room')))
     ++ broadcastToVoiceRoom readyState s' roomId
          (Message.mk "voice_user_status" roomId userId
             (user_joined (serializeVoiceUser voiceUser)
                ("انضم " ++ UserInfo.username userInfo
                 ++ " للمحادثة الصوتية")))
          (Some userId))%list in
  match Suspended.room k with
  | stored =>
      match JsMap.get roomId (rooms s) with
      | Some room =>
          let room' :=
            VoiceRoom.with_users
              (JsMap.set userId voiceUser (VoiceRoom.users room)) room in
          let s' :=
            mkManager (JsMap.set roomId room' (rooms s))
              (JsMap.set userId roomId (userRooms s)) in
          (mkWorld s' (cells w) (suspended w), messages room' s')
      | None => (w, [])
      end
  | detached cell =>
      match nth_error (cells w) cell with
      | Some room =>
          let room' :=
            VoiceRoom.with_users
              (JsMap.set userId voiceUser (VoiceRoom.users room)) room in
          let s' :=
            mkManager (rooms s) (JsMap.set userId roomId (userRooms s)) in
          (mkWorld s' (replace_nth cell room' (cells w)) (suspended w),
           messages room' s')
      | None => (w, [])
      end
  end.

End Resume.

(** The circumstances of an event: the ready state of each socket and the
    clock reading. *)
Module Moment.
Record t := mk { readyState : WebSocket -> ReadyState; now : Z }.
End Moment.

(** What the event loop delivers to the manager: a message on a socket, the
    close of a socket, or the resumption of a suspended handler (the [n]-th
    of those suspended).  The close listener calls [handleUserDisconnect] for
    the user that a [voice_user_authenticated] event announced on the
    socket; nothing in the server emits that event, so a close finds no user
    and does nothing. *)
Inductive Event :=
| on_message (ws : WebSocket) (message : VoiceMessage)
| on_close (ws : WebSocket)
| on_resume (n : nat).

Definition step (moment : Moment.t) (w : World) (e : Event)
  : World * list Effect :=
  let readyState := Moment.readyState moment in
  let now := Moment.now moment in
  let s := manager w in
  match e with
  | on_message ws message =>
      match message with
      | voice_room_join roomId userInfo password =>
          match joinAwaits s roomId userInfo password with
          | Some (roomId', previousRoomId) =>
              let userId := UserInfo.id userInfo in
              let (s1, out1) :=
                removeUserFromRoom readyState s userId previousRoomId in
              let w1 :=
                mkWorld s1 (cells w)
                  (suspended w
                   ++ [Suspended.mk afterEviction ws roomId' userInfo
                         stored])
              in
              (match deletedRoom s userId previousRoomId with
               | Some room => detach previousRoomId room w1
               | None => w1
               end, out1)
          | None =>
              let (s1, out1) :=
                handleRoomJoin readyState now s ws roomId userInfo password
              in
              (with_manager s1 w, out1)
          end
      | voice_room_leave roomId userId =>
          let (s1, out1) := handleRoomLeave readyState s roomId userId in
          let w1 := with_manager s1 w in
          (match deletedRoom s userId roomId with
           | Some room => detach roomId room w1
           | None => w1
           end, out1)
      | voice_room_create rnd roomData userInfo =>
          let roomId := generateRoomId rnd in
          let (s1, out1) :=
            handleRoomCreate_begin readyState now s ws rnd roomData userInfo
          in
          let w1 :=
            match JsMap.get roomId (rooms s) with
            | Some room => detach roomId room w
            | None => w
            end in
          (mkWorld s1 (cells w1)
             (suspended w1
              ++ [Suspended.mk afterJoin ws roomId userInfo stored]),
           out1)
      | _ =>
          let (s1, out1) := handleVoiceMessage readyState now s ws message in
          (with_manager s1 w, out1)
      end
  | on_close ws => (w, [])
  | on_resume n =>
      match nth_error (suspended w) n with
      | Some k =>
          let w1 := mkWorld s (cells w) (remove_nth n (suspended w)) in
          match Suspended.continuation k with
          | afterEviction => handleRoomJoin_resume readyState now w1 k
          | afterJoin => handleRoomCreate_resume readyState w1 k
          end
      | None => (w, [])
      end
  end.

(** A run of the server: each event comes with its moment. *)
Fixpoint run (w : World) (trace : list (Moment.t * Event))
  : World * list Effect :=
  match trace with
  | [] => (w, [])
  | (moment, e) :: trace' =>
      let (w1, out1) := step moment w e in
      let (w2, out2) := run w1 trace' in
      (w2, (out1 ++ out2)%list)
  end.

(** ** The read-only queries served to the HTTP routes *)

Definition getVoiceRooms (s : VoiceChatManager) : list SerializedRoom.t :=
  map serializeVoiceRoom (JsMap.values (rooms s)).

(** [null] is [None]. *)
Definition getVoiceRoom (s : VoiceChatManager) (roomId : string)
  : option SerializedRoom.t :=
  match JsMap.get roomId (rooms s) with
  | Some room => Some (serializeVoiceRoom room)
  | None => None
  end.

Definition getUserVoiceRoom (s : VoiceChatManager) (userId : string)
  : option SerializedRoom.t :=
  match JsMap.get userId (userRooms s) with
  | Some roomId => if truthy_str roomId then getVoiceRoom s roomId else None
  | None => None
  end.

Module Stats.
Record t := mk { totalRooms : Z; totalUsers : Z; activeRooms : Z }.
End Stats.

Definition getRoomStats (s : VoiceChatManager) : Stats.t :=
  Stats.mk (JsMap.size (rooms s))
    (fold_left (fun sum room => sum + JsMap.size (VoiceRoom.users room))
       (JsMap.values (rooms s)) 0)
    (Z.of_nat
       (List.length
          (filter (fun room => JsMap.size (VoiceRoom.users room) >? 0)
             (JsMap.values (rooms s))))).

End VoiceChat.

(** * Scenarios used to exercise the handlers *)

Module Scenario.

Definition allOpen : WebSocket -> ReadyState := fun _ => OPEN.

Definition alice := GameSync.PlayerInfo.mk "alice" "Alice" None.
Definition bob := GameSync.PlayerInfo.mk "bob" "Bob" None.
Definition carol := GameSync.PlayerInfo.mk "carol" "Carol" None.

Definition settings (maxPlayers : Z) : GameSync.CreateSettings.t :=
  GameSync.CreateSettings.mk (Some (Number.of_Z maxPlayers)) None None None
    None.

(** Alice, on socket 1, creates room [room_a]. *)
Definition created : GameSync.GameSyncManager :=
  fst (GameSync.run GameSync.initial
         [ (allOpen, GameSync.on_message 1%nat
                       (GameSync.room_create "a" "fruit_catching"
                          (settings 2) alice)) ]).

(** Then Bob, on socket 2, joins it. *)
Definition joined : GameSync.GameSyncManager :=
  fst (GameSync.run created
         [ (allOpen, GameSync.on_message 2%nat
                       (GameSync.room_join (Some "room_a") bob None 0.25
                          0.5)) ]).

(** Bob creates a second room, [room_b], while Alice stays in [room_a]. *)
Definition two_rooms : GameSync.GameSyncManager :=
  fst (GameSync.run created
         [ (allOpen, GameSync.on_message 2%nat
                       (GameSync.room_create "b" "racing" (settings 4)
                          bob)) ]).

(** In the room of Alice and Bob, Bob scores 7 and Alice 5. *)
Definition scored : GameSync.GameSyncManager :=
  fst (GameSync.run joined
         [ (allOpen, GameSync.on_message 2%nat
                       (GameSync.player_score "room_a" "bob" 7 None));
           (allOpen, GameSync.on_message 1%nat
                       (GameSync.player_score "room_a" "alice" 5 None)) ]).

(** A room of three: Alice creates [room_t], Bob and Carol join. *)
Definition trio : GameSync.GameSyncManager :=
  fst (GameSync.run GameSync.initial
         [ (allOpen, GameSync.on_message 1%nat
                       (GameSync.room_create "t" "racing" (settings 4)
                          alice));
           (allOpen, GameSync.on_message 2%nat
                       (GameSync.room_join (Some "room_t") bob None 0.25
                          0.5));
           (allOpen, GameSync.on_message 3%nat
                       (GameSync.room_join (Some "room_t") carol None 0.75
                          0.5)) ]).

(** A bomb at Alice's position that reaches 10 units and costs one life. *)
Definition bomb : GameSync.BombData.t :=
  GameSync.BombData.mk (GameSync.Position.mk 50 50) 10 1 [].

(** A bomb far to the right of Alice, at 2^600, that reaches 2^610. *)
Definition farBomb : GameSync.BombData.t :=
  GameSync.BombData.mk (GameSync.Position.mk 0x1p+600 50) 0x1p+610 1 [].

(** Bob joins Alice's room and is placed at the origin. *)
Definition cornered : GameSync.GameSyncManager :=
  fst (GameSync.run created
         [ (allOpen, GameSync.on_message 2%nat
                       (GameSync.room_join (Some "room_a") bob None 0 0)) ]).

(** A bomb at 2^-600 from the origin that reaches nothing but its own
    point. *)
Definition pointBomb : GameSync.BombData.t :=
  GameSync.BombData.mk (GameSync.Position.mk 0x1p-600 0) 0 1 [].


(** The events that gather Alice, Bob and Carol in [room_t]. *)
Definition gathering : list ((WebSocket -> ReadyState) * GameSync.Event) :=
  [ (allOpen, GameSync.on_message 1%nat
                (GameSync.room_create "t" "racing" (settings 4) alice));
    (allOpen, GameSync.on_message 2%nat
                (GameSync.room_join (Some "room_t") bob None 0.25 0.5));
    (allOpen, GameSync.on_message 3%nat
                (GameSync.room_join (Some "room_t") carol None 0.75 0.5)) ].

(** Alice creates [room_a] and, alone in it, starts the game. *)
Definition kickoff : list ((WebSocket -> ReadyState) * GameSync.Event) :=
  [ (allOpen, GameSync.on_message 1%nat
                (GameSync.room_create "a" "fruit_catching" (settings 2)
                   alice));
    (allOpen, GameSync.on_message 1%nat
                (GameSync.game_start "room_a" "alice")) ].

(** Alice plays in [room_a]. *)
Definition playing : GameSync.GameSyncManager :=
  fst (GameSync.run GameSync.initial kickoff).

(** Alice, on socket 1, is in [room_a] and, on the same socket, in
    [room_b]. *)
Definition both_rooms : GameSync.GameSyncManager :=
  fst (GameSync.run created
         [ (allOpen, GameSync.on_message 2%nat
                       (GameSync.room_create "b" "racing" (settings 4)
                          bob));
           (allOpen, GameSync.on_message 1%nat
                       (GameSync.room_join (Some "room_b") alice None 0.25
                          0.5)) ]).

Definition ann := VoiceChat.UserInfo.mk "ann" "Ann" None.
Definition ben := VoiceChat.UserInfo.mk "ben" "Ben" None.

(** Every socket is open and the clock reads 1000. *)
Definition moment : VoiceChat.Moment.t := VoiceChat.Moment.mk allOpen 1000.

(** The voice manager of the server after the events [trace]. *)
Definition after (trace : list (VoiceChat.Moment.t * VoiceChat.Event))
  : VoiceChat.VoiceChatManager :=
  VoiceChat.manager (fst (VoiceChat.run VoiceChat.start trace)).

(** Ann (socket 1) and Ben (socket 2) join the voice room [general]. *)
Definition meeting : list (VoiceChat.Moment.t * VoiceChat.Event) :=
  [ (moment, VoiceChat.on_message 1%nat
               (VoiceChat.voice_room_join (Some "general") ann None));
    (moment, VoiceChat.on_message 2%nat
               (VoiceChat.voice_room_join (Some "general") ben None)) ].

Definition talking : VoiceChat.VoiceChatManager := after meeting.

(** Then Ann mutes herself. *)
Definition hushing : list (VoiceChat.Moment.t * VoiceChat.Event) :=
  (meeting
   ++ [ (moment, VoiceChat.on_message 1%nat
                   (VoiceChat.voice_mute "general" "ann")) ])%list.

Definition hushed : VoiceChat.VoiceChatManager := after hushing.

(** An administrator, on socket 3, joins Ann and Ben in [general]. *)
Definition root := VoiceChat.UserInfo.mk "root" "Root" (Some true).

Definition moderated : VoiceChat.VoiceChatManager :=
  after
    (meeting
     ++ [ (moment, VoiceChat.on_message 3%nat
                     (VoiceChat.voice_room_join (Some "general") root
                        None)) ])%list.

(** Ann creates the temporary room [voice_d] and joins it: she is alone
    there. *)
Definition den : VoiceChat.VoiceChatManager :=
  after
    [ (moment, VoiceChat.on_message 1%nat
                 (VoiceChat.voice_room_create "d"
                    (VoiceChat.RoomData.mk (Some "Den") None None None
                       (Some (Number.of_Z 5)))
                    ann));
      (moment, VoiceChat.on_message 1%nat
                 (VoiceChat.voice_room_join (Some "voice_d") ann None)) ].



(** Ann, in [general], sends a join for [gaming] and, before it resumes, a
    join for [general]. *)
Definition overtaking : list (VoiceChat.Moment.t * VoiceChat.Event) :=
  [ (moment, VoiceChat.on_message 1%nat
               (VoiceChat.voice_room_join (Some "gaming") ann None));
    (moment, VoiceChat.on_message 1%nat
               (VoiceChat.voice_room_join (Some "general") ann None));
    (moment, VoiceChat.on_resume 0%nat) ].

(** Ann creates the temporary room [voice_s], for one user, and joins
    [general]; she sends a join for [voice_s] and, before it resumes, Ben
    joins [voice_s]. *)
Definition crowding : list (VoiceChat.Moment.t * VoiceChat.Event) :=
  [ (moment, VoiceChat.on_message 1%nat
               (VoiceChat.voice_room_create "s"
                  (VoiceChat.RoomData.mk (Some "Solo") None None None
                     (Some (Number.of_Z 1)))
                  ann));
    (moment, VoiceChat.on_resume 0%nat);
    (moment, VoiceChat.on_message 1%nat
               (VoiceChat.voice_room_join (Some "general") ann None));
    (moment, VoiceChat.on_message 1%nat
               (VoiceChat.voice_room_join (Some "voice_s") ann None));
    (moment, VoiceChat.on_message 2%nat
               (VoiceChat.voice_room_join (Some "voice_s") ben None));
    (moment, VoiceChat.on_resume 0%nat) ].

End Scenario.

(** * Observations on the managers' states and effects *)

Module Observe.

(** The record of player [playerId] among the members of game room
    [roomId]. *)
Definition player (s : GameSync.GameSyncManager) (roomId playerId : string)
  : option GameSync.GamePlayer.t :=
  match JsMap.get roomId (GameSync.rooms s) with
  | Some room => JsMap.get playerId (GameSync.GameRoom.players room)
  | None => None
  end.

(** [playerId] is among the members of game room [roomId]. *)
Definition member (s : GameSync.GameSyncManager) (roomId playerId : string)
  : bool :=
  match player s roomId playerId with Some _ => true | None => false end.

(** The members of game room [roomId] that hold the host flag. *)
Definition hosts (s : GameSync.GameSyncManager) (roomId : string)
  : list GameSync.GamePlayer.t :=
  match JsMap.get roomId (GameSync.rooms s) with
  | Some room =>
      filter GameSync.GamePlayer.isHost
        (JsMap.values (GameSync.GameRoom.players room))
  | None => []
  end.

(** The value of a finite double (0 for the others). *)
Definition valueOf (f : float) : Q :=
  match Prim2SF f with
  | S754_finite s m e =>
      ((if s then -1 else 1) * inject_Z (Zpos m) * Qpower 2 e)%Q
  | _ => 0%Q
  end.

(** The Euclidean distance from [p] to [q] is at most [r]: on the values of
    the coordinates, without rounding, and with the two sides squared. *)
Definition euclideanWithin (p q : GameSync.Position.t) (r : float) : bool :=
  let dx :=
    (valueOf (GameSync.Position.x q) - valueOf (GameSync.Position.x p))%Q in
  let dy :=
    (valueOf (GameSync.Position.y q) - valueOf (GameSync.Position.y p))%Q in
  Qle_bool 0 (valueOf r)
  && Qle_bool (dx * dx + dy * dy) (valueOf r * valueOf r).

(** What the handlers maintain of a game room in the store: its players are
    keyed by their id, a player that holds the host flag is the one named by
    [hostId], and [hostId] names a member. *)
Definition roomShape (room : GameSync.GameRoom.t) : Prop :=
  JsMap.wf (GameSync.GameRoom.players room) /\
  (forall k p,
     In (k, p) (GameSync.GameRoom.players room) ->
     GameSync.GamePlayer.id p = k) /\
  (forall k p,
     In (k, p) (GameSync.GameRoom.players room) ->
     GameSync.GamePlayer.isHost p = true ->
     k = GameSync.GameRoom.hostId room) /\
  JsMap.has (GameSync.GameRoom.hostId room) (GameSync.GameRoom.players room)
  = true.

Definition gameShape (s : GameSync.GameSyncManager) : Prop :=
  Forall roomShape (JsMap.values (GameSync.rooms s)).

(** A [room_join] that names no room, or a room that is not in the store, in
    play, full, or private with another password. *)
Definition gameJoinRefused (s : GameSync.GameSyncManager)
    (roomId password : option string) : Prop :=
  match roomId with
  | None => True
  | Some roomId =>
      match JsMap.get roomId (GameSync.rooms s) with
      | None => True
      | Some room =>
          GameSync.GameRoom.status room = GameSync.playing \/
          Number.leb
            (GameSync.Settings.maxPlayers (GameSync.GameRoom.settings room))
            (Number.of_Z (JsMap.size (GameSync.GameRoom.players room)))
          = true \/
          (GameSync.Settings.isPrivate (GameSync.GameRoom.settings room)
           = true /\
           GameSync.Settings.password (GameSync.GameRoom.settings room)
           <> password)
      end
  end.

(** A [voice_room_join] that names no room, or a room that is not in the
    store, full, or private with another password. *)
Definition voiceJoinRefused (s : VoiceChat.VoiceChatManager)
    (roomId password : option string) : Prop :=
  match roomId with
  | None => True
  | Some roomId =>
      match JsMap.get roomId (VoiceChat.rooms s) with
      | None => True
      | Some room =>
          Number.leb
            (VoiceChat.Settings.maxUsers (VoiceChat.VoiceRoom.settings room))
            (Number.of_Z (JsMap.size (VoiceChat.VoiceRoom.users room)))
          = true \/
          (VoiceChat.Settings.isPrivate (VoiceChat.VoiceRoom.settings room)
           = true /\
           VoiceChat.Settings.password (VoiceChat.VoiceRoom.settings room)
           <> password)
      end
  end.

(** The record of user [userId] among the members of voice room [roomId]. *)
Definition voiceUser (s : VoiceChat.VoiceChatManager) (roomId userId : string)
  : option VoiceChat.VoiceUser.t :=
  match JsMap.get roomId (VoiceChat.rooms s) with
  | Some room => JsMap.get userId (VoiceChat.VoiceRoom.users room)
  | None => None
  end.

(** The flags of that record; [false] when there is none. *)
Definition isMuted (s : VoiceChat.VoiceChatManager) (roomId userId : string)
  : bool :=
  match voiceUser s roomId userId with
  | Some user => VoiceChat.VoiceUser.isMuted user
  | None => false
  end.

Definition isSpeaking (s : VoiceChat.VoiceChatManager)
    (roomId userId : string) : bool :=
  match voiceUser s roomId userId with
  | Some user => VoiceChat.VoiceUser.isSpeaking user
  | None => false
  end.



(** A member that is muted is not speaking. *)
Definition quiet (s : VoiceChat.VoiceChatManager) (roomId userId : string)
  : Prop :=
  isMuted s roomId userId = true -> isSpeaking s roomId userId = false.






(** A game room holds its creator alone, or one player less than it holds
    is a count below its capacity: the count that the last join found. *)
Definition withinCapacity (room : GameSync.GameRoom.t) : Prop :=
  JsMap.size (GameSync.GameRoom.players room) <= 1 \/
  Number.leb (GameSync.Settings.maxPlayers (GameSync.GameRoom.settings room))
    (Number.of_Z (JsMap.size (GameSync.GameRoom.players room) - 1))
  = false.

Definition gameCapacity (s : GameSync.GameSyncManager) : Prop :=
  Forall withinCapacity (JsMap.values (GameSync.rooms s)).

(** The game store lists every room once, under its own id. *)
Definition gameStoreShape (s : GameSync.GameSyncManager) : Prop :=
  JsMap.wf (GameSync.rooms s) /\
  forall k room,
    In (k, room) (GameSync.rooms s) -> GameSync.GameRoom.id room = k.

(** An armed timer is the five-minute timeout of a room of the store, and a
    room in play has its timer armed. *)
Definition timersShape (s : GameSync.GameSyncManager) : Prop :=
  (forall r timer,
     JsMap.get r (GameSync.gameTimers s) = Some timer ->
     timer = GameSync.Timeout.mk 300000 r "timeout" /\
     JsMap.get r (GameSync.rooms s) <> None) /\
  (forall r room,
     JsMap.get r (GameSync.rooms s) = Some room ->
     GameSync.GameRoom.status room = GameSync.playing ->
     JsMap.get r (GameSync.gameTimers s) <> None).

(** Voice room [roomId] is in the store, is permanent and has capacity
    [maxUsers]. *)
Definition permanentRoom (s : VoiceChat.VoiceChatManager) (roomId : string)
    (maxUsers : Z) : Prop :=
  exists room,
    JsMap.get roomId (VoiceChat.rooms s) = Some room /\
    VoiceChat.VoiceRoom.isTemporary room = false /\
    VoiceChat.Settings.maxUsers (VoiceChat.VoiceRoom.settings room)
    = Number.of_Z maxUsers.

(** At most one member of a game room is ready, and in play every member
    is. *)
Definition readyShape (room : GameSync.GameRoom.t) : Prop :=
  (List.length
     (filter GameSync.GamePlayer.isReady
        (JsMap.values (GameSync.GameRoom.players room))) <= 1)%nat /\
  (GameSync.GameRoom.status room = GameSync.playing ->
   forallb GameSync.GamePlayer.isReady
     (JsMap.values (GameSync.GameRoom.players room)) = true).

(** The users of a voice room are keyed by their id, once each. *)
Definition voiceRoomShape (room : VoiceChat.VoiceRoom.t) : Prop :=
  JsMap.wf (VoiceChat.VoiceRoom.users room) /\
  forall k user,
    In (k, user) (VoiceChat.VoiceRoom.users room) ->
    VoiceChat.VoiceUser.id user = k.

End Observe.

(** * Properties *)

(** ** The map operations *)

Module JsMapFacts.
Import JsMap.

Section Facts.
Context {V : Type}.
Implicit Types (k : string) (v : V) (m : JsMap.t V).

Lemma get_set_same k v m : get k (set k v m) = Some v.
Proof.
  induction m as [|[k' v'] m IH]; simpl.
  - now rewrite String.eqb_refl.
  - destruct (String.eqb k' k) eqn:E; simpl; rewrite E; auto.
Qed.

Lemma get_set_other k k' v m : k' <> k -> get k' (set k v m) = get k' m.
Proof.
  intros Hne. induction m as [|[k0 v0] m IH]; simpl.
  - apply String.eqb_neq in Hne. now rewrite String.eqb_sym, Hne.
  - destruct (String.eqb k0 k) eqn:E; simpl.
    + apply String.eqb_eq in E; subst k0.
      apply String.eqb_neq in Hne. now rewrite String.eqb_sym, Hne.
    + now rewrite IH.
Qed.

Lemma get_delete_same k m : get k (delete k m) = None.
Proof.
  induction m as [|[k' v'] m IH]; simpl; auto.
  destruct (String.eqb k' k) eqn:E; simpl; auto. now rewrite E.
Qed.

Lemma get_delete_other k k' m : k' <> k -> get k' (delete k m) = get k' m.
Proof.
  intros Hne. induction m as [|[k0 v0] m IH]; simpl; auto.
  destruct (String.eqb k0 k) eqn:E; simpl.
  - apply String.eqb_eq in E; subst k0.
    apply String.eqb_neq in Hne. now rewrite String.eqb_sym, Hne.
  - now rewrite IH.
Qed.

Lemma get_In k v m : get k m = Some v -> In (k, v) m.
Proof.
  induction m as [|[k' v'] m IH]; simpl; [discriminate|].
  destruct (String.eqb k' k) eqn:E.
  - intros [= ->]. apply String.eqb_eq in E. subst. now left.
  - intros H. right. auto.
Qed.

Lemma get_None_keys k m : get k m = None -> ~ In k (keys m).
Proof.
  induction m as [|[k' v'] m IH]; simpl; auto.
  destruct (String.eqb k' k) eqn:E; [discriminate|].
  intros H [->|Hin]; [now rewrite String.eqb_refl in E | now apply IH].
Qed.

Lemma In_keys_get k m : In k (keys m) -> exists v, get k m = Some v.
Proof.
  intros Hin. destruct (get k m) eqn:E; eauto.
  now apply get_None_keys in E.
Qed.

Lemma In_get k v m : wf m -> In (k, v) m -> get k m = Some v.
Proof.
  unfold wf. induction m as [|[k' v'] m IH]; simpl; [tauto|].
  intros Hnd [[= -> ->]|Hin].
  - now rewrite String.eqb_refl.
  - inversion Hnd as [|? ? Hnotin Hnd']; subst.
    destruct (String.eqb k' k) eqn:E; auto.
    apply String.eqb_eq in E; subst k'. exfalso. apply Hnotin.
    change k with (fst (k, v)). now apply in_map.
Qed.

Lemma keys_set k v m :
  keys (set k v m) = if has k m then keys m else (keys m ++ [k])%list.
Proof.
  unfold has. induction m as [|[k' v'] m IH]; simpl; auto.
  destruct (String.eqb k' k) eqn:E; simpl; auto.
  rewrite IH. now destruct (get k m).
Qed.

Lemma keys_delete k m :
  keys (delete k m) = filter (fun k' => negb (String.eqb k' k)) (keys m).
Proof.
  induction m as [|[k' v'] m IH]; simpl; auto.
  destruct (String.eqb k' k); simpl; now rewrite IH.
Qed.

Lemma wf_set k v m : wf m -> wf (set k v m).
Proof.
  unfold wf. rewrite keys_set. unfold has.
  destruct (get k m) eqn:E; auto. intros Hnd.
  apply NoDup_app; auto.
  - constructor; [tauto | constructor].
  - intros a Ha [<-|[]]. now apply get_None_keys in E.
Qed.

Lemma wf_delete k m : wf m -> wf (delete k m).
Proof. unfold wf. rewrite keys_delete. apply NoDup_filter. Qed.

Lemma size_nonneg m : 0 <= size m.
Proof. unfold size. lia. Qed.

Lemma size_zero m : size m = 0 -> m = [].
Proof. unfold size. destruct m; simpl; [auto | lia]. Qed.

Lemma In_set k v k0 v0 m :
  In (k, v) (set k0 v0 m) -> (k, v) = (k0, v0) \/ In (k, v) m.
Proof.
  induction m as [|[k' v'] m IH]; simpl.
  - intros [H|[]]. left. congruence.
  - destruct (String.eqb_spec k' k0) as [->|Hne]; simpl.
    + intros [H|H]; [left; congruence | auto].
    + intros [H|H]; [auto | destruct (IH H); auto].
Qed.

Lemma In_delete k v k0 m : In (k, v) (delete k0 m) -> In (k, v) m /\ k <> k0.
Proof.
  induction m as [|[k' v'] m IH]; simpl; [tauto|].
  destruct (String.eqb_spec k' k0) as [->|Hne]; simpl.
  - intros H. destruct (IH H). auto.
  - intros [[= -> ->]|H]; [auto | destruct (IH H); auto].
Qed.

Lemma has_set k k0 v0 m :
  has k (set k0 v0 m) = if (k =? k0)%string then true else has k m.
Proof.
  unfold has. destruct (String.eqb_spec k k0) as [->|Hne].
  - now rewrite get_set_same.
  - now rewrite get_set_other.
Qed.

Lemma has_delete k k0 m :
  has k (delete k0 m) = if (k =? k0)%string then false else has k m.
Proof.
  unfold has. destruct (String.eqb_spec k k0) as [->|Hne].
  - now rewrite get_delete_same.
  - now rewrite get_delete_other.
Qed.

Lemma Forall_values_set (P : V -> Prop) k v m :
  Forall P (values m) -> P v -> Forall P (values (set k v m)).
Proof.
  unfold values. induction m as [|[k' v'] m IH]; simpl; intros Hall Hv.
  - auto.
  - inversion Hall; subst.
    destruct (String.eqb k' k); simpl; constructor; auto.
Qed.

Lemma Forall_values_delete (P : V -> Prop) k m :
  Forall P (values m) -> Forall P (values (delete k m)).
Proof.
  unfold values. induction m as [|[k' v'] m IH]; simpl; intros Hall; auto.
  inversion Hall; subst.
  destruct (String.eqb k' k); simpl; auto.
Qed.

Lemma Forall_values_get (P : V -> Prop) k v m :
  Forall P (values m) -> get k m = Some v -> P v.
Proof.
  intros Hall Hget. apply get_In in Hget.
  rewrite Forall_forall in Hall. apply Hall.
  unfold values. change v with (snd (k, v)). now apply in_map.
Qed.

End Facts.

Lemma get_map_values {V W} (f : V -> W) k (m : JsMap.t V) :
  get k (map (fun kv => (fst kv, f (snd kv))) m) = option_map f (get k m).
Proof.
  induction m as [|[k' v'] m IH]; simpl; auto.
  now destruct (String.eqb k' k).
Qed.

Lemma keys_map_values {V W} (f : V -> W) (m : JsMap.t V) :
  keys (map (fun kv => (fst kv, f (snd kv))) m) = keys m.
Proof. unfold keys. rewrite map_map. reflexivity. Qed.

Lemma values_map_values {V W} (f : V -> W) (m : JsMap.t V) :
  values (map (fun kv => (fst kv, f (snd kv))) m) = map f (values m).
Proof. unfold values. now rewrite !map_map. Qed.

End JsMapFacts.

(** ** Doubles *)

Module FloatFacts.






















Lemma SFleb_defined X Y :
  SFleb X Y = true -> X <> S754_nan /\ Y <> S754_nan.
Proof.
  unfold SFleb. destruct X, Y; simpl; intros H; split; congruence.
Qed.






(** A comparison with [NaN] is false. *)
Lemma leb_defined x y :
  (x <=? y)%float = true -> is_nan x = false /\ is_nan y = false.
Proof.
  rewrite leb_spec. intros H. apply SFleb_defined in H.
  unfold Prim2SF in H. destruct H as [Hx Hy].
  destruct (is_nan x), (is_nan y); auto; congruence.
Qed.

End FloatFacts.

(** ** The game manager *)

Module GameSyncFacts.
Import GameSync.

(** *** Fan-out *)

Lemma sendToPlayer_In rs ws message e :
  In e (sendToPlayer rs ws message) ->
  e = Send ws message /\ isOPEN (rs ws) = true.
Proof.
  unfold sendToPlayer. destruct (isOPEN (rs ws)); simpl; [|tauto].
  intros [<-|[]]. auto.
Qed.

(** A broadcast reaches exactly the members of the room that are not
    excluded and whose socket is open, once each, in membership order. *)
Lemma broadcastToRoom_members rs s roomId message exclude room :
  JsMap.get roomId (rooms s) = Some room ->
  broadcastToRoom rs s roomId message exclude
  = map (fun kv => Send (GamePlayer.ws (snd kv)) message)
      (filter
         (fun kv => negb (excluded (fst kv) exclude)
                    && isOPEN (rs (GamePlayer.ws (snd kv))))
         (GameRoom.players room)).
Proof.
  intros Hroom. unfold broadcastToRoom. rewrite Hroom.
  induction (GameRoom.players room) as [|kv ps IH]; simpl; auto.
  rewrite IH. unfold sendToPlayer.
  destruct (excluded (fst kv) exclude); simpl; auto.
  destruct (isOPEN (rs (GamePlayer.ws (snd kv)))); simpl; auto.
Qed.

Lemma broadcastToRoom_absent rs s roomId message exclude :
  JsMap.get roomId (rooms s) = None ->
  broadcastToRoom rs s roomId message exclude = [].
Proof. intros H. unfold broadcastToRoom. now rewrite H. Qed.

(** *** Timers *)

Lemma clearGameTimer_rooms roomId s :
  rooms (clearGameTimer roomId s) = rooms s.
Proof.
  unfold clearGameTimer. now destruct (JsMap.get roomId (gameTimers s)).
Qed.

Lemma clearGameTimer_playerRooms roomId s :
  playerRooms (clearGameTimer roomId s) = playerRooms s.
Proof.
  unfold clearGameTimer. now destruct (JsMap.get roomId (gameTimers s)).
Qed.

Lemma clearGameTimer_cleared roomId s :
  JsMap.get roomId (gameTimers (clearGameTimer roomId s)) = None.
Proof.
  unfold clearGameTimer.
  destruct (JsMap.get roomId (gameTimers s)) eqn:E; simpl; auto.
  apply JsMapFacts.get_delete_same.
Qed.

Lemma clearGameTimer_others roomId other s :
  other <> roomId ->
  JsMap.get other (gameTimers (clearGameTimer roomId s))
  = JsMap.get other (gameTimers s).
Proof.
  intros Hne. unfold clearGameTimer.
  destruct (JsMap.get roomId (gameTimers s)) eqn:E; simpl; auto.
  now apply JsMapFacts.get_delete_other.
Qed.

(** *** The handlers on the scenarios *)

Example distance_3_4 :
  calculateDistance (Position.mk 0 0) (Position.mk 3 4) = 5%float.
Proof. reflexivity. Qed.

Example sort_descending_keeps_ties :
  sort (fun a b => PrimFloat.sub (snd b) (snd a))
    [("a", 5%float); ("b", 7%float); ("c", 5%float); ("d", 7%float)]
  = [("b", 7%float); ("d", 7%float); ("a", 5%float); ("c", 5%float)].
Proof. reflexivity. Qed.

Example ranking_of_scored :
  option_map results (JsMap.get "room_a" (rooms Scenario.scored))
  = Some [Result.mk "bob" "Bob" 7 1; Result.mk "alice" "Alice" 5 1].
Proof. reflexivity. Qed.

(** The ids of the players are not numbers: what is passed to the store is
    [NaN]; an id that starts with digits is passed as their value. *)
Example parseInt_of_ids :
  parseInt "alice" = PrimFloat.nan /\ parseInt "42" = 42%float /\
  parseInt " -7up" = (-7)%float /\ parseInt "0x1F" = 31%float.
Proof. repeat split. Qed.

(** The host leaves a room of three: the room stays, with two members, and
    the first remaining member is the host. *)
Example host_leaves_trio :
  let s :=
    fst (step Scenario.allOpen Scenario.trio
           (on_message 1%nat (room_leave "room_t" "alice"))) in
  option_map (fun room => JsMap.keys (GameRoom.players room))
    (JsMap.get "room_t" (rooms s)) = Some ["bob"; "carol"] /\
  option_map GameRoom.hostId (JsMap.get "room_t" (rooms s)) = Some "bob" /\
  map GamePlayer.id (Observe.hosts s "room_t") = ["bob"].
Proof. repeat split. Qed.

(** A joiner is never ready, so the host's [game_start] is answered by the
    feedback message to both members. *)
Example start_with_unready_member :
  exists message,
    startGame Scenario.allOpen Scenario.joined "room_a" "alice"
    = (Scenario.joined, [Send 1%nat message; Send 2%nat message]) /\
    Message.type message = "game_start".
Proof. eexists. split; reflexivity. Qed.

(** *** Starting a game *)

(** C3.  A [game_start] for a room that exists does nothing when the
    requester is not the host; when the requester is the host and some member
    is not ready it leaves the manager as it was and sends the feedback
    message to every member whose socket is open; when the requester is the
    host and every member is ready the room gets status [playing] and the
    initial state of its game type, whatever its state was, the timer is
    armed and the start, with that state, is sent to every member whose
    socket is open.  The status goes from [waiting] to [playing] only in
    that last case. *)
Theorem startGame_gated rs s roomId requester room :
  JsMap.get roomId (rooms s) = Some room ->
  let ready :=
    forallb GamePlayer.isReady (JsMap.values (GameRoom.players room)) in
  let template :=
    if (GameRoom.gameType room =? "fruit_catching")%string then
      [ ("fruits", JArr []); ("bombs", JArr []); ("powerups", JArr []);
        ("gameSpeed", JNum 1); ("spawnRate", JNum 1000);
        ("difficulty", JStr "medium") ]
    else if (GameRoom.gameType room =? "racing")%string then
      [ ("track", JStr "default"); ("laps", JNum 3);
        ("checkpoints", JArr []); ("obstacles", JArr []) ]
    else [] in
  let toMembers message :=
    map (fun kv => Send (GamePlayer.ws (snd kv)) message)
      (filter (fun kv => isOPEN (rs (GamePlayer.ws (snd kv))))
         (GameRoom.players room)) in
  let s' := fst (startGame rs s roomId requester) in
  let out := snd (startGame rs s roomId requester) in
  (GameRoom.hostId room <> requester -> s' = s /\ out = []) /\
  (GameRoom.hostId room = requester -> ready = false ->
   s' = s /\
   out = toMembers
           (Message.mk "game_start" roomId requester
              (error "ليس جميع اللاعبين جاهزين"))) /\
  (GameRoom.hostId room = requester -> ready = true ->
   JsMap.get roomId (rooms s')
   = Some (GameRoom.mk (GameRoom.id room) (GameRoom.name room)
             (GameRoom.gameType room) (GameRoom.players room) template
             (GameRoom.settings room) playing (GameRoom.hostId room)) /\
   (forall other, other <> roomId ->
      JsMap.get other (rooms s') = JsMap.get other (rooms s)) /\
   playerRooms s' = playerRooms s /\
   JsMap.get roomId (gameTimers s')
   = Some (Timeout.mk 300000 roomId "timeout") /\
   out = toMembers
           (Message.mk "game_start" roomId requester
              (started template "بدأت اللعبة!"))) /\
  (forall room',
     JsMap.get roomId (rooms s') = Some room' ->
     GameRoom.status room = waiting -> GameRoom.status room' = playing ->
     GameRoom.hostId room = requester /\ ready = true).
Proof.
  intros Hroom ready template toMembers s' out. subst s' out.
  unfold startGame. rewrite Hroom. fold ready.
  change template with (initializeGameState (GameRoom.gameType room)).
  destruct (String.eqb (GameRoom.hostId room) requester) eqn:Hhost; simpl.
  - apply String.eqb_eq in Hhost.
    destruct ready eqn:Hready; simpl.
    + unfold startGameTimer, storeRoom; simpl.
      rewrite JsMapFacts.get_set_same; simpl.
      rewrite clearGameTimer_rooms, clearGameTimer_playerRooms; simpl.
      split; [congruence|]. split; [discriminate|]. split; [|auto].
      intros _ _. split; [apply JsMapFacts.get_set_same|].
      split; [intros other Hne; now apply JsMapFacts.get_set_other|].
      split; [reflexivity|]. split; [apply JsMapFacts.get_set_same|].
      erewrite broadcastToRoom_members.
      2:{ cbn [rooms]. apply JsMapFacts.get_set_same. }
      reflexivity.
    + split; [congruence|]. split; [|split; [discriminate|]].
      * intros _ _. split; [reflexivity|].
        erewrite broadcastToRoom_members by exact Hroom. reflexivity.
      * intros room' Hroom' Hw Hp. congruence.
  - apply String.eqb_neq in Hhost.
    split; [auto|]. split; [congruence|]. split; [congruence|].
    intros room' Hroom' Hw Hp. congruence.
Qed.

Lemma startGame_gated_witness :
  (exists room,
     JsMap.get "room_a" (rooms Scenario.joined) = Some room /\
     GameRoom.hostId room = "alice" /\
     forallb GamePlayer.isReady (JsMap.values (GameRoom.players room))
     = false /\
     startGame Scenario.allOpen Scenario.joined "room_a" "alice"
     = (Scenario.joined,
        [ Send 1%nat
            (Message.mk "game_start" "room_a" "alice"
               (error "ليس جميع اللاعبين جاهزين"));
          Send 2%nat
            (Message.mk "game_start" "room_a" "alice"
               (error "ليس جميع اللاعبين جاهزين")) ])) /\
  (exists room,
     JsMap.get "room_a" (rooms Scenario.created) = Some room /\
     GameRoom.hostId room = "alice" /\
     forallb GamePlayer.isReady (JsMap.values (GameRoom.players room))
     = true /\
     option_map GameRoom.status
       (JsMap.get "room_a"
          (rooms (fst (startGame Scenario.allOpen Scenario.created "room_a"
                         "alice"))))
     = Some playing /\
     map (fun e => match e with Send ws _ => Some ws | _ => None end)
       (snd (startGame Scenario.allOpen Scenario.created "room_a" "alice"))
     = [Some 1%nat]).
Proof.
  split.
  - eexists. split; [reflexivity|]. split; [reflexivity|].
    split; [reflexivity|].
    destruct (startGame_gated Scenario.allOpen Scenario.joined "room_a"
                "alice" _ eq_refl) as (_ & Hwait & _ & _).
    destruct (Hwait eq_refl eq_refl) as (Hs & Hout).
    rewrite (surjective_pairing (startGame _ _ _ _)), Hs, Hout.
    reflexivity.
  - eexists. split; [reflexivity|]. split; [reflexivity|].
    split; [reflexivity|].
    destruct (startGame_gated Scenario.allOpen Scenario.created "room_a"
                "alice" _ eq_refl) as (_ & _ & Hstart & _).
    destruct (Hstart eq_refl eq_refl) as (Hroom & _ & _ & _ & Hout).
    rewrite Hroom, Hout. split; reflexivity.
Defined.

(** *** Explosions *)

Lemma applyBlast_position data p :
  GamePlayer.position (applyBlast data p) = GamePlayer.position p.
Proof. unfold applyBlast. now destruct (inBlast data p). Qed.

Lemma inBlast_applyBlast data p :
  inBlast data (applyBlast data p) = inBlast data p.
Proof. unfold inBlast. now rewrite applyBlast_position. Qed.

Lemma applyBlast_ws data p :
  GamePlayer.ws (applyBlast data p) = GamePlayer.ws p.
Proof. unfold applyBlast. now destruct (inBlast data p). Qed.

Lemma applyBlast_id data p :
  GamePlayer.id (applyBlast data p) = GamePlayer.id p.
Proof. unfold applyBlast. now destruct (inBlast data p). Qed.

(** C4 as stated fails, both ways.  The distance is computed in double
    precision and its squares overflow and underflow.  Alice, at (50, 50),
    is within the reach 2^610 of a bomb at (2^600, 50), yet she keeps her
    three lives and the list of affected players is empty.  Bob, at the
    origin, is not within the reach 0 of a bomb at (2^-600, 0), yet he loses
    a life and is listed. *)
Lemma handleBombExplosion_rounding :
  (let s' :=
     fst (handleBombExplosion Scenario.allOpen Scenario.created "room_a"
            "alice" Scenario.farBomb) in
   let out :=
     snd (handleBombExplosion Scenario.allOpen Scenario.created "room_a"
            "alice" Scenario.farBomb) in
   option_map GamePlayer.position
     (Observe.player Scenario.created "room_a" "alice")
   = Some (Position.mk 50 50) /\
   Observe.euclideanWithin (Position.mk 50 50)
     (BombData.explosionPosition Scenario.farBomb)
     (BombData.radius Scenario.farBomb) = true /\
   option_map GamePlayer.lives
     (Observe.player Scenario.created "room_a" "alice") = Some 3%float /\
   option_map GamePlayer.lives (Observe.player s' "room_a" "alice")
   = Some 3%float /\
   out = [Send 1%nat
            (Message.mk "bomb_explosion" "room_a" "alice"
               (explosion Scenario.farBomb []))]) /\
  (let s' :=
     fst (handleBombExplosion Scenario.allOpen Scenario.cornered "room_a"
            "alice" Scenario.pointBomb) in
   let out :=
     snd (handleBombExplosion Scenario.allOpen Scenario.cornered "room_a"
            "alice" Scenario.pointBomb) in
   option_map GamePlayer.position
     (Observe.player Scenario.cornered "room_a" "bob")
   = Some (Position.mk 0 0) /\
   Observe.euclideanWithin (Position.mk 0 0)
     (BombData.explosionPosition Scenario.pointBomb)
     (BombData.radius Scenario.pointBomb) = false /\
   option_map GamePlayer.lives
     (Observe.player Scenario.cornered "room_a" "bob") = Some 3%float /\
   option_map GamePlayer.lives (Observe.player s' "room_a" "bob")
   = Some 2%float /\
   out = [Send 1%nat
            (Message.mk "bomb_explosion" "room_a" "alice"
               (explosion Scenario.pointBomb [("bob", 2%float)]));
          Send 2%nat
            (Message.mk "bomb_explosion" "room_a" "alice"
               (explosion Scenario.pointBomb [("bob", 2%float)]))]).
Proof. split; cbv zeta; repeat split; vm_compute; reflexivity. Qed.

(** C4, amended.  A [bomb_explosion] for a room that exists keeps the
    members and their order.  The members it hits are those for which the
    distance computed in double precision, the square root of the sum of
    the squares of the coordinate differences with every operation rounded,
    is at most the radius.  A member that is hit gets the lives [lives -
    damage] (rounded), or 0 when that is at most 0, and is otherwise
    unchanged; a member that is not hit is unchanged.  One message goes to
    every member whose socket is open; it lists, in membership order,
    exactly the members that are hit, with their resulting lives. *)
Theorem handleBombExplosion_radius rs s roomId playerId data room :
  JsMap.get roomId (rooms s) = Some room ->
  let hit (p : GamePlayer.t) : bool :=
    let dx :=
      (Position.x (BombData.explosionPosition data)
       - Position.x (GamePlayer.position p))%float in
    let dy :=
      (Position.y (BombData.explosionPosition data)
       - Position.y (GamePlayer.position p))%float in
    (PrimFloat.sqrt (dx * dx + dy * dy) <=? BombData.radius data)%float in
  let remaining (p : GamePlayer.t) : float :=
    if (GamePlayer.lives p - BombData.damage data <=? 0)%float then 0%float
    else (GamePlayer.lives p - BombData.damage data)%float in
  let after (p : GamePlayer.t) : GamePlayer.t :=
    if hit p then
      GamePlayer.mk (GamePlayer.id p) (GamePlayer.username p)
        (GamePlayer.isAdmin p) (GamePlayer.isHost p) (GamePlayer.score p)
        (remaining p) (GamePlayer.level p) (GamePlayer.position p)
        (GamePlayer.powerups p) (GamePlayer.isReady p) (GamePlayer.ws p)
    else p in
  let s' := fst (handleBombExplosion rs s roomId playerId data) in
  let out := snd (handleBombExplosion rs s roomId playerId data) in
  JsMap.get roomId (rooms s')
  = Some (GameRoom.mk (GameRoom.id room) (GameRoom.name room)
            (GameRoom.gameType room)
            (map (fun kv => (fst kv, after (snd kv))) (GameRoom.players room))
            (GameRoom.gameState room) (GameRoom.settings room)
            (GameRoom.status room) (GameRoom.hostId room)) /\
  (forall id p,
     JsMap.get id (GameRoom.players room) = Some p ->
     exists p',
       Observe.player s' roomId id = Some p' /\
       GamePlayer.lives p'
       = (if hit p then remaining p else GamePlayer.lives p)) /\
  (forall other, other <> roomId ->
     JsMap.get other (rooms s') = JsMap.get other (rooms s)) /\
  playerRooms s' = playerRooms s /\ gameTimers s' = gameTimers s /\
  out = map (fun kv =>
               Send (GamePlayer.ws (snd kv))
                 (Message.mk "bomb_explosion" roomId playerId
                    (explosion data
                       (map (fun kv =>
                               (GamePlayer.id (snd kv), remaining (snd kv)))
                          (filter (fun kv => hit (snd kv))
                             (GameRoom.players room))))))
          (filter (fun kv => isOPEN (rs (GamePlayer.ws (snd kv))))
             (GameRoom.players room)).
Proof.
  intros Hroom hit remaining after s' out. subst s' out.
  unfold handleBombExplosion. rewrite Hroom. cbn [fst snd].
  assert (Hblast : forall p, applyBlast data p = after p) by reflexivity.
  set (room' := GameRoom.with_players _ room).
  assert (Hget : JsMap.get roomId (rooms (storeRoom roomId room' s))
                 = Some room') by apply JsMapFacts.get_set_same.
  split; [exact Hget|]. split; [|split; [|split; [|split]]].
  - intros id p Hp. exists (after p). unfold Observe.player.
    rewrite Hget. unfold room'. cbn [GameRoom.players GameRoom.with_players].
    change (map (fun kv => (fst kv, applyBlast data (snd kv)))
              (GameRoom.players room))
      with (map (fun kv => (fst kv, after (snd kv))) (GameRoom.players room)).
    split.
    + clear Hget room'. revert Hp.
      induction (GameRoom.players room) as [|[k q] ps IH]; simpl;
        [discriminate|].
      destruct (String.eqb k id); [intros [= ->]; reflexivity | exact IH].
    + unfold after. destruct (hit p); reflexivity.
  - intros other Hne. now apply JsMapFacts.get_set_other.
  - reflexivity.
  - reflexivity.
  - erewrite broadcastToRoom_members by exact Hget.
    unfold room'. cbn [GameRoom.players GameRoom.with_players].
    clear Hget room' Hroom.
    assert (Hlist :
              map (fun p => (GamePlayer.id p, GamePlayer.lives p))
                (filter (inBlast data)
                   (JsMap.values
                      (map (fun kv => (fst kv, applyBlast data (snd kv)))
                         (GameRoom.players room))))
              = map (fun kv => (GamePlayer.id (snd kv), remaining (snd kv)))
                  (filter (fun kv => hit (snd kv)) (GameRoom.players room))).
    { unfold JsMap.values.
      induction (GameRoom.players room) as [|[k p] ps IH]; simpl; auto.
      rewrite inBlast_applyBlast.
      change (inBlast data p) with (hit p).
      destruct (hit p) eqn:Hhit; simpl; [|exact IH].
      rewrite IH. f_equal. rewrite applyBlast_id. f_equal.
      rewrite Hblast. unfold after. rewrite Hhit. reflexivity. }
    rewrite Hlist. clear Hlist.
    set (message := Message.mk _ _ _ _). clearbody message.
    induction (GameRoom.players room) as [|[k p] ps IH]; auto.
    simpl in IH |- *. rewrite applyBlast_ws.
    destruct (isOPEN (rs (GamePlayer.ws p)));
      [cbn [map snd]; rewrite applyBlast_ws; f_equal; exact IH | exact IH].
Qed.

Lemma handleBombExplosion_radius_witness :
  exists room,
    JsMap.get "room_a" (rooms Scenario.joined) = Some room /\
    option_map GamePlayer.lives
      (Observe.player
         (fst (handleBombExplosion Scenario.allOpen Scenario.joined "room_a"
                 "bob" Scenario.bomb)) "room_a" "alice")
    = Some 2%float /\
    option_map GamePlayer.lives
      (Observe.player
         (fst (handleBombExplosion Scenario.allOpen Scenario.joined "room_a"
                 "bob" Scenario.bomb)) "room_a" "bob")
    = Some 3%float /\
    snd (handleBombExplosion Scenario.allOpen Scenario.joined "room_a" "bob"
           Scenario.bomb)
    = [ Send 1%nat
          (Message.mk "bomb_explosion" "room_a" "bob"
             (explosion Scenario.bomb [("alice", 2%float)]));
        Send 2%nat
          (Message.mk "bomb_explosion" "room_a" "bob"
             (explosion Scenario.bomb [("alice", 2%float)])) ].
Proof.
  destruct (handleBombExplosion_radius Scenario.allOpen Scenario.joined
              "room_a" "bob" Scenario.bomb _ eq_refl)
    as (_ & Hmembers & _ & _ & _ & Hout).
  eexists. split; [reflexivity|].
  destruct (Hmembers "alice" _ eq_refl) as (pa & Ha & Hla).
  destruct (Hmembers "bob" _ eq_refl) as (pb & Hb & Hlb).
  split; [rewrite Ha; simpl; rewrite Hla; reflexivity|].
  split; [rewrite Hb; simpl; rewrite Hlb; reflexivity|].
  rewrite Hout. reflexivity.
Defined.

(** *** Ranking *)

Section Ranking.
Context {A : Type} (key : A -> float).

(** Sorting with the comparator [(a, b) => key(b) - key(a)]. *)







End Ranking.




(** *** Joining *)




(** *** Hosts *)

Lemma roomShape_fields room room' :
  GameRoom.players room' = GameRoom.players room ->
  GameRoom.hostId room' = GameRoom.hostId room ->
  Observe.roomShape room -> Observe.roomShape room'.
Proof. unfold Observe.roomShape. intros -> ->. auto. Qed.

(** A member's record is replaced by one with the same id and the same host
    flag. *)
Lemma roomShape_update room k p p' :
  Observe.roomShape room ->
  JsMap.get k (GameRoom.players room) = Some p ->
  GamePlayer.id p' = GamePlayer.id p ->
  GamePlayer.isHost p' = GamePlayer.isHost p ->
  Observe.roomShape
    (GameRoom.with_players (JsMap.set k p' (GameRoom.players room)) room).
Proof.
  intros (Hwf & Hid & Hhost & Hmem) Hget Hid' Hhost'.
  pose proof (JsMapFacts.get_In _ _ _ Hget) as Hin.
  unfold Observe.roomShape. simpl.
  split; [now apply JsMapFacts.wf_set|]. split; [|split].
  - intros k1 p1 H. apply JsMapFacts.In_set in H.
    destruct H as [[= -> ->]|H]; [|eauto].
    rewrite Hid'. eauto.
  - intros k1 p1 H Hflag. apply JsMapFacts.In_set in H.
    destruct H as [[= -> ->]|H]; [|eauto].
    rewrite Hhost' in Hflag. eauto.
  - rewrite JsMapFacts.has_set.
    now destruct (String.eqb (GameRoom.hostId room) k).
Qed.

(** A record without the host flag is put under its own id. *)
Lemma roomShape_join room p :
  Observe.roomShape room ->
  GamePlayer.isHost p = false ->
  Observe.roomShape
    (GameRoom.with_players
       (JsMap.set (GamePlayer.id p) p (GameRoom.players room)) room).
Proof.
  intros (Hwf & Hid & Hhost & Hmem) Hflag.
  unfold Observe.roomShape. simpl.
  split; [now apply JsMapFacts.wf_set|]. split; [|split].
  - intros k1 p1 H. apply JsMapFacts.In_set in H.
    destruct H as [[= -> ->]|H]; eauto.
  - intros k1 p1 H Hflag1. apply JsMapFacts.In_set in H.
    destruct H as [[= -> ->]|H]; [congruence | eauto].
  - rewrite JsMapFacts.has_set.
    now destruct (String.eqb (GameRoom.hostId room) (GamePlayer.id p)).
Qed.

(** Every record is changed in a way that keeps its id and its host flag. *)
Lemma roomShape_map room (f : GamePlayer.t -> GamePlayer.t) :
  (forall p, GamePlayer.id (f p) = GamePlayer.id p) ->
  (forall p, GamePlayer.isHost (f p) = GamePlayer.isHost p) ->
  Observe.roomShape room ->
  Observe.roomShape
    (GameRoom.with_players
       (map (fun kv => (fst kv, f (snd kv))) (GameRoom.players room)) room).
Proof.
  intros Hfid Hfhost (Hwf & Hid & Hhost & Hmem).
  unfold Observe.roomShape. simpl.
  split; [unfold JsMap.wf; now rewrite JsMapFacts.keys_map_values|].
  split; [|split].
  - intros k p H. apply in_map_iff in H.
    destruct H as ([k0 p0] & [= <- <-] & H). rewrite Hfid. eauto.
  - intros k p H Hflag. apply in_map_iff in H.
    destruct H as ([k0 p0] & [= <- <-] & H). rewrite Hfhost in Hflag. eauto.
  - unfold JsMap.has in *. rewrite JsMapFacts.get_map_values.
    now destruct (JsMap.get (GameRoom.hostId room) (GameRoom.players room)).
Qed.

Lemma gameShape_storeRoom s roomId room :
  Observe.gameShape s -> Observe.roomShape room ->
  Observe.gameShape (storeRoom roomId room s).
Proof.
  unfold Observe.gameShape, storeRoom. simpl. intros.
  now apply JsMapFacts.Forall_values_set.
Qed.

Lemma gameShape_get s roomId room :
  Observe.gameShape s -> JsMap.get roomId (rooms s) = Some room ->
  Observe.roomShape room.
Proof. unfold Observe.gameShape. apply JsMapFacts.Forall_values_get. Qed.

Lemma gameShape_rooms s s' :
  rooms s' = rooms s -> Observe.gameShape s -> Observe.gameShape s'.
Proof. unfold Observe.gameShape. now intros ->. Qed.

Lemma createGameRoom_shape rs s ws rnd gameType settings playerInfo :
  Observe.gameShape s ->
  Observe.gameShape
    (fst (createGameRoom rs s ws rnd gameType settings playerInfo)).
Proof.
  intros Hs. unfold createGameRoom, Observe.gameShape. simpl.
  apply JsMapFacts.Forall_values_set; [exact Hs|].
  unfold Observe.roomShape. simpl. split; [|split; [|split]].
  - repeat constructor. simpl. tauto.
  - intros k p [[= <- <-]|[]]. reflexivity.
  - intros k p [[= <- <-]|[]] _. reflexivity.
  - unfold JsMap.has. simpl. now rewrite String.eqb_refl.
Qed.

Lemma joinGameRoom_shape rs s ws roomId playerInfo password rnd_x rnd_y :
  Observe.gameShape s ->
  Observe.gameShape
    (fst (joinGameRoom rs s ws roomId playerInfo password rnd_x rnd_y)).
Proof.
  intros Hs. unfold joinGameRoom.
  destruct roomId as [roomId|]; [|exact Hs].
  destruct (JsMap.get roomId (rooms s)) as [room|] eqn:Hroom; [|exact Hs].
  destruct (Status_eqb _ _); [exact Hs|].
  destruct (Number.leb _ _); [exact Hs|].
  destruct (_ && _); [exact Hs|]. simpl.
  apply (gameShape_storeRoom s roomId); [exact Hs|].
  set (player := GamePlayer.mk _ _ _ _ _ _ _ _ _ _ _).
  apply (roomShape_join room player); [|reflexivity].
  eapply gameShape_get; eauto.
Qed.

Lemma first_In {V} (m : JsMap.t V) kv : JsMap.first m = Some kv -> In kv m.
Proof. destruct m; simpl; [discriminate | intros [= ->]; now left]. Qed.

Lemma leaveGameRoom_shape rs s roomId playerId :
  Observe.gameShape s ->
  Observe.gameShape (fst (leaveGameRoom rs s roomId playerId)).
Proof.
  intros Hs. unfold leaveGameRoom.
  destruct (JsMap.get roomId (rooms s)) as [room|] eqn:Hroom; [|exact Hs].
  destruct (JsMap.has playerId (GameRoom.players room)); [|exact Hs].
  cbn [negb].
  destruct (gameShape_get s roomId room Hs Hroom)
    as (Hwf & Hid & Hhost & Hmem).
  set (remaining := JsMap.delete playerId (GameRoom.players room)).
  assert (Hsub : forall k p,
             In (k, p) remaining ->
             In (k, p) (GameRoom.players room) /\ k <> playerId)
    by (intros k p; apply JsMapFacts.In_delete).
  assert (Hwf' : JsMap.wf remaining) by now apply JsMapFacts.wf_delete.
  match goal with
  | |- context [if JsMap.size (GameRoom.players ?r) =? 0 then _ else _] =>
      set (room2 := r)
  end.
  destruct (Z.eqb_spec (JsMap.size (GameRoom.players room2)) 0) as [Hz|Hnz];
    cbn [fst].
  - eapply gameShape_rooms; [apply clearGameTimer_rooms|].
    unfold Observe.gameShape. cbn [rooms].
    now apply JsMapFacts.Forall_values_delete.
  - apply (gameShape_storeRoom s roomId); [exact Hs|].
    subst room2. cbn [GameRoom.hostId GameRoom.with_players] in *.
    destruct (String.eqb_spec (GameRoom.hostId room) playerId) as [Hh|Hh];
      cbn [andb] in *.
    + destruct (Z.gtb_spec (JsMap.size remaining) 0) as [Hpos|Hzero].
      * destruct (JsMap.first remaining) as [[key newHost]|] eqn:Hfirst.
        -- apply first_In in Hfirst.
           assert (Hkey : GamePlayer.id newHost = key)
             by (apply Hid; exact (proj1 (Hsub _ _ Hfirst))).
           unfold Observe.roomShape.
           cbn [GameRoom.players GameRoom.hostId GameRoom.with_players
                GameRoom.with_hostId].
           split; [now apply JsMapFacts.wf_set|]. split; [|split].
           ++ intros k p H. apply JsMapFacts.In_set in H.
              destruct H as [[= -> ->]|H]; [exact Hkey|].
              apply Hid. exact (proj1 (Hsub _ _ H)).
           ++ intros k p H Hflag. apply JsMapFacts.In_set in H.
              destruct H as [[= -> ->]|H]; [now rewrite Hkey|].
              destruct (Hsub k p H) as [Hin Hne].
              specialize (Hhost k p Hin Hflag). congruence.
           ++ rewrite JsMapFacts.has_set, Hkey. now rewrite String.eqb_refl.
        -- destruct remaining; [|discriminate].
           unfold JsMap.size in Hpos. simpl in Hpos. lia.
      * exfalso. apply Hnz. cbn [GameRoom.players GameRoom.with_players].
        pose proof (JsMapFacts.size_nonneg remaining). lia.
    + unfold Observe.roomShape.
      cbn [GameRoom.players GameRoom.hostId GameRoom.with_players].
      split; [exact Hwf'|]. split; [|split].
      * intros k p H. apply Hid. exact (proj1 (Hsub _ _ H)).
      * intros k p H Hflag.
        apply (Hhost k p); [exact (proj1 (Hsub _ _ H)) | exact Hflag].
      * subst remaining. rewrite JsMapFacts.has_delete.
        destruct (String.eqb_spec (GameRoom.hostId room) playerId);
          [contradiction | exact Hmem].
Qed.

Lemma startGameTimer_rooms roomId s :
  rooms (startGameTimer roomId s) = rooms s.
Proof.
  unfold startGameTimer. destruct (JsMap.get roomId (rooms s)); auto.
  simpl. apply clearGameTimer_rooms.
Qed.

Ltac room_lookup s roomIdent Hs :=
  let room := fresh "room" in
  let Hroom := fresh "Hroom" in
  destruct (JsMap.get roomIdent (rooms s)) as [room|] eqn:Hroom;
  [pose proof (gameShape_get s roomIdent room Hs Hroom) | exact Hs].

Lemma startGame_shape rs s roomId hostId :
  Observe.gameShape s ->
  Observe.gameShape (fst (startGame rs s roomId hostId)).
Proof.
  intros Hs. unfold startGame. room_lookup s roomId Hs.
  destruct (negb _); [exact Hs|]. destruct (negb _); [exact Hs|].
  cbn [fst]. eapply gameShape_rooms; [apply startGameTimer_rooms|].
  apply gameShape_storeRoom; [exact Hs|].
  now apply (roomShape_fields room).
Qed.

Lemma handlePlayerMove_shape rs s roomId playerId position timestamp :
  Observe.gameShape s ->
  Observe.gameShape
    (fst (handlePlayerMove rs s roomId playerId position timestamp)).
Proof.
  intros Hs. unfold handlePlayerMove. room_lookup s roomId Hs.
  destruct (negb _); [exact Hs|].
  destruct (JsMap.get playerId (GameRoom.players room)) as [p|] eqn:Hp;
    [|exact Hs].
  cbn [fst]. apply gameShape_storeRoom; [exact Hs|].
  now apply (roomShape_update room playerId p).
Qed.

Lemma handlePlayerScore_shape rs s roomId playerId points itemType :
  Observe.gameShape s ->
  Observe.gameShape
    (fst (handlePlayerScore rs s roomId playerId points itemType)).
Proof.
  intros Hs. unfold handlePlayerScore. room_lookup s roomId Hs.
  destruct (JsMap.get playerId (GameRoom.players room)) as [p|] eqn:Hp;
    [|exact Hs].
  cbn [fst]. apply gameShape_storeRoom; [exact Hs|].
  now apply (roomShape_update room playerId p).
Qed.

Lemma handleFruitSpawn_shape rs s roomId playerId data :
  Observe.gameShape s ->
  Observe.gameShape (fst (handleFruitSpawn rs s roomId playerId data)).
Proof.
  intros Hs. unfold handleFruitSpawn. room_lookup s roomId Hs.
  destruct (negb _); [exact Hs|].
  match goal with |- context [match ?v with JArr _ => _ | _ => _ end] =>
    destruct v; try exact Hs
  end.
  cbn [fst]. apply gameShape_storeRoom; [exact Hs|].
  now apply (roomShape_fields room).
Qed.

Lemma handleBombExplosion_shape rs s roomId playerId data :
  Observe.gameShape s ->
  Observe.gameShape (fst (handleBombExplosion rs s roomId playerId data)).
Proof.
  intros Hs. unfold handleBombExplosion. room_lookup s roomId Hs.
  cbn [fst]. apply gameShape_storeRoom; [exact Hs|].
  apply (roomShape_map room (applyBlast data)); auto;
    intros p; unfold applyBlast; now destruct (inBlast data p).
Qed.

Lemma broadcastGameState_shape rs s roomId playerId updates :
  Observe.gameShape s ->
  Observe.gameShape (fst (broadcastGameState rs s roomId playerId updates)).
Proof.
  intros Hs. unfold broadcastGameState. room_lookup s roomId Hs.
  cbn [fst]. apply gameShape_storeRoom; [exact Hs|].
  now apply (roomShape_fields room).
Qed.

Lemma endGame_shape rs s roomId reason :
  Observe.gameShape s -> Observe.gameShape (fst (endGame rs s roomId reason)).
Proof.
  intros Hs. unfold endGame. room_lookup s roomId Hs.
  cbn [fst]. eapply gameShape_rooms; [apply clearGameTimer_rooms|].
  apply gameShape_storeRoom; [exact Hs|].
  now apply (roomShape_fields room).
Qed.

(** Every event keeps the shape of the rooms. *)
Lemma step_shape rs s e :
  Observe.gameShape s -> Observe.gameShape (fst (step rs s e)).
Proof.
  intros Hs. destruct e as [ws message|ws|roomId]; unfold step.
  - destruct message; unfold handleGameMessage.
    + now apply createGameRoom_shape.
    + now apply joinGameRoom_shape.
    + now apply leaveGameRoom_shape.
    + now apply startGame_shape.
    + now apply handlePlayerMove_shape.
    + now apply handlePlayerScore_shape.
    + now apply broadcastGameState_shape.
    + now apply handleFruitSpawn_shape.
    + now apply handleBombExplosion_shape.
    + exact Hs.
  - unfold handlePlayerDisconnect.
    destruct (findSocket ws (rooms s)) as [[roomId playerId]|]; [|exact Hs].
    now apply leaveGameRoom_shape.
  - destruct (JsMap.get roomId (gameTimers s)); [|exact Hs].
    now apply endGame_shape.
Qed.

Lemma run_shape trace :
  forall s, Observe.gameShape s -> Observe.gameShape (fst (run s trace)).
Proof.
  induction trace as [|[rs e] trace IH]; simpl; intros s Hs; [exact Hs|].
  pose proof (step_shape rs s e Hs) as H1.
  destruct (step rs s e) as [s1 out1]. simpl in H1.
  specialize (IH s1 H1). destruct (run s1 trace) as [s2 out2]. exact IH.
Qed.

Lemma flagged_at_most_one (m : JsMap.t GamePlayer.t) h :
  JsMap.wf m ->
  (forall k p, In (k, p) m -> GamePlayer.isHost p = true -> k = h) ->
  (List.length (filter GamePlayer.isHost (JsMap.values m)) <= 1)%nat.
Proof.
  unfold JsMap.wf, JsMap.values, JsMap.keys.
  induction m as [|[k p] m IH]; simpl; intros Hnd Hflag; [lia|].
  inversion Hnd as [|? ? Hnotin Hnd']; subst.
  destruct (GamePlayer.isHost p) eqn:Hp; simpl.
  - assert (Hk : k = h) by (apply (Hflag k p); auto).
    assert (Hnone : filter GamePlayer.isHost (map snd m) = []).
    { destruct (filter GamePlayer.isHost (map snd m)) as [|q qs] eqn:Hf;
        [reflexivity|].
      assert (Hq : In q (filter GamePlayer.isHost (map snd m)))
        by (rewrite Hf; now left).
      apply filter_In in Hq. destruct Hq as [Hq Hqflag].
      apply in_map_iff in Hq. destruct Hq as ([k' q'] & Heq & Hin).
      simpl in Heq. subst q'.
      assert (k' = h) by (apply (Hflag k' q); auto).
      exfalso. apply Hnotin. subst.
      change h with (fst (h, q)). now apply in_map. }
    rewrite Hnone. simpl. lia.
  - apply IH; auto. intros k' p' Hin. apply Hflag. now right.
Qed.

(** The part of C2 that the code keeps.  In every state the game manager
    reaches, each room of the store has at most one member with the host
    flag, such a member is the one named by the room's [hostId], and
    [hostId] names a member of the room. *)
Theorem reachable_rooms_host trace roomId room :
  let s := fst (run initial trace) in
  JsMap.get roomId (rooms s) = Some room ->
  (List.length (Observe.hosts s roomId) <= 1)%nat /\
  (forall p, In p (Observe.hosts s roomId) ->
     GamePlayer.id p = GameRoom.hostId room) /\
  JsMap.has (GameRoom.hostId room) (GameRoom.players room) = true.
Proof.
  intros s Hroom.
  assert (Hs : Observe.gameShape s)
    by (apply run_shape; unfold Observe.gameShape; simpl; constructor).
  destruct (gameShape_get s roomId room Hs Hroom)
    as (Hwf & Hid & Hhost & Hmem).
  unfold Observe.hosts. rewrite Hroom.
  split; [now apply (flagged_at_most_one _ (GameRoom.hostId room))|].
  split; [|exact Hmem].
  intros p Hp. apply filter_In in Hp. destruct Hp as [Hp Hflag].
  unfold JsMap.values in Hp. apply in_map_iff in Hp.
  destruct Hp as ([k q] & Heq & Hin). simpl in Heq. subst q.
  rewrite (Hid k p Hin). now apply (Hhost k p).
Qed.

End GameSyncFacts.

(** ** The voice manager *)

Module VoiceChatFacts.
Import VoiceChat.
Import Observe.

(** *** Fan-out *)


(** A broadcast reaches exactly the members of the room that are not
    excluded and whose socket is open, once each, in membership order. *)
Lemma broadcastToVoiceRoom_members rs s roomId message exclude room :
  JsMap.get roomId (rooms s) = Some room ->
  broadcastToVoiceRoom rs s roomId message exclude
  = map (fun kv => Send (VoiceUser.ws (snd kv)) message)
      (filter
         (fun kv => negb (excluded (fst kv) exclude)
                    && isOPEN (rs (VoiceUser.ws (snd kv))))
         (VoiceRoom.users room)).
Proof.
  intros Hroom. unfold broadcastToVoiceRoom. rewrite Hroom.
  induction (VoiceRoom.users room) as [|kv us IH]; simpl; auto.
  rewrite IH. unfold sendToUser.
  destruct (excluded (fst kv) exclude); simpl; auto.
  destruct (isOPEN (rs (VoiceUser.ws (snd kv)))); simpl; auto.
Qed.


(** *** The handlers on the scenarios *)

Example muted_start_speaking_ignored :
  step Scenario.moment (mkWorld Scenario.hushed [] [])
    (on_message 1%nat (voice_start_speaking "general" "ann"))
  = (mkWorld Scenario.hushed [] [], []).
Proof. reflexivity. Qed.

Example unmuted_start_speaking_relayed :
  exists message,
    snd (step Scenario.moment (mkWorld Scenario.talking [] [])
           (on_message 1%nat (voice_start_speaking "general" "ann")))
    = [Send 2%nat message] /\
    Message.type message = "voice_start_speaking".
Proof. eexists. split; reflexivity. Qed.

(** The creator of a voice room is not made a member of it: the join issued
    by [handleRoomCreate] names no room and is refused. *)
Example voice_room_create_leaves_room_empty :
  let s :=
    manager
      (fst (step Scenario.moment start
              (on_message 1%nat
                 (voice_room_create "x"
                    (RoomData.mk None None None None None) Scenario.ann))))
  in
  option_map (fun room => JsMap.size (VoiceRoom.users room))
    (JsMap.get "voice_x" (rooms s)) = Some 0.
Proof. reflexivity. Qed.

(** The close of a socket does nothing: the listener acts for the user that
    a [voice_user_authenticated] event announced, and there is none. *)
Example close_keeps_the_member :
  step Scenario.moment (mkWorld Scenario.talking [] []) (on_close 1%nat)
  = (mkWorld Scenario.talking [] [], []) /\
  voiceUser Scenario.talking "general" "ann" <> None.
Proof. split; [reflexivity | discriminate]. Qed.

(** *** Audio relay *)

(** C9.  A [voice_audio_data] message from a member whose [isMuted] flag is
    set forwards nothing and leaves the manager as it was. *)
Theorem handleAudioData_muted_dropped rs s roomId userId audioData :
  Observe.isMuted s roomId userId = true ->
  handleAudioData rs s roomId userId audioData = (s, []).
Proof.
  unfold Observe.isMuted, Observe.voiceUser, handleAudioData.
  destruct (JsMap.get roomId (rooms s)) as [room|]; [|discriminate].
  destruct (JsMap.get userId (VoiceRoom.users room)) as [sender|];
    [|discriminate].
  now intros ->.
Qed.

Lemma handleAudioData_muted_dropped_witness :
  isMuted Scenario.hushed "general" "ann" = true /\
  handleAudioData Scenario.allOpen Scenario.hushed "general" "ann"
    [("samples", JArr [JNum 1; JNum 2])]
  = (Scenario.hushed, []).
Proof.
  split; [reflexivity|].
  apply (handleAudioData_muted_dropped Scenario.allOpen Scenario.hushed
           "general" "ann").
  reflexivity.
Defined.

(** *** Quality and volume *)

Lemma voiceUser_storeUser s roomId userId room user :
  Observe.voiceUser (storeUser roomId userId room user s) roomId userId
  = Some user.
Proof.
  unfold Observe.voiceUser, storeUser, storeRoom. simpl.
  rewrite JsMapFacts.get_set_same. simpl. apply JsMapFacts.get_set_same.
Qed.

(** C10.  A [voice_quality_change] of a member keeps the member's volume
    when the message carries volume 0 (or none), and replaces it when the
    message carries a volume from 1 to 100; a volume that is not 0 never
    becomes 0 this way. *)
Theorem handleQualityChange_volume rs s roomId userId quality volume user :
  Observe.voiceUser s roomId userId = Some user ->
  exists user',
    Observe.voiceUser
      (fst (handleQualityChange rs s roomId userId quality volume))
      roomId userId = Some user' /\
    (volume = Some 0 -> VoiceUser.volume user' = VoiceUser.volume user) /\
    (volume = None -> VoiceUser.volume user' = VoiceUser.volume user) /\
    (forall v, 1 <= v <= 100 -> volume = Some v ->
       VoiceUser.volume user' = v) /\
    (VoiceUser.volume user <> 0 -> VoiceUser.volume user' <> 0).
Proof.
  unfold Observe.voiceUser at 1, handleQualityChange.
  destruct (JsMap.get roomId (rooms s)) as [room|]; [|discriminate].
  intros Huser. rewrite Huser. simpl.
  eexists. split; [apply voiceUser_storeUser|]. simpl.
  split; [now intros ->|]. split; [now intros ->|]. split.
  - intros v Hv ->. unfold js_or, truthy_num.
    destruct (Z.eqb_spec v 0); [lia | reflexivity].
  - intros Hold. destruct volume as [v|]; simpl; auto.
    unfold truthy_num. destruct (Z.eqb_spec v 0); simpl; auto.
Qed.

Lemma handleQualityChange_volume_witness :
  exists user user',
    voiceUser Scenario.talking "general" "ann" = Some user /\
    voiceUser
      (fst (handleQualityChange Scenario.allOpen Scenario.talking "general"
              "ann" high (Some 0)))
      "general" "ann" = Some user' /\
    VoiceUser.volume user' = VoiceUser.volume user.
Proof.
  destruct (handleQualityChange_volume Scenario.allOpen Scenario.talking
              "general" "ann" high (Some 0) _ eq_refl)
    as (user' & Huser' & Hzero & _).
  eexists. exists user'. split; [reflexivity|]. split; [exact Huser'|].
  exact (Hzero eq_refl).
Defined.

(** *** Mute *)

(** How the handlers move the record of a user in a room. *)

Lemma voiceUser_storeUser_at s roomId userId room user r u :
  JsMap.get roomId (rooms s) = Some room ->
  Observe.voiceUser (storeUser roomId userId room user s) r u
  = if (r =? roomId)%string && (u =? userId)%string then Some user
    else Observe.voiceUser s r u.
Proof.
  intros Hroom. unfold Observe.voiceUser, storeUser, storeRoom. simpl.
  destruct (String.eqb_spec r roomId) as [->|Hr]; simpl.
  - rewrite JsMapFacts.get_set_same, Hroom. simpl.
    destruct (String.eqb_spec u userId) as [->|Hu].
    + apply JsMapFacts.get_set_same.
    + now apply JsMapFacts.get_set_other.
  - now rewrite JsMapFacts.get_set_other.
Qed.

Lemma voiceUser_storeRoom s roomId room room' r u :
  JsMap.get roomId (rooms s) = Some room ->
  VoiceRoom.users room' = VoiceRoom.users room ->
  Observe.voiceUser (storeRoom roomId room' s) r u = Observe.voiceUser s r u.
Proof.
  intros Hroom Husers. unfold Observe.voiceUser, storeRoom. simpl.
  destruct (String.eqb_spec r roomId) as [->|Hr].
  - now rewrite JsMapFacts.get_set_same, Hroom, Husers.
  - now rewrite JsMapFacts.get_set_other.
Qed.

Lemma voiceUser_removeUserFromRoom rs s userId roomId r u :
  let s' := fst (removeUserFromRoom rs s userId roomId) in
  Observe.voiceUser s' r u = Observe.voiceUser s r u \/
  Observe.voiceUser s' r u = None.
Proof.
  unfold removeUserFromRoom.
  destruct (JsMap.get roomId (rooms s)) as [room|] eqn:Hroom; simpl; auto.
  destruct (JsMap.get userId (VoiceRoom.users room)) as [user|] eqn:Huser;
    simpl; auto.
  unfold Observe.voiceUser.
  destruct (_ && _); simpl.
  - destruct (String.eqb_spec r roomId) as [->|Hr].
    + right. now rewrite JsMapFacts.get_delete_same.
    + left. rewrite JsMapFacts.get_delete_other by auto.
      now rewrite JsMapFacts.get_set_other.
  - destruct (String.eqb_spec r roomId) as [->|Hr].
    + rewrite JsMapFacts.get_set_same, Hroom. simpl.
      destruct (String.eqb_spec u userId) as [->|Hu].
      * right. apply JsMapFacts.get_delete_same.
      * left. now apply JsMapFacts.get_delete_other.
    + left. now rewrite JsMapFacts.get_set_other.
Qed.


Lemma voiceUser_handleRoomJoin rs now s ws roomId userInfo password r u :
  let s' := fst (handleRoomJoin rs now s ws roomId userInfo password) in
  Observe.voiceUser s' r u = Observe.voiceUser s r u \/
  Observe.voiceUser s' r u = None \/
  exists user,
    Observe.voiceUser s' r u = Some user /\
    VoiceUser.isMuted user = false /\ VoiceUser.isSpeaking user = false.
Proof.
  unfold handleRoomJoin.
  destruct roomId as [roomId|]; simpl; auto.
  destruct (JsMap.get roomId (rooms s)) as [room|] eqn:Hroom; simpl; auto.
  destruct (Number.leb _ _); simpl; auto.
  destruct (_ && _); simpl; auto.
  set (evicted :=
         match JsMap.get (UserInfo.id userInfo) (userRooms s) with
         | Some previousRoomId =>
             if truthy_str previousRoomId
             then removeUserFromRoom rs s (UserInfo.id userInfo)
                    previousRoomId
             else (s, [])
         | None => (s, [])
         end).
  assert (Hevicted : Observe.voiceUser (fst evicted) r u
                     = Observe.voiceUser s r u \/
                     Observe.voiceUser (fst evicted) r u = None).
  { subst evicted.
    destruct (JsMap.get (UserInfo.id userInfo) (userRooms s)) as [prev|];
      simpl; auto.
    destruct (truthy_str prev); simpl; auto.
    apply voiceUser_removeUserFromRoom. }
  destruct evicted as [s1 out1]. simpl in *.
  destruct (JsMap.get roomId (rooms s1)) as [current|] eqn:Hcurrent; simpl.
  - unfold Observe.voiceUser in *. simpl.
    destruct (String.eqb_spec r roomId) as [->|Hr].
    + rewrite JsMapFacts.get_set_same. simpl.
      destruct (String.eqb_spec u (UserInfo.id userInfo)) as [->|Hu].
      * right. right. rewrite JsMapFacts.get_set_same. eauto.
      * rewrite JsMapFacts.get_set_other by auto.
        rewrite Hcurrent in Hevicted. tauto.
    + rewrite JsMapFacts.get_set_other by auto. tauto.
  - unfold Observe.voiceUser in *. simpl. tauto.
Qed.


Lemma voiceUser_createRoom s config r u :
  let s' := fst (createRoom s config) in
  Observe.voiceUser s' r u = Observe.voiceUser s r u \/
  Observe.voiceUser s' r u = None.
Proof.
  unfold createRoom, Observe.voiceUser. simpl.
  destruct (String.eqb_spec r (RoomConfig.id config)) as [->|Hr].
  - right. now rewrite JsMapFacts.get_set_same.
  - left. now rewrite JsMapFacts.get_set_other.
Qed.

(** The state [handleRoomCreate] leaves is the one it has reached at its
    [await]: the room is stored and nobody is made a member. *)
Lemma handleRoomCreate_begin_state rs now s ws rnd roomData userInfo :
  exists config,
    RoomConfig.id config = generateRoomId rnd /\
    fst (handleRoomCreate_begin rs now s ws rnd roomData userInfo)
    = fst (createRoom s config) /\
    fst (handleRoomCreate rs now s ws rnd roomData userInfo)
    = fst (createRoom s config) /\
    snd (handleRoomCreate_begin rs now s ws rnd roomData userInfo)
    = sendError rs ws "الغرفة الصوتية غير موجودة".
Proof.
  unfold handleRoomCreate_begin, handleRoomCreate.
  set (config := RoomConfig.mk _ _ _ _ _ _ _ _).
  exists config. split; [reflexivity|].
  destruct (createRoom s config) as [s1 room]. cbn [fst].
  repeat split; reflexivity.
Qed.

(** What the resumption of a suspended join does to the manager. *)
Lemma handleRoomJoin_resume_manager rs now w k :
  let s := manager w in
  let userId := UserInfo.id (Suspended.userInfo k) in
  manager (fst (handleRoomJoin_resume rs now w k)) = s \/
  (exists cell room,
     Suspended.room k = detached cell /\
     nth_error (cells w) cell = Some room /\
     manager (fst (handleRoomJoin_resume rs now w k))
     = mkManager (rooms s)
         (JsMap.set userId (Suspended.roomId k) (userRooms s))) \/
  (exists room user,
     Suspended.room k = stored /\
     JsMap.get (Suspended.roomId k) (rooms s) = Some room /\
     VoiceUser.isMuted user = false /\ VoiceUser.isSpeaking user = false /\
     VoiceUser.id user = userId /\
     manager (fst (handleRoomJoin_resume rs now w k))
     = mkManager
         (JsMap.set (Suspended.roomId k)
            (VoiceRoom.with_users
               (JsMap.set userId user (VoiceRoom.users room)) room)
            (rooms s))
         (JsMap.set userId (Suspended.roomId k) (userRooms s))).
Proof.
  unfold handleRoomJoin_resume.
  destruct (Suspended.room k) as [|cell] eqn:Hheld.
  - destruct (JsMap.get (Suspended.roomId k) (rooms (manager w)))
      as [room|] eqn:Hroom; [|auto].
    right. right. eexists room, _. cbn [fst manager].
    repeat split; reflexivity.
  - destruct (nth_error (cells w) cell) as [room|] eqn:Hcell; [|auto].
    right. left. exists cell, room. cbn [fst manager]. auto.
Qed.

Lemma voiceUser_handleRoomJoin_resume rs now w k r u :
  let s' := manager (fst (handleRoomJoin_resume rs now w k)) in
  Observe.voiceUser s' r u = Observe.voiceUser (manager w) r u \/
  u = UserInfo.id (Suspended.userInfo k) /\
  exists user,
    Observe.voiceUser s' r u = Some user /\
    VoiceUser.isMuted user = false /\ VoiceUser.isSpeaking user = false.
Proof.
  cbv zeta.
  destruct (handleRoomJoin_resume_manager rs now w k)
    as [->|[(cell & room & _ & _ & ->)
           |(room & user & _ & Hroom & Hm & Hs & _ & ->)]]; auto.
  unfold Observe.voiceUser. cbn [rooms].
  destruct (String.eqb_spec r (Suspended.roomId k)) as [->|Hr].
  - rewrite JsMapFacts.get_set_same, Hroom.
    cbn [VoiceRoom.users VoiceRoom.with_users].
    destruct (String.eqb_spec u (UserInfo.id (Suspended.userInfo k)))
      as [->|Hu].
    + right. split; [reflexivity|]. exists user.
      rewrite JsMapFacts.get_set_same. auto.
    + left. now apply JsMapFacts.get_set_other.
  - left. now rewrite JsMapFacts.get_set_other.
Qed.

(** *** The steps of a run in terms of the handlers *)

Lemma step_manager moment w e :
  let rs := Moment.readyState moment in
  let now := Moment.now moment in
  let s := manager w in
  manager (fst (step moment w e))
  = match e with
    | on_message ws message =>
        match message with
        | voice_room_join roomId userInfo password =>
            match joinAwaits s roomId userInfo password with
            | Some (_, previousRoomId) =>
                fst (removeUserFromRoom rs s (UserInfo.id userInfo)
                       previousRoomId)
            | None =>
                fst (handleRoomJoin rs now s ws roomId userInfo password)
            end
        | _ => fst (handleVoiceMessage rs now s ws message)
        end
    | on_close _ => s
    | on_resume n =>
        match nth_error (suspended w) n with
        | Some k =>
            match Suspended.continuation k with
            | afterEviction =>
                manager
                  (fst (handleRoomJoin_resume rs now
                          (mkWorld s (cells w) (remove_nth n (suspended w)))
                          k))
            | afterJoin => s
            end
        | None => s
        end
    end.
Proof.
  cbv zeta. destruct e as [ws message|ws|n]; [|reflexivity|].
  - destruct message; unfold step;
      try (cbn [handleVoiceMessage];
           match goal with
           | |- context [let (_, _) := ?p in _] => destruct p
           end; reflexivity).
    + destruct (joinAwaits _ _ _ _) as [[r prev]|].
      * destruct (removeUserFromRoom _ _ _ _) as [s1 out1].
        destruct (deletedRoom _ _ _); reflexivity.
      * destruct (handleRoomJoin _ _ _ _ _ _ _); reflexivity.
    + cbn [handleVoiceMessage].
      destruct (handleRoomLeave _ _ _ _) as [s1 out1].
      destruct (deletedRoom _ _ _); reflexivity.
    + cbn [handleVoiceMessage].
      destruct (handleRoomCreate_begin_state (Moment.readyState moment)
                  (Moment.now moment) (manager w) ws rnd roomData userInfo)
        as (config & _ & Hb & Hc & _).
      rewrite Hc, <- Hb.
      destruct (handleRoomCreate_begin _ _ _ _ _ _ _) as [s1 out1].
      reflexivity.
    + reflexivity.
  - unfold step. destruct (nth_error (suspended w) n) as [k|]; [|reflexivity].
    destruct (Suspended.continuation k); [reflexivity|].
    unfold handleRoomCreate_resume. destruct (held _ _); reflexivity.
Qed.


Lemma nth_error_last {A} (l : list A) (a : A) :
  nth_error (l ++ [a]) (List.length l) = Some a.
Proof.
  rewrite nth_error_app2 by apply Nat.le_refl.
  now rewrite Nat.sub_diag.
Qed.

Lemma nth_error_map_last {A B} (f : A -> B) (l : list A) (b : B) :
  nth_error (map f l ++ [b]) (List.length l) = Some b.
Proof. rewrite <- (length_map f l). apply nth_error_last. Qed.

(** *** A handler that resumes at once *)

(** When the join that awaits an eviction resumes before any other event,
    the two steps together are [handleRoomJoin] run to completion. *)
Lemma handleRoomJoin_resumed_at_once moment w ws roomId userInfo password :
  let rs := Moment.readyState moment in
  let now := Moment.now moment in
  let e := on_message ws (voice_room_join roomId userInfo password) in
  let w1 := fst (step moment w e) in
  let resume := on_resume (List.length (suspended w)) in
  joinAwaits (manager w) roomId userInfo password <> None ->
  manager (fst (step moment w1 resume))
  = fst (handleRoomJoin rs now (manager w) ws roomId userInfo password) /\
  (snd (step moment w e) ++ snd (step moment w1 resume))%list
  = snd (handleRoomJoin rs now (manager w) ws roomId userInfo password).
Proof.
  intros rs now e w1 resume Hawaits. subst w1 e resume.
  unfold step. fold rs. fold now.
  unfold handleRoomJoin.
  unfold joinAwaits in *.
  destruct roomId as [r|]; [|congruence].
  set (s := manager w) in *.
  destruct (JsMap.get r (rooms s)) as [room|] eqn:Hroom; [|congruence].
  destruct (Number.leb _ _); [congruence|].
  destruct (_ && _); [congruence|].
  set (userId := UserInfo.id userInfo) in *.
  destruct (JsMap.get userId (userRooms s)) as [prev|] eqn:Hprev;
    [|congruence].
  destruct (truthy_str prev); [|congruence].
  clear Hawaits.
  unfold deletedRoom, removeUserFromRoom. fold s.
  destruct (JsMap.get prev (rooms s)) as [roomP|] eqn:HroomP.
  2:{ cbn [fst snd suspended cells manager].
      rewrite nth_error_last. cbn [Suspended.continuation].
      unfold handleRoomJoin_resume.
      cbn [Suspended.room Suspended.roomId Suspended.userInfo Suspended.ws
           manager cells suspended].
      rewrite Hroom. cbn [fst snd manager]. split; reflexivity. }
  destruct (JsMap.get userId (VoiceRoom.users roomP)) as [user|] eqn:Huser.
  2:{ cbn [fst snd suspended cells manager].
      rewrite nth_error_last. cbn [Suspended.continuation].
      unfold handleRoomJoin_resume.
      cbn [Suspended.room Suspended.roomId Suspended.userInfo Suspended.ws
           manager cells suspended].
      rewrite Hroom. cbn [fst snd manager]. split; reflexivity. }
  set (roomP' := VoiceRoom.with_users _ roomP).
  destruct (VoiceRoom.isTemporary roomP' && _) eqn:Hdel.
  - (* the previous room is deleted *)
    unfold detach. cbn [fst snd suspended cells manager].
    rewrite map_app. cbn [map Suspended.room Suspended.roomId].
    rewrite nth_error_map_last.
    destruct (String.eqb_spec r prev) as [->|Hne].
    + cbn [Suspended.continuation]. unfold handleRoomJoin_resume.
      cbn [Suspended.room Suspended.roomId Suspended.userInfo Suspended.ws
           manager cells suspended rooms userRooms].
      rewrite nth_error_last. rewrite JsMapFacts.get_delete_same.
      assert (roomP = room) by congruence. subst roomP.
      cbn [fst snd manager]. split; reflexivity.
    + cbn [Suspended.continuation]. unfold handleRoomJoin_resume.
      cbn [Suspended.room Suspended.roomId Suspended.userInfo Suspended.ws
           manager cells suspended rooms userRooms].
      rewrite JsMapFacts.get_delete_other, JsMapFacts.get_set_other, Hroom
        by auto.
      cbn [fst snd manager]. split; reflexivity.
  - cbn [fst snd suspended cells manager].
    rewrite nth_error_last. cbn [Suspended.continuation].
    unfold handleRoomJoin_resume.
    cbn [Suspended.room Suspended.roomId Suspended.userInfo Suspended.ws
         manager cells suspended rooms userRooms].
    destruct (JsMap.get r (JsMap.set prev roomP' (rooms s))) eqn:Hcur;
      cbn [fst snd manager]; [split; reflexivity|].
    exfalso. destruct (String.eqb_spec r prev) as [->|Hne].
    + now rewrite JsMapFacts.get_set_same in Hcur.
    + rewrite JsMapFacts.get_set_other in Hcur by auto. congruence.
Qed.

(** When the creation resumes before any other event, the two steps
    together are [handleRoomCreate] run to completion. *)
Lemma handleRoomCreate_resumed_at_once moment w ws rnd roomData userInfo :
  let rs := Moment.readyState moment in
  let now := Moment.now moment in
  let e := on_message ws (voice_room_create rnd roomData userInfo) in
  let w1 := fst (step moment w e) in
  let resume := on_resume (List.length (suspended w)) in
  manager (fst (step moment w1 resume))
  = fst (handleRoomCreate rs now (manager w) ws rnd roomData userInfo) /\
  (snd (step moment w e) ++ snd (step moment w1 resume))%list
  = snd (handleRoomCreate rs now (manager w) ws rnd roomData userInfo).
Proof.
  intros rs now e w1 resume. subst w1 e resume.
  unfold step. fold rs. fold now.
  unfold handleRoomCreate_begin, handleRoomCreate, createRoom.
  set (s := manager w).
  set (config := RoomConfig.mk _ _ _ _ _ _ _ _).
  cbn [handleRoomJoin fst snd].
  assert (Hlast : forall w0 : World,
             List.length (suspended w0) = List.length (suspended w) ->
             forall k,
               nth_error (suspended w0 ++ [k]) (List.length (suspended w))
               = Some k).
  { intros w0 Hlen k. rewrite <- Hlen. apply nth_error_last. }
  destruct (JsMap.get (generateRoomId rnd) (rooms s)) as [old|];
    cbn [fst snd suspended cells manager];
    (rewrite Hlast by (unfold detach; cbn [suspended]; apply length_map
                       || reflexivity));
    cbn [Suspended.continuation]; unfold handleRoomCreate_resume, held;
    cbn [Suspended.room Suspended.roomId Suspended.userInfo Suspended.ws
         manager rooms RoomConfig.id];
    change (RoomConfig.id config) with (generateRoomId rnd);
    rewrite JsMapFacts.get_set_same; cbn [fst snd manager];
    split; reflexivity.
Qed.

(** *** A muted member is silent *)

Lemma quiet_same s s' r u :
  Observe.voiceUser s' r u = Observe.voiceUser s r u ->
  quiet s r u -> quiet s' r u.
Proof.
  unfold quiet, Observe.isMuted, Observe.isSpeaking. now intros ->.
Qed.

Lemma quiet_absent s r u : Observe.voiceUser s r u = None -> quiet s r u.
Proof.
  unfold quiet, Observe.isMuted, Observe.isSpeaking. now intros ->.
Qed.

Lemma quiet_record s r u user :
  Observe.voiceUser s r u = Some user ->
  VoiceUser.isMuted user = false \/ VoiceUser.isSpeaking user = false ->
  quiet s r u.
Proof.
  unfold quiet, Observe.isMuted, Observe.isSpeaking. intros ->.
  intros [H|H] Hm; congruence.
Qed.

Lemma quiet_storeUser s roomId userId room user user' r u :
  JsMap.get roomId (rooms s) = Some room ->
  JsMap.get userId (VoiceRoom.users room) = Some user ->
  (VoiceUser.isMuted user' = false \/ VoiceUser.isSpeaking user' = false \/
   (VoiceUser.isMuted user' = VoiceUser.isMuted user /\
    VoiceUser.isSpeaking user' = VoiceUser.isSpeaking user)) ->
  quiet s r u -> quiet (storeUser roomId userId room user' s) r u.
Proof.
  intros Hroom Huser Hflags Hquiet.
  pose proof (voiceUser_storeUser_at s roomId userId room user' r u Hroom)
    as Hat.
  destruct (String.eqb_spec r roomId) as [->|Hr]; simpl in Hat.
  - destruct (String.eqb_spec u userId) as [->|Hu]; simpl in Hat.
    + destruct Hflags as [H|[H|[Hm Hs]]].
      * eapply quiet_record; eauto.
      * eapply quiet_record; eauto.
      * revert Hquiet.
        unfold quiet, Observe.isMuted, Observe.isSpeaking.
        rewrite Hat. unfold Observe.voiceUser. rewrite Hroom, Huser.
        rewrite Hm, Hs. auto.
    + eapply quiet_same; eauto.
  - eapply quiet_same; eauto.
Qed.

Lemma quiet_removeUserFromRoom rs s userId roomId r u :
  quiet s r u -> quiet (fst (removeUserFromRoom rs s userId roomId)) r u.
Proof.
  intros Hq.
  destruct (voiceUser_removeUserFromRoom rs s userId roomId r u) as [H|H].
  - eapply quiet_same; eauto.
  - now apply quiet_absent.
Qed.

Lemma quiet_handleRoomJoin rs now s ws roomId userInfo password r u :
  quiet s r u ->
  quiet (fst (handleRoomJoin rs now s ws roomId userInfo password)) r u.
Proof.
  intros Hq.
  destruct (voiceUser_handleRoomJoin rs now s ws roomId userInfo password r u)
    as [H|[H|(user & H & Hm & _)]].
  - eapply quiet_same; eauto.
  - now apply quiet_absent.
  - eapply quiet_record; eauto.
Qed.

(** Every message keeps a muted member silent. *)
Lemma handleVoiceMessage_quiet rs now s ws message r u :
  quiet s r u -> quiet (fst (handleVoiceMessage rs now s ws message)) r u.
Proof.
  intros Hq. destruct message; cbn [handleVoiceMessage]; auto.
  - now apply quiet_handleRoomJoin.
  - now apply quiet_removeUserFromRoom.
  - unfold handleStartSpeaking.
    destruct (JsMap.get roomId (rooms s)) as [room|] eqn:Hroom; auto.
    destruct (JsMap.get userId (VoiceRoom.users room)) as [user|] eqn:Hu;
      auto.
    destruct (VoiceUser.isMuted user) eqn:Hm; auto. simpl.
    eapply quiet_storeUser; eauto.
  - unfold handleStopSpeaking.
    destruct (JsMap.get roomId (rooms s)) as [room|] eqn:Hroom; auto.
    destruct (JsMap.get userId (VoiceRoom.users room)) as [user|] eqn:Hu;
      auto.
    simpl. eapply quiet_storeUser; eauto.
  - unfold handleAudioData.
    destruct (JsMap.get roomId (rooms s)) as [room|]; auto.
    destruct (JsMap.get userId (VoiceRoom.users room)) as [user|]; auto.
    destruct (VoiceUser.isMuted user); auto.
  - unfold handleMute.
    destruct (JsMap.get roomId (rooms s)) as [room|] eqn:Hroom; auto.
    destruct (JsMap.get userId (VoiceRoom.users room)) as [user|] eqn:Hu;
      auto.
    simpl. eapply quiet_storeUser; eauto.
  - unfold handleUnmute.
    destruct (JsMap.get roomId (rooms s)) as [room|] eqn:Hroom; auto.
    destruct (JsMap.get userId (VoiceRoom.users room)) as [user|] eqn:Hu;
      auto.
    simpl. eapply quiet_storeUser; eauto.
  - destruct (handleRoomCreate_begin_state rs now s ws rnd roomData userInfo)
      as (config & _ & _ & -> & _).
    destruct (voiceUser_createRoom s config r u) as [H|H].
    + exact (quiet_same _ _ _ _ H Hq).
    + exact (quiet_absent _ _ _ H).
  - unfold handleQualityChange.
    destruct (JsMap.get roomId (rooms s)) as [room|] eqn:Hroom; auto.
    destruct (JsMap.get userId (VoiceRoom.users room)) as [user|] eqn:Hu;
      auto.
    simpl. eapply quiet_storeUser; eauto.
  - unfold handleNoiseReduction.
    destruct (JsMap.get roomId (rooms s)) as [room|] eqn:Hroom; auto.
    destruct (JsMap.get userId (VoiceRoom.users room)) as [user|] eqn:Hu;
      auto.
    destruct (VoiceUser.isAdmin user); auto. simpl.
    apply (quiet_same s); [|exact Hq].
    now apply (voiceUser_storeRoom s roomId room).
Qed.

(** Every event keeps a muted member silent. *)
Lemma step_quiet moment w e r u :
  quiet (manager w) r u -> quiet (manager (fst (step moment w e))) r u.
Proof.
  intros Hq. rewrite step_manager. cbv zeta.
  destruct e as [ws message|ws|n]; [|exact Hq|].
  - destruct message;
      try exact (handleVoiceMessage_quiet _ _ _ _ _ _ _ Hq).
    destruct (joinAwaits _ _ _ _) as [[r' prev]|].
    + now apply quiet_removeUserFromRoom.
    + now apply quiet_handleRoomJoin.
  - destruct (nth_error (suspended w) n) as [k|]; [|exact Hq].
    destruct (Suspended.continuation k); [|exact Hq].
    destruct (voiceUser_handleRoomJoin_resume (Moment.readyState moment)
                (Moment.now moment)
                (mkWorld (manager w) (cells w) (remove_nth n (suspended w)))
                k r u) as [H|(_ & user & H & Hm & _)].
    + exact (quiet_same _ _ _ _ H Hq).
    + eapply quiet_record; eauto.
Qed.

(** What the handlers send never announces a muted member. *)

















(** *** One voice room per user, and the joins that overtake one another *)

(** X26.  The eviction that a join awaits can be overtaken, and a user is
    then a member of two rooms.  Ann, in [general], sends a join for
    [gaming], which evicts her and is suspended, and then a join for
    [general], which finds no previous room and runs to its end; when the
    first join resumes, Ann is a member of both rooms and the index names
    [gaming] only. *)
Lemma overtaken_join_two_rooms :
  let s :=
    manager (fst (run (fst (run start Scenario.meeting)) Scenario.overtaking))
  in
  voiceUser (Scenario.after Scenario.meeting) "general" "ann" <> None /\
  voiceUser (Scenario.after Scenario.meeting) "gaming" "ann" = None /\
  voiceUser s "general" "ann" <> None /\
  voiceUser s "gaming" "ann" <> None /\
  JsMap.get "ann" (userRooms s) = Some "gaming".
Proof. cbv zeta. repeat split; try discriminate; reflexivity. Qed.

(** X23.  A join that is overtaken while it awaits the eviction can fill a
    room beyond its capacity.  The room [voice_s] takes one user.  Ann's
    join finds it empty and is suspended on her eviction from [general];
    Ben's join finds it empty too and runs to its end; when Ann's join
    resumes, the room holds both. *)
Lemma overtaken_join_over_capacity :
  let s := Scenario.after Scenario.crowding in
  let before := Scenario.after (firstn 3 Scenario.crowding) in
  (exists room,
     JsMap.get "voice_s" (rooms before) = Some room /\
     Settings.maxUsers (VoiceRoom.settings room) = Number.of_Z 1 /\
     VoiceRoom.users room = []) /\
  voiceUser before "general" "ann" <> None /\
  exists room,
    JsMap.get "voice_s" (rooms s) = Some room /\
    Settings.maxUsers (VoiceRoom.settings room) = Number.of_Z 1 /\
    JsMap.keys (VoiceRoom.users room) = ["ben"; "ann"] /\
    JsMap.size (VoiceRoom.users room) = 2.
Proof.
  cbv zeta. split; [|split].
  - eexists. repeat split.
  - discriminate.
  - eexists. repeat split.
Qed.

Lemma removeUserFromRoom_effect rs s u r :
  let s1 := fst (removeUserFromRoom rs s u r) in
  voiceUser s1 r u = None /\
  (userRooms s1 = userRooms s /\ voiceUser s r u = None \/
   userRooms s1 = JsMap.delete u (userRooms s) /\ voiceUser s r u <> None) /\
  (forall r', JsMap.get r' (rooms s1) <> None ->
              JsMap.get r' (rooms s) <> None).
Proof.
  unfold removeUserFromRoom, voiceUser.
  destruct (JsMap.get r (rooms s)) as [room|] eqn:Hroom;
    [|cbn [fst]; rewrite Hroom; auto].
  destruct (JsMap.get u (VoiceRoom.users room)) as [user|] eqn:Huser;
    [|cbn [fst]; rewrite Hroom, Huser; auto].
  destruct (_ && _); cbn [fst rooms userRooms].
  - rewrite JsMapFacts.get_delete_same. split; [reflexivity|].
    split; [right; split; [reflexivity | discriminate]|].
    intros r' H. destruct (String.eqb_spec r' r) as [->|Hne].
    + now rewrite Hroom.
    + rewrite JsMapFacts.get_delete_other, JsMapFacts.get_set_other in H;
        auto.
  - rewrite JsMapFacts.get_set_same. cbn [VoiceRoom.users VoiceRoom.with_users].
    split; [apply JsMapFacts.get_delete_same|].
    split; [right; split; [reflexivity | discriminate]|].
    intros r' H. destruct (String.eqb_spec r' r) as [->|Hne].
    + now rewrite Hroom.
    + rewrite JsMapFacts.get_set_other in H; auto.
Qed.

End VoiceChatFacts.


(** ** Admission, membership and hosts across the two managers *)

Module RoomFacts.

Lemma strict_neq_true a b : a <> b -> strict_neq a b = true.
Proof.
  intros Hne. destruct a as [x|], b as [y|]; simpl; try reflexivity.
  - destruct (String.eqb_spec x y); [congruence | reflexivity].
  - congruence.
Qed.

(** C6.  A join that fails an admission check (of a game room: room absent,
    in play, full, or wrong password; of a voice room: room absent, full, or
    wrong password) leaves the manager exactly as it was, and the only thing
    it sends is one error message on the requesting socket (nothing when that
    socket is no longer open). *)
Theorem join_refused_changes_nothing rs ws roomId password
    (game : GameSync.GameSyncManager) playerInfo rnd_x rnd_y
    (voice : VoiceChat.VoiceChatManager) userInfo now :
  (Observe.gameJoinRefused game roomId password ->
   exists text,
     GameSync.joinGameRoom rs game ws roomId playerInfo password rnd_x rnd_y
     = (game,
        if isOPEN (rs ws)
        then [GameSync.Send ws
                (GameSync.Message.mk "room_join" "" ""
                   (GameSync.error text))]
        else [])) /\
  (Observe.voiceJoinRefused voice roomId password ->
   exists text,
     VoiceChat.handleRoomJoin rs now voice ws roomId userInfo password
     = (voice,
        if isOPEN (rs ws)
        then [VoiceChat.Send ws
                (VoiceChat.Message.mk "voice_room_join" "" ""
                   (VoiceChat.error text))]
        else [])).
Proof.
  split.
  - unfold Observe.gameJoinRefused, GameSync.joinGameRoom,
      GameSync.sendError, GameSync.sendToPlayer.
    destruct roomId as [roomId|]; [|eauto].
    destruct (JsMap.get roomId (GameSync.rooms game)) as [room|]; [|eauto].
    destruct (GameSync.Status_eqb _ _) eqn:Hstatus; [eauto|].
    destruct (Number.leb _ _) eqn:Hcount; [eauto|].
    intros [Hplaying|[Hfull|[Hprivate Hpassword]]].
    + rewrite Hplaying in Hstatus. discriminate.
    + discriminate.
    + rewrite Hprivate, (strict_neq_true _ _ Hpassword). simpl. eauto.
  - unfold Observe.voiceJoinRefused, VoiceChat.handleRoomJoin,
      VoiceChat.sendError, VoiceChat.sendToUser.
    destruct roomId as [roomId|]; [|eauto].
    destruct (JsMap.get roomId (VoiceChat.rooms voice)) as [room|]; [|eauto].
    destruct (Number.leb _ _) eqn:Hcount; [eauto|].
    intros [Hfull|[Hprivate Hpassword]].
    + discriminate.
    + rewrite Hprivate, (strict_neq_true _ _ Hpassword). simpl. eauto.
Qed.

(** The scenario of C6: the room holds two members and its capacity is 2; a
    third player's join is answered by an error on that player's socket and
    the room still has its two members. *)
Lemma join_refused_changes_nothing_witness :
  Observe.gameJoinRefused Scenario.joined (Some "room_a") None /\
  (exists text,
     GameSync.joinGameRoom Scenario.allOpen Scenario.joined 3%nat
       (Some "room_a") Scenario.carol None 0.25 0.5
     = (Scenario.joined,
        [GameSync.Send 3%nat
           (GameSync.Message.mk "room_join" "" "" (GameSync.error text))])) /\
  option_map (fun room => JsMap.size (GameSync.GameRoom.players room))
    (JsMap.get "room_a" (GameSync.rooms Scenario.joined))
  = Some 2.
Proof.
  assert (Hrefused :
            Observe.gameJoinRefused Scenario.joined (Some "room_a") None).
  { simpl. right. left. reflexivity. }
  split; [exact Hrefused|]. split; [|reflexivity].
  exact (proj1
           (join_refused_changes_nothing Scenario.allOpen 3%nat
              (Some "room_a") None Scenario.joined Scenario.carol 0.25 0.5
              VoiceChat.initial Scenario.ann 0)
           Hrefused).
Defined.

(** C1 fails in the game manager.  Alice is the member of [room_a] and Bob
    of [room_b]; Alice's join of [room_b] is admitted and leaves her a member
    of both rooms, while the index records [room_b] only. *)
Lemma joinGameRoom_keeps_previous_room :
  let s :=
    fst (GameSync.joinGameRoom Scenario.allOpen Scenario.two_rooms 1%nat
           (Some "room_b") Scenario.alice None 0.25 0.5) in
  Observe.member Scenario.two_rooms "room_a" "alice" = true /\
  Observe.member Scenario.two_rooms "room_b" "alice" = false /\
  Observe.member s "room_a" "alice" = true /\
  Observe.member s "room_b" "alice" = true /\
  JsMap.get "alice" (GameSync.playerRooms s) = Some "room_b".
Proof. repeat split. Qed.

(** C2 fails on a join of one's own room.  Alice created [room_a] and is its
    host; her join of [room_a] is admitted and replaces her record by one
    without the host flag: the room has a member, its [hostId] is still
    Alice, and no member holds the host flag. *)
Lemma joinGameRoom_own_room_clears_host :
  let s :=
    fst (GameSync.joinGameRoom Scenario.allOpen Scenario.created 1%nat
           (Some "room_a") Scenario.alice None 0.25 0.5) in
  map GameSync.GamePlayer.id (Observe.hosts Scenario.created "room_a")
  = ["alice"] /\
  Observe.member s "room_a" "alice" = true /\
  option_map GameSync.GameRoom.hostId (JsMap.get "room_a" (GameSync.rooms s))
  = Some "alice" /\
  Observe.hosts s "room_a" = [].
Proof. repeat split. Qed.

End RoomFacts.

(** * The rest of the managers *)

(** ** More on the map operations *)

Module JsMapMore.
Import JsMap.

Section Facts.
Context {V : Type}.
Implicit Types (k : string) (v : V) (m : JsMap.t V).

Lemma set_set k v1 v2 m : set k v2 (set k v1 m) = set k v2 m.
Proof.
  induction m as [|[k' v'] m IH]; simpl.
  - now rewrite String.eqb_refl.
  - destruct (String.eqb k' k) eqn:E; simpl; rewrite E; congruence.
Qed.

Lemma size_set k v m :
  size (set k v m) = if has k m then size m else size m + 1.
Proof.
  unfold size, has. induction m as [|[k' v'] m IH]; simpl; [reflexivity|].
  destruct (String.eqb k' k) eqn:E; simpl; [reflexivity|].
  destruct (get k m); lia.
Qed.

Lemma size_delete_le k m : size (delete k m) <= size m.
Proof.
  unfold size. induction m as [|[k' v'] m IH]; simpl; [lia|].
  destruct (String.eqb k' k); simpl; lia.
Qed.

Lemma size_delete_has k m : has k m = true -> size (delete k m) < size m.
Proof.
  unfold size, has. induction m as [|[k' v'] m IH]; simpl; [discriminate|].
  destruct (String.eqb k' k) eqn:E; simpl.
  - intros _. pose proof (size_delete_le k m). unfold size in *. lia.
  - intros H. specialize (IH H). lia.
Qed.

Lemma has_In_keys k m : has k m = true <-> In k (keys m).
Proof.
  unfold has. split.
  - destruct (get k m) eqn:E; [|discriminate]. intros _.
    apply JsMapFacts.get_In in E. change k with (fst (k, v)).
    now apply in_map.
  - intros H. apply JsMapFacts.In_keys_get in H. destruct H as [v ->].
    reflexivity.
Qed.

(** Object spread: a key of the second object takes its value there, any
    other key keeps the value of the first. *)
Lemma spread_other k (a b : JsMap.t V) :
  get k b = None -> get k (spread a b) = get k a.
Proof.
  unfold spread. revert a.
  induction b as [|[k0 v0] b IH]; simpl; intros a Hk; [reflexivity|].
  destruct (String.eqb_spec k0 k) as [->|Hne]; [discriminate|].
  rewrite IH by exact Hk. apply JsMapFacts.get_set_other. congruence.
Qed.

Lemma spread_override k v (a b : JsMap.t V) :
  wf b -> get k b = Some v -> get k (spread a b) = Some v.
Proof.
  unfold spread, wf. revert a.
  induction b as [|[k0 v0] b IH]; simpl; intros a Hwf Hk; [discriminate|].
  inversion Hwf as [|? ? Hnotin Hwf']; subst.
  destruct (String.eqb_spec k0 k) as [->|Hne].
  - injection Hk as ->.
    assert (Hnone : get k b = None).
    { destruct (get k b) eqn:E; [|reflexivity].
      apply JsMapFacts.get_In in E. exfalso. apply Hnotin.
      change k with (fst (k, v0)). now apply in_map. }
    fold (spread (set k v a) b). rewrite (spread_other k _ b Hnone).
    apply JsMapFacts.get_set_same.
  - now apply IH.
Qed.

End Facts.

Lemma filter_set_excluded {V} (g : string * V -> bool) k v (m : JsMap.t V) :
  filter (fun kv => negb (fst kv =? k)%string && g kv) (JsMap.set k v m)
  = filter (fun kv => negb (fst kv =? k)%string && g kv) m.
Proof.
  induction m as [|[k' v'] m IH]; simpl.
  - now rewrite String.eqb_refl.
  - destruct (String.eqb k' k) eqn:E; simpl; rewrite E; simpl; auto.
    now rewrite IH.
Qed.

Lemma size_map_values {V W} (f : V -> W) (m : JsMap.t V) :
  size (map (fun kv => (fst kv, f (snd kv))) m) = size m.
Proof. unfold size. now rewrite length_map. Qed.

End JsMapMore.

(** ** The game manager: the rest of the room life cycle *)

Module GameSyncMore.
Import GameSync.

Lemma filter_none {A} (f : A -> bool) (l : list A) :
  (forall x, In x l -> f x = false) -> filter f l = [].
Proof.
  induction l as [|x l IH]; simpl; intros H; [reflexivity|].
  rewrite (H x) by now left. apply IH. intros y Hy. apply H. now right.
Qed.

(** X1.  [createGameRoom] stores, under the generated id, a waiting room
    whose only member is the creator: the host, ready, with score 0, three
    lives, level 1 and position (50, 50), on the requesting socket.  The
    room has the initial state of its game type and the settings of the
    request, where a missing or 0 [maxPlayers] becomes 4, a missing
    [isPrivate] false, a missing [gameMode] competitive and a missing
    [difficulty] medium: the capacity is never 0.  The index names the room
    for the creator and [getPlayerRoom] reports it; no other room and no
    timer is touched; the only message is the confirmation to the creator's
    socket, when it is open. *)
Theorem createGameRoom_registers rs s ws rnd gameType settings playerInfo :
  let roomId := ("room_" ++ rnd)%string in
  let creator := PlayerInfo.id playerInfo in
  let capacity :=
    match CreateSettings.maxPlayers settings with
    | Some (Number.finite q) =>
        if Qeq_bool q 0 then Number.finite 4 else Number.finite q
    | Some n => n
    | None => Number.finite 4
    end in
  let host :=
    GamePlayer.mk creator (PlayerInfo.username playerInfo)
      (match PlayerInfo.isAdmin playerInfo with Some b => b | None => false
       end)
      true 0 3 1 (Position.mk 50 50) [] true ws in
  let room :=
    GameRoom.mk roomId ("غرفة " ++ PlayerInfo.username playerInfo) gameType
      [(creator, host)] (initializeGameState gameType)
      (Settings.mk capacity
         (match CreateSettings.isPrivate settings with
          | Some b => b
          | None => false
          end)
         (CreateSettings.password settings)
         (match CreateSettings.gameMode settings with
          | Some mode => mode
          | None => competitive
          end)
         (match CreateSettings.difficulty settings with
          | Some difficulty => difficulty
          | None => medium
          end))
      waiting creator in
  let s' := fst (createGameRoom rs s ws rnd gameType settings playerInfo) in
  let out := snd (createGameRoom rs s ws rnd gameType settings playerInfo) in
  JsMap.get roomId (rooms s') = Some room /\
  (forall q, capacity = Number.finite q -> ~ (q == 0)%Q) /\
  playerRooms s' = JsMap.set creator roomId (playerRooms s) /\
  getPlayerRoom s' creator = Some (serializeRoom room) /\
  (forall other, other <> roomId ->
     JsMap.get other (rooms s') = JsMap.get other (rooms s)) /\
  gameTimers s' = gameTimers s /\
  out = if isOPEN (rs ws)
        then [Send ws
                (Message.mk "room_create" roomId creator
                   (room_created (serializeRoom room)
                      "تم إنشاء غرفة اللعبة بنجاح"))]
        else [].
Proof.
  intros roomId creator capacity host room s' out. subst s' out.
  unfold createGameRoom. cbn [fst snd].
  change (generateRoomId rnd) with roomId. fold creator.
  assert (Hcapacity :
            js_or Number.truthy (CreateSettings.maxPlayers settings)
              (Number.of_Z 4) = capacity).
  { unfold js_or, capacity, Number.truthy.
    destruct (CreateSettings.maxPlayers settings) as [[q| |]|];
      try reflexivity.
    destruct (Qeq_bool q 0); reflexivity. }
  assert (Hadmin :
            js_or truthy_bool (PlayerInfo.isAdmin playerInfo) false
            = match PlayerInfo.isAdmin playerInfo with
              | Some b => b
              | None => false
              end).
  { destruct (PlayerInfo.isAdmin playerInfo) as [[|]|]; reflexivity. }
  assert (Hprivate :
            js_or truthy_bool (CreateSettings.isPrivate settings) false
            = match CreateSettings.isPrivate settings with
              | Some b => b
              | None => false
              end).
  { destruct (CreateSettings.isPrivate settings) as [[|]|]; reflexivity. }
  assert (Hmode :
            js_or (fun _ => true) (CreateSettings.gameMode settings)
              competitive
            = match CreateSettings.gameMode settings with
              | Some mode => mode
              | None => competitive
              end).
  { destruct (CreateSettings.gameMode settings); reflexivity. }
  assert (Hdifficulty :
            js_or (fun _ => true) (CreateSettings.difficulty settings) medium
            = match CreateSettings.difficulty settings with
              | Some difficulty => difficulty
              | None => medium
              end).
  { destruct (CreateSettings.difficulty settings); reflexivity. }
  rewrite Hcapacity, Hadmin, Hprivate, Hmode, Hdifficulty.
  change (JsMap.set creator
            (GamePlayer.mk creator (PlayerInfo.username playerInfo)
               match PlayerInfo.isAdmin playerInfo with
               | Some b => b
               | None => false
               end true 0 3 1 (Position.mk 50 50) [] true ws) JsMap.empty)
    with [(creator, host)].
  fold room.
  split; [apply JsMapFacts.get_set_same|].
  split.
  { intros q Hq Hzero. unfold capacity in Hq.
    destruct (CreateSettings.maxPlayers settings) as [[q'| |]|];
      try discriminate.
    - destruct (Qeq_bool q' 0) eqn:Hq'; injection Hq as <-.
      + discriminate Hzero.
      + apply Qeq_bool_neq in Hq'. contradiction.
    - injection Hq as <-. discriminate Hzero. }
  split; [reflexivity|]. split.
  { unfold getPlayerRoom, getRoom. cbn [playerRooms rooms].
    rewrite JsMapFacts.get_set_same.
    replace (truthy_str roomId) with true by reflexivity.
    now rewrite JsMapFacts.get_set_same. }
  split; [intros other Hne; now apply JsMapFacts.get_set_other|].
  split; [reflexivity|].
  unfold sendToPlayer. reflexivity.
Qed.

Lemma length_delete_wf {V} k (m : JsMap.t V) :
  JsMap.wf m -> JsMap.has k m = true ->
  S (List.length (JsMap.delete k m)) = List.length m.
Proof.
  unfold JsMap.wf, JsMap.has, JsMap.keys.
  induction m as [|[k' v'] m IH]; simpl; [discriminate|].
  intros Hnd. inversion Hnd as [|? ? Hnotin Hnd']; subst.
  destruct (String.eqb_spec k' k) as [->|Hne]; simpl.
  - intros _. f_equal.
    clear IH Hnd Hnd'. induction m as [|[k1 v1] m IH]; simpl; auto.
    destruct (String.eqb_spec k1 k) as [->|Hne].
    + exfalso. apply Hnotin. now left.
    + simpl. f_equal. apply IH. intros H. apply Hnotin. now right.
  - intros H. f_equal. now apply IH.
Qed.

Lemma size_delete_wf {V} k (m : JsMap.t V) :
  JsMap.wf m -> JsMap.has k m = true ->
  JsMap.size (JsMap.delete k m) = JsMap.size m - 1.
Proof.
  intros Hwf Hhas. pose proof (length_delete_wf k m Hwf Hhas).
  unfold JsMap.size. lia.
Qed.

(** X2.  In every state the game manager reaches, when the host leaves a
    room that has other members, the room stays in the store with the other
    members in their order; the member that joined earliest among them
    becomes the host (it is the one named by [hostId] and the only member
    with the host flag); the leaver's index entry is removed and
    [player_left] goes to the remaining members whose socket is open. *)
Theorem leaveGameRoom_transfers_host rs trace roomId playerId room :
  let s := fst (run initial trace) in
  JsMap.get roomId (rooms s) = Some room ->
  GameRoom.hostId room = playerId ->
  1 < JsMap.size (GameRoom.players room) ->
  let s' := fst (leaveGameRoom rs s roomId playerId) in
  let out := snd (leaveGameRoom rs s roomId playerId) in
  exists room' key newHost rest message,
    JsMap.delete playerId (GameRoom.players room) = (key, newHost) :: rest /\
    JsMap.get roomId (rooms s') = Some room' /\
    GameRoom.players room'
    = (key, GamePlayer.with_isHost true newHost) :: rest /\
    GameRoom.hostId room' = key /\
    Observe.hosts s' roomId = [GamePlayer.with_isHost true newHost] /\
    JsMap.get playerId (playerRooms s') = None /\
    Message.type message = "player_left" /\
    out = map (fun kv => Send (GamePlayer.ws (snd kv)) message)
            (filter (fun kv => isOPEN (rs (GamePlayer.ws (snd kv))))
               (GameRoom.players room')).
Proof.
  intros s Hroom Hhost Hsize s' out. subst s' out.
  assert (Hs : Observe.gameShape s).
  { apply GameSyncFacts.run_shape. unfold Observe.gameShape. simpl.
    constructor. }
  clearbody s.
  destruct (GameSyncFacts.gameShape_get s roomId room Hs Hroom)
    as (Hwf & Hid & Hflag & Hmem).
  rewrite Hhost in Hmem.
  pose proof (size_delete_wf playerId _ Hwf Hmem) as Hrem.
  destruct (JsMap.delete playerId (GameRoom.players room))
    as [|[key newHost] rest] eqn:Hdel.
  { unfold JsMap.size in *. cbn [List.length] in Hrem. lia. }
  assert (Hsub : forall k p,
             In (k, p) ((key, newHost) :: rest) ->
             In (k, p) (GameRoom.players room) /\ k <> playerId).
  { intros k p H. rewrite <- Hdel in H. now apply JsMapFacts.In_delete in H. }
  assert (Hkey : GamePlayer.id newHost = key)
    by (apply Hid; apply (Hsub key newHost); now left).
  assert (Hnone : filter GamePlayer.isHost (map snd rest) = []).
  { apply filter_none. intros p Hp. apply in_map_iff in Hp.
    destruct Hp as ([k q] & Heq & Hin). simpl in Heq. subst q.
    destruct (GamePlayer.isHost p) eqn:Hp; [|reflexivity].
    destruct (Hsub k p (or_intror Hin)) as [Hin' Hne].
    specialize (Hflag k p Hin' Hp). congruence. }
  unfold leaveGameRoom. rewrite Hroom, Hmem. cbn [negb].
  rewrite Hdel. cbn [GameRoom.hostId GameRoom.with_players].
  rewrite Hhost, String.eqb_refl.
  replace (JsMap.size ((key, newHost) :: rest) >? 0) with true
    by reflexivity.
  cbn [andb JsMap.first].
  cbn [JsMap.set]. rewrite String.eqb_refl.
  cbn [GameRoom.players GameRoom.with_players GameRoom.with_hostId].
  replace (JsMap.size ((key, GamePlayer.with_isHost true newHost) :: rest)
           =? 0) with false by reflexivity.
  cbn [fst snd].
  set (room' := GameRoom.with_players _ _).
  set (message := Message.mk _ _ _ _).
  assert (Hget : JsMap.get roomId (JsMap.set roomId room' (rooms s))
                 = Some room') by apply JsMapFacts.get_set_same.
  exists room', key, newHost, rest, message.
  split; [reflexivity|]. split; [exact Hget|]. split; [reflexivity|].
  split; [exact Hkey|]. split.
  { unfold Observe.hosts. cbn [rooms]. rewrite Hget.
    unfold JsMap.values. subst room'. cbn. now rewrite Hnone. }
  split; [apply JsMapFacts.get_delete_same|]. split; [reflexivity|].
  erewrite GameSyncFacts.broadcastToRoom_members by exact Hget.
  reflexivity.
Qed.

Lemma leaveGameRoom_transfers_host_witness :
  let s := fst (run initial Scenario.gathering) in
  let s' := fst (leaveGameRoom Scenario.allOpen s "room_t" "alice") in
  exists room room',
    JsMap.get "room_t" (rooms s) = Some room /\
    GameRoom.hostId room = "alice" /\
    1 < JsMap.size (GameRoom.players room) /\
    JsMap.get "room_t" (rooms s') = Some room' /\
    GameRoom.hostId room' = "bob" /\
    map GamePlayer.id (Observe.hosts s' "room_t") = ["bob"].
Proof.
  intros s s'.
  destruct (leaveGameRoom_transfers_host Scenario.allOpen Scenario.gathering
              "room_t" "alice" _ eq_refl eq_refl eq_refl)
    as (room' & key & newHost & rest & message & Hdel & Hroom' & _ & Hhost
        & Hhosts & _).
  injection Hdel as <- <- _.
  eexists. exists room'. split; [reflexivity|]. split; [reflexivity|].
  split; [reflexivity|]. split; [exact Hroom'|]. split; [exact Hhost|].
  unfold s', s. rewrite Hhosts. reflexivity.
Defined.

(** X3.  When the only member of a room leaves, the room is removed from the
    store together with its timer and the leaver's index entry, the room can
    no longer be looked up, the other rooms are as before and nothing is
    sent. *)
Theorem leaveGameRoom_last_member rs s roomId playerId room :
  JsMap.get roomId (rooms s) = Some room ->
  JsMap.keys (GameRoom.players room) = [playerId] ->
  let s' := fst (leaveGameRoom rs s roomId playerId) in
  JsMap.get roomId (rooms s') = None /\
  getRoom s' roomId = None /\
  JsMap.get roomId (gameTimers s') = None /\
  JsMap.get playerId (playerRooms s') = None /\
  getPlayerRoom s' playerId = None /\
  (forall other, other <> roomId ->
     JsMap.get other (rooms s') = JsMap.get other (rooms s)) /\
  snd (leaveGameRoom rs s roomId playerId) = [].
Proof.
  intros Hroom Hkeys s'. subst s'.
  destruct (GameRoom.players room) as [|[k p] [|? ?]] eqn:Hplayers;
    try discriminate.
  injection Hkeys as ->.
  unfold leaveGameRoom. rewrite Hroom, Hplayers.
  unfold JsMap.has. cbn [JsMap.get JsMap.delete].
  rewrite String.eqb_refl. cbn [negb].
  cbn [GameRoom.hostId GameRoom.with_players GameRoom.players].
  replace (JsMap.size (@nil (string * GamePlayer.t)) >? 0) with false
    by reflexivity.
  rewrite andb_false_r. cbn [GameRoom.players GameRoom.with_players].
  replace (JsMap.size (@nil (string * GamePlayer.t)) =? 0) with true
    by reflexivity.
  cbn [fst snd].
  rewrite GameSyncFacts.clearGameTimer_rooms. cbn [rooms].
  assert (Hidx : JsMap.get playerId
                   (playerRooms
                      (clearGameTimer roomId
                         (mkManager (JsMap.delete roomId (rooms s))
                            (JsMap.delete playerId (playerRooms s))
                            (gameTimers s)))) = None).
  { rewrite GameSyncFacts.clearGameTimer_playerRooms.
    apply JsMapFacts.get_delete_same. }
  split; [apply JsMapFacts.get_delete_same|]. split.
  { unfold getRoom. rewrite GameSyncFacts.clearGameTimer_rooms. cbn [rooms].
    now rewrite JsMapFacts.get_delete_same. }
  split; [apply GameSyncFacts.clearGameTimer_cleared|].
  split; [exact Hidx|]. split.
  { unfold getPlayerRoom. now rewrite Hidx. }
  split; [intros other Hne; now apply JsMapFacts.get_delete_other|].
  reflexivity.
Qed.

Lemma leaveGameRoom_last_member_witness :
  let s' :=
    fst (leaveGameRoom Scenario.allOpen Scenario.created "room_a" "alice") in
  exists room,
    JsMap.get "room_a" (rooms Scenario.created) = Some room /\
    JsMap.keys (GameRoom.players room) = ["alice"] /\
    getRoom s' "room_a" = None /\
    getPlayerRoom s' "alice" = None.
Proof.
  intros s'.
  destruct (leaveGameRoom_last_member Scenario.allOpen Scenario.created
              "room_a" "alice" _ eq_refl eq_refl)
    as (_ & Hroom & _ & _ & Hplayer & _).
  eexists. split; [reflexivity|]. split; [reflexivity|].
  split; [exact Hroom | exact Hplayer].
Defined.

(** *** Gameplay relays *)

(** The record of a player after the record under [playerId] in room
    [roomId] is replaced. *)
Lemma player_store_at s roomId playerId room p' r k :
  JsMap.get roomId (rooms s) = Some room ->
  Observe.player
    (storeRoom roomId
       (GameRoom.with_players
          (JsMap.set playerId p' (GameRoom.players room)) room) s) r k
  = if (r =? roomId)%string && (k =? playerId)%string then Some p'
    else Observe.player s r k.
Proof.
  intros Hroom. unfold Observe.player, storeRoom. cbn [rooms].
  destruct (String.eqb_spec r roomId) as [->|Hr]; cbn [andb].
  - rewrite JsMapFacts.get_set_same, Hroom.
    cbn [GameRoom.players GameRoom.with_players].
    destruct (String.eqb_spec k playerId) as [->|Hk].
    + apply JsMapFacts.get_set_same.
    + now apply JsMapFacts.get_set_other.
  - now rewrite JsMapFacts.get_set_other.
Qed.

(** X4.  A [player_move] of a member is ignored unless the room is in play.
    In play it replaces the position of that member and nothing else (every
    other record, the index and the timers are as before), and the new
    position is sent to the other members whose socket is open, never to the
    mover. *)
Theorem handlePlayerMove_moves_one rs s roomId playerId position timestamp
    room player :
  JsMap.get roomId (rooms s) = Some room ->
  JsMap.get playerId (GameRoom.players room) = Some player ->
  let s' := fst (handlePlayerMove rs s roomId playerId position timestamp) in
  let out := snd (handlePlayerMove rs s roomId playerId position timestamp) in
  (GameRoom.status room <> playing -> s' = s /\ out = []) /\
  (GameRoom.status room = playing ->
   Observe.player s' roomId playerId
   = Some (GamePlayer.with_position position player) /\
   (forall r k, (r, k) <> (roomId, playerId) ->
      Observe.player s' r k = Observe.player s r k) /\
   playerRooms s' = playerRooms s /\
   gameTimers s' = gameTimers s /\
   out = map (fun kv =>
                Send (GamePlayer.ws (snd kv))
                  (Message.mk "player_move" roomId playerId
                     (moved position timestamp)))
           (filter
              (fun kv => negb (fst kv =? playerId)%string
                         && isOPEN (rs (GamePlayer.ws (snd kv))))
              (GameRoom.players room))).
Proof.
  intros Hroom Hplayer s' out. subst s' out.
  unfold handlePlayerMove. rewrite Hroom, Hplayer.
  destruct (GameRoom.status room) eqn:Hstatus; cbn [Status_eqb negb fst snd];
    (split; [intros H; try congruence; auto | intros H; try discriminate]).
  split.
  { rewrite (player_store_at s roomId playerId room _ _ _ Hroom).
    now rewrite !String.eqb_refl. }
  split.
  { intros r k Hne.
    rewrite (player_store_at s roomId playerId room _ _ _ Hroom).
    destruct (String.eqb_spec r roomId) as [->|]; cbn [andb]; auto.
    destruct (String.eqb_spec k playerId) as [->|]; auto. congruence. }
  split; [reflexivity|]. split; [reflexivity|].
  erewrite GameSyncFacts.broadcastToRoom_members
    by (unfold storeRoom; cbn [rooms]; apply JsMapFacts.get_set_same).
  cbn [GameRoom.players GameRoom.with_players excluded].
  now rewrite JsMapMore.filter_set_excluded.
Qed.

Lemma handlePlayerMove_moves_one_witness :
  let target := Position.mk 10 20 in
  let s' :=
    fst (handlePlayerMove Scenario.allOpen Scenario.playing "room_a" "alice"
           target 7) in
  exists room player,
    JsMap.get "room_a" (rooms Scenario.playing) = Some room /\
    JsMap.get "alice" (GameRoom.players room) = Some player /\
    GameRoom.status room = playing /\
    Observe.player s' "room_a" "alice"
    = Some (GamePlayer.with_position target player) /\
    gameTimers s' = gameTimers Scenario.playing.
Proof.
  intros target s'.
  destruct (handlePlayerMove_moves_one Scenario.allOpen Scenario.playing
              "room_a" "alice" target 7 _ _ eq_refl eq_refl)
    as [_ Hplay].
  destruct (Hplay eq_refl) as (Hmoved & _ & _ & Htimers & _).
  eexists. eexists. split; [reflexivity|]. split; [reflexivity|].
  split; [reflexivity|]. split; [exact Hmoved|].
  exact Htimers.
Defined.

(** The members with an open socket are the same once the record of a
    member is replaced by one on the same socket. *)
Lemma recipients_set rs message k p p' (m : JsMap.t GamePlayer.t) :
  JsMap.get k m = Some p -> GamePlayer.ws p' = GamePlayer.ws p ->
  map (fun kv => Send (GamePlayer.ws (snd kv)) message)
    (filter (fun kv => isOPEN (rs (GamePlayer.ws (snd kv))))
       (JsMap.set k p' m))
  = map (fun kv => Send (GamePlayer.ws (snd kv)) message)
      (filter (fun kv => isOPEN (rs (GamePlayer.ws (snd kv)))) m).
Proof.
  intros Hget Hws. induction m as [|[k0 p0] m IH]; [discriminate|].
  cbn [JsMap.get JsMap.set] in *.
  destruct (String.eqb k0 k).
  - injection Hget as ->. cbn [filter snd]. rewrite Hws.
    destruct (isOPEN (rs (GamePlayer.ws p))); cbn [map snd];
      rewrite ?Hws; reflexivity.
  - cbn [filter snd].
    destruct (isOPEN (rs (GamePlayer.ws p0))); cbn [map]; rewrite (IH Hget);
      reflexivity.
Qed.

(** X5.  A [player_score] of a member, in any status of the room, sets that
    member's score to the double nearest to its sum with the points and
    changes nothing else: every other record, the index and the timers are
    as before.  Run to completion, the handler asks the store to save the
    new score under [parseInt] of the player id, the room's game type and
    the member's level, then sends the new score, the points, the item type
    and the number of members to every member whose socket is open, the
    scorer included. *)
Theorem handlePlayerScore_accumulates rs s roomId playerId points itemType
    room player :
  JsMap.get roomId (rooms s) = Some room ->
  JsMap.get playerId (GameRoom.players room) = Some player ->
  let total := (GamePlayer.score player + points)%float in
  let s' := fst (handlePlayerScore rs s roomId playerId points itemType) in
  let out := snd (handlePlayerScore rs s roomId playerId points itemType) in
  Observe.player s' roomId playerId
  = Some (GamePlayer.mk (GamePlayer.id player) (GamePlayer.username player)
            (GamePlayer.isAdmin player) (GamePlayer.isHost player) total
            (GamePlayer.lives player) (GamePlayer.level player)
            (GamePlayer.position player) (GamePlayer.powerups player)
            (GamePlayer.isReady player) (GamePlayer.ws player)) /\
  (forall r k, (r, k) <> (roomId, playerId) ->
     Observe.player s' r k = Observe.player s r k) /\
  (exists room',
     JsMap.get roomId (rooms s') = Some room' /\
     JsMap.keys (GameRoom.players room') = JsMap.keys (GameRoom.players room)
     /\
     GameRoom.status room' = GameRoom.status room /\
     GameRoom.gameState room' = GameRoom.gameState room /\
     GameRoom.settings room' = GameRoom.settings room /\
     GameRoom.hostId room' = GameRoom.hostId room) /\
  (forall other, other <> roomId ->
     JsMap.get other (rooms s') = JsMap.get other (rooms s)) /\
  playerRooms s' = playerRooms s /\
  gameTimers s' = gameTimers s /\
  out = saveGameScore (parseInt playerId) (GameRoom.gameType room) total
          (GamePlayer.level player)
        :: map (fun kv =>
                  Send (GamePlayer.ws (snd kv))
                    (Message.mk "player_score" roomId playerId
                       (scored total points itemType
                          (Z.of_nat (List.length (GameRoom.players room))))))
             (filter (fun kv => isOPEN (rs (GamePlayer.ws (snd kv))))
                (GameRoom.players room)).
Proof.
  intros Hroom Hplayer total s' out. subst s' out.
  assert (Hhas : JsMap.has playerId (GameRoom.players room) = true)
    by (unfold JsMap.has; now rewrite Hplayer).
  unfold handlePlayerScore. rewrite Hroom, Hplayer. cbn [fst snd].
  fold total.
  set (player' := GamePlayer.with_score total player).
  set (room' :=
         GameRoom.with_players
           (JsMap.set playerId player' (GameRoom.players room)) room).
  assert (Hget : JsMap.get roomId (rooms (storeRoom roomId room' s))
                 = Some room')
    by (unfold storeRoom; cbn [rooms]; apply JsMapFacts.get_set_same).
  split.
  { subst room'.
    rewrite (player_store_at s roomId playerId room _ _ _ Hroom).
    now rewrite !String.eqb_refl. }
  split.
  { intros r k Hne. subst room'.
    rewrite (player_store_at s roomId playerId room _ _ _ Hroom).
    destruct (String.eqb_spec r roomId) as [->|]; cbn [andb]; auto.
    destruct (String.eqb_spec k playerId) as [->|]; auto. congruence. }
  split.
  { exists room'. split; [exact Hget|]. subst room'.
    cbn [GameRoom.players GameRoom.with_players GameRoom.status
         GameRoom.gameState GameRoom.settings GameRoom.hostId].
    rewrite JsMapFacts.keys_set, Hhas. auto. }
  split.
  { intros other Hne. unfold storeRoom. cbn [rooms].
    now apply JsMapFacts.get_set_other. }
  split; [reflexivity|]. split; [reflexivity|].
  f_equal.
  erewrite GameSyncFacts.broadcastToRoom_members by exact Hget.
  cbn [excluded negb andb]. subst room'.
  cbn [GameRoom.players GameRoom.with_players].
  rewrite JsMapMore.size_set, Hhas.
  apply (recipients_set rs _ playerId player player'); [exact Hplayer|].
  reflexivity.
Qed.

Lemma handlePlayerScore_accumulates_witness :
  exists room player,
    JsMap.get "room_a" (rooms Scenario.joined) = Some room /\
    JsMap.get "bob" (GameRoom.players room) = Some player /\
    option_map GamePlayer.score
      (Observe.player
         (fst (handlePlayerScore Scenario.allOpen Scenario.joined "room_a"
                 "bob" 3 None)) "room_a" "bob")
    = Some 3%float /\
    snd (handlePlayerScore Scenario.allOpen Scenario.joined "room_a" "bob" 3
           None)
    = [ saveGameScore PrimFloat.nan "fruit_catching" 3 1;
        Send 1%nat
          (Message.mk "player_score" "room_a" "bob" (scored 3 3 None 2));
        Send 2%nat
          (Message.mk "player_score" "room_a" "bob" (scored 3 3 None 2)) ].
Proof.
  destruct (handlePlayerScore_accumulates Scenario.allOpen Scenario.joined
              "room_a" "bob" 3 None _ _ eq_refl eq_refl)
    as (Hscore & _ & _ & _ & _ & _ & Hout).
  eexists. eexists. split; [reflexivity|]. split; [reflexivity|].
  split; [rewrite Hscore; reflexivity|].
  rewrite Hout. reflexivity.
Defined.

(** X6.  A [game_state_update] merges the updates into the room's state in
    any status of the room: a key of the updates gets the value given there,
    every other key keeps its value; the players, the status and the host are
    untouched and the merged state is sent to every member whose socket is
    open. *)
Theorem broadcastGameState_merges rs s roomId playerId updates room :
  JsMap.get roomId (rooms s) = Some room ->
  JsMap.wf updates ->
  let s' := fst (broadcastGameState rs s roomId playerId updates) in
  let out := snd (broadcastGameState rs s roomId playerId updates) in
  exists room',
    JsMap.get roomId (rooms s') = Some room' /\
    (forall k v, JsMap.get k updates = Some v ->
       JsMap.get k (GameRoom.gameState room') = Some v) /\
    (forall k, JsMap.get k updates = None ->
       JsMap.get k (GameRoom.gameState room')
       = JsMap.get k (GameRoom.gameState room)) /\
    GameRoom.players room' = GameRoom.players room /\
    GameRoom.status room' = GameRoom.status room /\
    GameRoom.hostId room' = GameRoom.hostId room /\
    out = map (fun kv =>
                 Send (GamePlayer.ws (snd kv))
                   (Message.mk "game_state_update" roomId playerId
                      (state (GameRoom.gameState room'))))
            (filter (fun kv => isOPEN (rs (GamePlayer.ws (snd kv))))
               (GameRoom.players room)).
Proof.
  intros Hroom Hwf s' out. subst s' out.
  unfold broadcastGameState. rewrite Hroom. cbn [fst snd].
  set (room' := GameRoom.with_gameState _ room).
  assert (Hget : JsMap.get roomId (rooms (storeRoom roomId room' s))
                 = Some room')
    by (unfold storeRoom; cbn [rooms]; apply JsMapFacts.get_set_same).
  exists room'. split; [exact Hget|].
  split; [intros k v Hk; now apply JsMapMore.spread_override|].
  split; [intros k Hk; now apply JsMapMore.spread_other|].
  split; [reflexivity|]. split; [reflexivity|]. split; [reflexivity|].
  erewrite GameSyncFacts.broadcastToRoom_members by exact Hget.
  reflexivity.
Qed.

Lemma broadcastGameState_merges_witness :
  let updates := [("gameSpeed", JNum 2); ("wave", JNum 1)] in
  let s' :=
    fst (broadcastGameState Scenario.allOpen Scenario.joined "room_a" "bob"
           updates) in
  exists room room',
    JsMap.get "room_a" (rooms Scenario.joined) = Some room /\
    JsMap.wf updates /\
    JsMap.get "room_a" (rooms s') = Some room' /\
    JsMap.get "gameSpeed" (GameRoom.gameState room') = Some (JNum 2) /\
    JsMap.get "fruits" (GameRoom.gameState room')
    = JsMap.get "fruits" (GameRoom.gameState room).
Proof.
  intros updates s'.
  assert (Hwf : JsMap.wf updates).
  { unfold JsMap.wf. simpl. repeat constructor; simpl; intuition discriminate. }
  destruct (broadcastGameState_merges Scenario.allOpen Scenario.joined
              "room_a" "bob" updates _ eq_refl Hwf)
    as (room' & Hroom' & Hset & Hkept & _).
  eexists. exists room'. split; [reflexivity|]. split; [exact Hwf|].
  split; [exact Hroom'|]. split; [apply Hset | apply Hkept]; reflexivity.
Defined.

(** X7.  A [fruit_spawn] is ignored unless the room is in play.  In play,
    with the [fruits] of the state an array, the fruit is appended to that
    array, every other key of the state, the players and the status are kept,
    and the payload is relayed unchanged to every member whose socket is
    open. *)
Theorem handleFruitSpawn_appends rs s roomId playerId data room items :
  JsMap.get roomId (rooms s) = Some room ->
  JsMap.get "fruits" (GameRoom.gameState room) = Some (JArr items) ->
  let s' := fst (handleFruitSpawn rs s roomId playerId data) in
  let out := snd (handleFruitSpawn rs s roomId playerId data) in
  let spawned :=
    match JsMap.get "fruit" data with Some v => v | None => JUndefined end in
  (GameRoom.status room <> playing -> s' = s /\ out = []) /\
  (GameRoom.status room = playing ->
   exists room',
     JsMap.get roomId (rooms s') = Some room' /\
     JsMap.get "fruits" (GameRoom.gameState room')
     = Some (JArr (items ++ [spawned])) /\
     (forall k, k <> "fruits" ->
        JsMap.get k (GameRoom.gameState room')
        = JsMap.get k (GameRoom.gameState room)) /\
     GameRoom.players room' = GameRoom.players room /\
     GameRoom.status room' = playing /\
     out = map (fun kv =>
                  Send (GamePlayer.ws (snd kv))
                    (Message.mk "fruit_spawn" roomId playerId (fruit data)))
             (filter (fun kv => isOPEN (rs (GamePlayer.ws (snd kv))))
                (GameRoom.players room))).
Proof.
  intros Hroom Hfruits s' out spawned. subst s' out.
  unfold handleFruitSpawn. rewrite Hroom, Hfruits.
  destruct (GameRoom.status room) eqn:Hstatus;
    cbn [Status_eqb negb fst snd truthy];
    (split; [intros H; try congruence; auto | intros H; try discriminate]).
  fold spawned.
  set (room' := GameRoom.with_gameState _ room).
  assert (Hget : JsMap.get roomId (rooms (storeRoom roomId room' s))
                 = Some room')
    by (unfold storeRoom; cbn [rooms]; apply JsMapFacts.get_set_same).
  exists room'. split; [exact Hget|].
  split; [apply JsMapFacts.get_set_same|].
  split; [intros k Hk; now apply JsMapFacts.get_set_other|].
  split; [reflexivity|]. split; [cbn; exact Hstatus|].
  erewrite GameSyncFacts.broadcastToRoom_members by exact Hget.
  reflexivity.
Qed.

Lemma handleFruitSpawn_appends_witness :
  let data := [("fruit", JStr "apple")] in
  let s' :=
    fst (handleFruitSpawn Scenario.allOpen Scenario.playing "room_a" "alice"
           data) in
  exists room room',
    JsMap.get "room_a" (rooms Scenario.playing) = Some room /\
    JsMap.get "fruits" (GameRoom.gameState room) = Some (JArr []) /\
    GameRoom.status room = playing /\
    JsMap.get "room_a" (rooms s') = Some room' /\
    JsMap.get "fruits" (GameRoom.gameState room')
    = Some (JArr [JStr "apple"]).
Proof.
  intros data s'.
  destruct (handleFruitSpawn_appends Scenario.allOpen Scenario.playing
              "room_a" "alice" data _ [] eq_refl eq_refl)
    as [_ Hplay].
  destruct (Hplay eq_refl) as (room' & Hroom' & Hfruits & _).
  eexists. exists room'. split; [reflexivity|]. split; [reflexivity|].
  split; [reflexivity|]. split; [exact Hroom' | exact Hfruits].
Defined.

(** *** Disconnects *)

Lemma leaveGameRoom_not_member rs s roomId playerId :
  Observe.member (fst (leaveGameRoom rs s roomId playerId)) roomId playerId
  = false.
Proof.
  unfold leaveGameRoom, Observe.member, Observe.player.
  destruct (JsMap.get roomId (rooms s)) as [room|] eqn:Hroom;
    [|cbn [fst]; now rewrite Hroom].
  unfold JsMap.has.
  destruct (JsMap.get playerId (GameRoom.players room)) as [p|] eqn:Hp;
    cbn [negb]; [|cbn [fst]; now rewrite Hroom, Hp].
  set (remaining := JsMap.delete playerId (GameRoom.players room)).
  match goal with
  | |- context [if JsMap.size (GameRoom.players ?r) =? 0 then _ else _] =>
      set (room2 := r)
  end.
  assert (Hgone : JsMap.get playerId (GameRoom.players room2) = None).
  { subst room2. cbn [GameRoom.hostId GameRoom.with_players].
    destruct (_ && _).
    - destruct (JsMap.first remaining) as [[key newHost]|] eqn:Hfirst.
      + cbn [GameRoom.players GameRoom.with_players GameRoom.with_hostId].
        apply GameSyncFacts.first_In in Hfirst.
        apply JsMapFacts.In_delete in Hfirst. destruct Hfirst as [_ Hne].
        rewrite JsMapFacts.get_set_other by congruence.
        apply JsMapFacts.get_delete_same.
      + apply JsMapFacts.get_delete_same.
    - apply JsMapFacts.get_delete_same. }
  destruct (JsMap.size (GameRoom.players room2) =? 0); cbn [fst].
  - rewrite GameSyncFacts.clearGameTimer_rooms. cbn [rooms].
    now rewrite JsMapFacts.get_delete_same.
  - cbn [rooms]. now rewrite JsMapFacts.get_set_same, Hgone.
Qed.

Lemma leaveGameRoom_other_rooms rs s roomId playerId other :
  other <> roomId ->
  JsMap.get other (rooms (fst (leaveGameRoom rs s roomId playerId)))
  = JsMap.get other (rooms s).
Proof.
  intros Hne. unfold leaveGameRoom.
  destruct (JsMap.get roomId (rooms s)) as [room|]; [|reflexivity].
  destruct (negb _); [reflexivity|].
  destruct (_ =? 0); cbn [fst].
  - rewrite GameSyncFacts.clearGameTimer_rooms. cbn [rooms].
    now apply JsMapFacts.get_delete_other.
  - cbn [rooms]. now apply JsMapFacts.get_set_other.
Qed.

Lemma findSocket_Some ws rs0 r k :
  findSocket ws rs0 = Some (r, k) ->
  exists room p,
    In (r, room) rs0 /\ In (k, p) (GameRoom.players room) /\
    GamePlayer.ws p = ws.
Proof.
  induction rs0 as [|[r0 room0] rs0 IH]; simpl; [discriminate|].
  destruct (find _ (GameRoom.players room0)) as [[k0 p0]|] eqn:Hfind.
  - intros [= <- <-]. apply find_some in Hfind. destruct Hfind as [Hin Hws].
    simpl in Hws. apply Nat.eqb_eq in Hws. exists room0, p0. auto.
  - intros H. destruct (IH H) as (room & p & Hin & Hp & Hws).
    exists room, p. auto.
Qed.

Lemma findSocket_None ws rs0 :
  (forall r room k p,
     In (r, room) rs0 -> In (k, p) (GameRoom.players room) ->
     GamePlayer.ws p <> ws) ->
  findSocket ws rs0 = None.
Proof.
  intros Hnone. destruct (findSocket ws rs0) as [[r k]|] eqn:Hfind;
    [|reflexivity].
  apply findSocket_Some in Hfind. destruct Hfind as (room & p & H1 & H2 & H3).
  exfalso. eapply Hnone; eauto.
Qed.

(** The search stops at the first player on the socket, in the order of the
    rooms and, within a room, of its players. *)
Lemma findSocket_first ws before r room after earlier k p later :
  (forall r0 room0 k0 p0,
     In (r0, room0) before -> In (k0, p0) (GameRoom.players room0) ->
     GamePlayer.ws p0 <> ws) ->
  GameRoom.players room = (earlier ++ (k, p) :: later)%list ->
  (forall k0 p0, In (k0, p0) earlier -> GamePlayer.ws p0 <> ws) ->
  GamePlayer.ws p = ws ->
  findSocket ws (before ++ (r, room) :: after)%list = Some (r, k).
Proof.
  intros Hbefore Hplayers Hearlier Hws.
  induction before as [|[r0 room0] before IH]; cbn [app findSocket].
  - rewrite Hplayers. clear Hplayers Hbefore.
    induction earlier as [|[k0 p0] earlier IH]; cbn [app find snd].
    + rewrite Hws, Nat.eqb_refl. reflexivity.
    + destruct (Nat.eqb_spec (GamePlayer.ws p0) ws) as [Heq|_].
      * exfalso. apply (Hearlier k0 p0); [now left | exact Heq].
      * apply IH. intros k1 p1 H. apply (Hearlier k1 p1). now right.
  - destruct (find _ (GameRoom.players room0)) as [[k0 p0]|] eqn:Hfind.
    + apply find_some in Hfind. destruct Hfind as [Hin Hon].
      cbn [snd] in Hon. apply Nat.eqb_eq in Hon.
      exfalso. apply (Hbefore r0 room0 k0 p0); [now left | exact Hin |
                                               exact Hon].
    + apply IH. intros r1 room1 k1 p1 H. apply (Hbefore r1 room1 k1 p1).
      now right.
Qed.

(** X8.  The close of a socket that no player uses changes nothing and
    sends nothing.  Otherwise exactly one player on that socket leaves, as
    by a [room_leave]: the first one in the iteration order of the rooms
    and, within its room, of the players.  That player is no longer a member
    of that room, and every other room is left exactly as it is, also when
    it holds a player on the same socket. *)
Theorem handlePlayerDisconnect_leaves_one rs s ws :
  let s' := fst (handlePlayerDisconnect rs s ws) in
  ((forall r room k p,
      In (r, room) (rooms s) -> In (k, p) (GameRoom.players room) ->
      GamePlayer.ws p <> ws) ->
   handlePlayerDisconnect rs s ws = (s, [])) /\
  (forall before r room after earlier k p later,
     rooms s = (before ++ (r, room) :: after)%list ->
     (forall r0 room0 k0 p0,
        In (r0, room0) before -> In (k0, p0) (GameRoom.players room0) ->
        GamePlayer.ws p0 <> ws) ->
     GameRoom.players room = (earlier ++ (k, p) :: later)%list ->
     (forall k0 p0, In (k0, p0) earlier -> GamePlayer.ws p0 <> ws) ->
     GamePlayer.ws p = ws ->
     handlePlayerDisconnect rs s ws = leaveGameRoom rs s r k /\
     Observe.member s' r k = false /\
     (forall other, other <> r ->
        JsMap.get other (rooms s') = JsMap.get other (rooms s))).
Proof.
  intros s'. subst s'. unfold handlePlayerDisconnect. split.
  - intros Hnone. now rewrite (findSocket_None ws (rooms s) Hnone).
  - intros before r room after earlier k p later Hrooms Hbefore Hplayers
      Hearlier Hws.
    assert (Hfind : findSocket ws (rooms s) = Some (r, k)).
    { rewrite Hrooms. now apply (findSocket_first ws before r room after
                                   earlier k p later). }
    rewrite Hfind.
    split; [reflexivity|].
    split; [apply leaveGameRoom_not_member|].
    intros other Hne. now apply leaveGameRoom_other_rooms.
Qed.

Lemma handlePlayerDisconnect_leaves_one_witness :
  let s' :=
    fst (handlePlayerDisconnect Scenario.allOpen Scenario.both_rooms 1%nat) in
  map (fun kv =>
         (fst kv,
          map (fun p => (fst p, GamePlayer.ws (snd p)))
            (GameRoom.players (snd kv))))
    (rooms Scenario.both_rooms)
  = [ ("room_a", [("alice", 1%nat)]);
      ("room_b", [("bob", 2%nat); ("alice", 1%nat)]) ] /\
  handlePlayerDisconnect Scenario.allOpen Scenario.both_rooms 1%nat
  = leaveGameRoom Scenario.allOpen Scenario.both_rooms "room_a" "alice" /\
  Observe.member s' "room_a" "alice" = false /\
  JsMap.get "room_b" (rooms s')
  = JsMap.get "room_b" (rooms Scenario.both_rooms).
Proof.
  intros s'.
  destruct (handlePlayerDisconnect_leaves_one Scenario.allOpen
              Scenario.both_rooms 1%nat) as [_ Hfound].
  destruct (Hfound [] "room_a" _ _ [] "alice" _ _ eq_refl
              (fun _ _ _ _ H => match H with end) eq_refl
              (fun _ _ H => match H with end) eq_refl)
    as (Hleave & Hgone & Hothers).
  split; [reflexivity|]. split; [exact Hleave|]. split; [exact Hgone|].
  apply Hothers. discriminate.
Defined.

(** *** Capacity and the store *)

Local Abbreviation sound s :=
  (Observe.gameCapacity s /\ Observe.gameStoreShape s).

Lemma sound_set s roomId room' index timers :
  sound s -> Observe.withinCapacity room' -> GameRoom.id room' = roomId ->
  sound (mkManager (JsMap.set roomId room' (rooms s)) index timers).
Proof.
  intros [Hcap [Hwf Hid]] Hroom Hkey.
  unfold Observe.gameCapacity, Observe.gameStoreShape. cbn [rooms].
  split; [now apply JsMapFacts.Forall_values_set|].
  split; [now apply JsMapFacts.wf_set|].
  intros k room H. apply JsMapFacts.In_set in H.
  destruct H as [[= -> ->]|H]; auto.
Qed.

Lemma sound_delete s roomId index timers :
  sound s ->
  sound (mkManager (JsMap.delete roomId (rooms s)) index timers).
Proof.
  intros [Hcap [Hwf Hid]].
  unfold Observe.gameCapacity, Observe.gameStoreShape. cbn [rooms].
  split; [now apply JsMapFacts.Forall_values_delete|].
  split; [now apply JsMapFacts.wf_delete|].
  intros k room H. apply JsMapFacts.In_delete in H. destruct H. auto.
Qed.

Lemma sound_rooms s s' : rooms s' = rooms s -> sound s -> sound s'.
Proof.
  unfold Observe.gameCapacity, Observe.gameStoreShape. now intros ->.
Qed.

Lemma sound_get s roomId room :
  sound s -> JsMap.get roomId (rooms s) = Some room ->
  Observe.withinCapacity room /\ GameRoom.id room = roomId.
Proof.
  intros [Hcap [Hwf Hid]] Hroom. split.
  - now apply (JsMapFacts.Forall_values_get _ roomId room (rooms s)).
  - apply Hid. now apply JsMapFacts.get_In.
Qed.

Lemma size_set_present {V} k v v' (m : JsMap.t V) :
  JsMap.get k m = Some v -> JsMap.size (JsMap.set k v' m) = JsMap.size m.
Proof.
  intros H. rewrite JsMapMore.size_set. unfold JsMap.has. now rewrite H.
Qed.

Lemma size_set_le {V} k v (m : JsMap.t V) :
  JsMap.size (JsMap.set k v m) <= JsMap.size m + 1.
Proof. rewrite JsMapMore.size_set. destruct (JsMap.has k m); lia. Qed.

Ltac sound_lookup s roomIdent Hs :=
  let room := fresh "room" in
  let Hroom := fresh "Hroom" in
  let Hcap := fresh "Hcap" in
  let Hkey := fresh "Hkey" in
  destruct (JsMap.get roomIdent (rooms s)) as [room|] eqn:Hroom;
  [destruct (sound_get s roomIdent room Hs Hroom) as [Hcap Hkey]
  | exact Hs].

(** A count below a capacity: every smaller count is below it too. *)
Lemma leb_count capacity m n :
  Number.leb capacity (Number.of_Z n) = false -> m <= n ->
  Number.leb capacity (Number.of_Z m) = false.
Proof.
  unfold Number.leb, Number.of_Z.
  destruct capacity as [q| |]; auto.
  intros Hn Hle. destruct (Qle_bool q (inject_Z m)) eqn:Hm; [|reflexivity].
  apply Qle_bool_iff in Hm.
  assert (Hq : (q <= inject_Z n)%Q).
  { eapply Qle_trans; [exact Hm|]. now rewrite <- Zle_Qle. }
  apply Qle_bool_iff in Hq. congruence.
Qed.

Lemma withinCapacity_fewer room room' :
  GameRoom.settings room' = GameRoom.settings room ->
  JsMap.size (GameRoom.players room') <= JsMap.size (GameRoom.players room) ->
  Observe.withinCapacity room -> Observe.withinCapacity room'.
Proof.
  unfold Observe.withinCapacity. intros -> Hle [Hone|Hcount].
  - left. lia.
  - right. apply (leb_count _ _ _ Hcount). lia.
Qed.

Lemma createGameRoom_sound rs s ws rnd gameType settings playerInfo :
  sound s ->
  sound (fst (createGameRoom rs s ws rnd gameType settings playerInfo)).
Proof.
  intros Hs. unfold createGameRoom. cbn [fst].
  apply sound_set; [exact Hs| |reflexivity].
  unfold Observe.withinCapacity. left. cbn. lia.
Qed.

Lemma joinGameRoom_sound rs s ws roomId playerInfo password rnd_x rnd_y :
  sound s ->
  sound (fst (joinGameRoom rs s ws roomId playerInfo password rnd_x rnd_y)).
Proof.
  intros Hs. unfold joinGameRoom.
  destruct roomId as [roomId|]; [|exact Hs].
  sound_lookup s roomId Hs.
  destruct (Status_eqb _ _); [exact Hs|].
  destruct (Number.leb _ _) eqn:Hcount; [exact Hs|].
  destruct (_ && _); [exact Hs|]. cbn [fst].
  apply sound_set; [exact Hs| |exact Hkey].
  unfold Observe.withinCapacity.
  cbn [GameRoom.players GameRoom.with_players GameRoom.settings].
  right. apply (leb_count _ _ _ Hcount).
  match goal with |- JsMap.size (JsMap.set ?k ?v ?m) - 1 <= _ =>
    pose proof (size_set_le k v m) end.
  lia.
Qed.

Lemma leaveGameRoom_sound rs s roomId playerId :
  sound s -> sound (fst (leaveGameRoom rs s roomId playerId)).
Proof.
  intros Hs. unfold leaveGameRoom. sound_lookup s roomId Hs.
  destruct (negb _); [exact Hs|].
  set (remaining := JsMap.delete playerId (GameRoom.players room)).
  match goal with
  | |- context [if JsMap.size (GameRoom.players ?r) =? 0 then _ else _] =>
      set (room2 := r)
  end.
  destruct (JsMap.size (GameRoom.players room2) =? 0); cbn [fst].
  - eapply sound_rooms; [apply GameSyncFacts.clearGameTimer_rooms|].
    now apply sound_delete.
  - assert (Hle : JsMap.size remaining <= JsMap.size (GameRoom.players room))
      by apply JsMapMore.size_delete_le.
    apply sound_set; [exact Hs| |].
    + apply (withinCapacity_fewer room); [| |exact Hcap]; subst room2;
        cbn [GameRoom.hostId GameRoom.with_players];
        (destruct (_ && _);
         [destruct (JsMap.first remaining) as [[key newHost]|] eqn:Hfirst|]);
        cbn [GameRoom.players GameRoom.with_players GameRoom.with_hostId
             GameRoom.settings]; try reflexivity; try exact Hle.
      apply GameSyncFacts.first_In in Hfirst.
      assert (Hhas : JsMap.has key remaining = true).
      { apply JsMapMore.has_In_keys. change key with (fst (key, newHost)).
        now apply in_map. }
      rewrite JsMapMore.size_set, Hhas. exact Hle.
    + subst room2. cbn [GameRoom.hostId GameRoom.with_players].
      destruct (_ && _);
        [destruct (JsMap.first remaining) as [[key newHost]|]|];
        exact Hkey.
Qed.

Lemma startGame_sound rs s roomId hostId :
  sound s -> sound (fst (startGame rs s roomId hostId)).
Proof.
  intros Hs. unfold startGame. sound_lookup s roomId Hs.
  destruct (negb _); [exact Hs|]. destruct (negb _); [exact Hs|].
  cbn [fst]. eapply sound_rooms; [apply GameSyncFacts.startGameTimer_rooms|].
  now apply sound_set.
Qed.

Lemma handlePlayerMove_sound rs s roomId playerId position timestamp :
  sound s ->
  sound (fst (handlePlayerMove rs s roomId playerId position timestamp)).
Proof.
  intros Hs. unfold handlePlayerMove. sound_lookup s roomId Hs.
  destruct (negb _); [exact Hs|].
  destruct (JsMap.get playerId (GameRoom.players room)) as [p|] eqn:Hp;
    [|exact Hs].
  cbn [fst]. apply sound_set; [exact Hs| |exact Hkey].
  unfold Observe.withinCapacity in *.
  cbn [GameRoom.players GameRoom.with_players GameRoom.settings].
  now rewrite (size_set_present _ p).
Qed.

Lemma handlePlayerScore_sound rs s roomId playerId points itemType :
  sound s ->
  sound (fst (handlePlayerScore rs s roomId playerId points itemType)).
Proof.
  intros Hs. unfold handlePlayerScore. sound_lookup s roomId Hs.
  destruct (JsMap.get playerId (GameRoom.players room)) as [p|] eqn:Hp;
    [|exact Hs].
  cbn [fst]. apply sound_set; [exact Hs| |exact Hkey].
  unfold Observe.withinCapacity in *.
  cbn [GameRoom.players GameRoom.with_players GameRoom.settings].
  now rewrite (size_set_present _ p).
Qed.

Lemma handleFruitSpawn_sound rs s roomId playerId data :
  sound s -> sound (fst (handleFruitSpawn rs s roomId playerId data)).
Proof.
  intros Hs. unfold handleFruitSpawn. sound_lookup s roomId Hs.
  destruct (negb _); [exact Hs|].
  match goal with |- context [match ?v with JArr _ => _ | _ => _ end] =>
    destruct v; try exact Hs
  end.
  cbn [fst]. now apply sound_set.
Qed.

Lemma handleBombExplosion_sound rs s roomId playerId data :
  sound s -> sound (fst (handleBombExplosion rs s roomId playerId data)).
Proof.
  intros Hs. unfold handleBombExplosion. sound_lookup s roomId Hs.
  cbn [fst]. apply sound_set; [exact Hs| |exact Hkey].
  unfold Observe.withinCapacity in *.
  cbn [GameRoom.players GameRoom.with_players GameRoom.settings].
  now rewrite JsMapMore.size_map_values.
Qed.

Lemma broadcastGameState_sound rs s roomId playerId updates :
  sound s -> sound (fst (broadcastGameState rs s roomId playerId updates)).
Proof.
  intros Hs. unfold broadcastGameState. sound_lookup s roomId Hs.
  cbn [fst]. now apply sound_set.
Qed.

Lemma endGame_sound rs s roomId reason :
  sound s -> sound (fst (endGame rs s roomId reason)).
Proof.
  intros Hs. unfold endGame. sound_lookup s roomId Hs.
  cbn [fst]. eapply sound_rooms; [apply GameSyncFacts.clearGameTimer_rooms|].
  now apply sound_set.
Qed.

Lemma step_sound rs s e : sound s -> sound (fst (step rs s e)).
Proof.
  intros Hs. destruct e as [ws message|ws|roomId]; unfold step.
  - destruct message; unfold handleGameMessage.
    + now apply createGameRoom_sound.
    + now apply joinGameRoom_sound.
    + now apply leaveGameRoom_sound.
    + now apply startGame_sound.
    + now apply handlePlayerMove_sound.
    + now apply handlePlayerScore_sound.
    + now apply broadcastGameState_sound.
    + now apply handleFruitSpawn_sound.
    + now apply handleBombExplosion_sound.
    + exact Hs.
  - unfold handlePlayerDisconnect.
    destruct (findSocket ws (rooms s)) as [[roomId playerId]|]; [|exact Hs].
    now apply leaveGameRoom_sound.
  - destruct (JsMap.get roomId (gameTimers s)); [|exact Hs].
    now apply endGame_sound.
Qed.

Lemma run_sound trace : forall s, sound s -> sound (fst (run s trace)).
Proof.
  induction trace as [|[rs e] trace IH]; simpl; intros s Hs; [exact Hs|].
  pose proof (step_sound rs s e Hs) as H1.
  destruct (step rs s e) as [s1 out1]. cbn [fst] in H1.
  specialize (IH s1 H1). destruct (run s1 trace) as [s2 out2]. exact IH.
Qed.

Lemma initial_sound : sound initial.
Proof.
  unfold Observe.gameCapacity, Observe.gameStoreShape. simpl.
  repeat split; try constructor. intros k room [].
Qed.

(** X9.  In every state the game manager reaches from its initial state by
    messages, socket closes and timer expiries, a room with more than one
    player holds fewer than [maxPlayers + 1] players: the join of its last
    player found a count below the capacity.  When [maxPlayers] is a whole
    number the room holds at most that many players (one player, the
    creator, when it is below 1); a capacity of 2.5 admits a third
    player. *)
Theorem reachable_rooms_within_capacity trace roomId room :
  JsMap.get roomId (rooms (fst (run initial trace))) = Some room ->
  let count := Z.of_nat (List.length (GameRoom.players room)) in
  (count <= 1 \/
   match Settings.maxPlayers (GameRoom.settings room) with
   | Number.finite q => (inject_Z (count - 1) < q)%Q
   | Number.infinity => True
   | Number.minus_infinity => False
   end) /\
  (forall n,
     Settings.maxPlayers (GameRoom.settings room) = Number.finite (inject_Z n)
     -> count <= Z.max 1 n).
Proof.
  intros Hroom count.
  destruct (sound_get _ roomId room (run_sound trace initial initial_sound)
              Hroom) as [Hcap _].
  unfold Observe.withinCapacity in Hcap.
  change (JsMap.size (GameRoom.players room)) with count in Hcap.
  assert (Hexplicit :
            count <= 1 \/
            match Settings.maxPlayers (GameRoom.settings room) with
            | Number.finite q => (inject_Z (count - 1) < q)%Q
            | Number.infinity => True
            | Number.minus_infinity => False
            end).
  { destruct Hcap as [Hone|Hcount]; [now left | right].
    unfold Number.leb, Number.of_Z in Hcount.
    destruct (Settings.maxPlayers (GameRoom.settings room)) as [q| |];
      [|exact I|discriminate].
    apply Qnot_le_lt. intros Hle. apply Qle_bool_iff in Hle. congruence. }
  split; [exact Hexplicit|].
  intros n Hn. rewrite Hn in Hexplicit.
  destruct Hexplicit as [Hone|Hlt]; [lia|].
  rewrite <- Zlt_Qlt in Hlt. lia.
Qed.

Lemma reachable_rooms_within_capacity_witness :
  exists room,
    JsMap.get "room_t" (rooms (fst (run initial Scenario.gathering)))
    = Some room /\
    Settings.maxPlayers (GameRoom.settings room) = Number.finite (inject_Z 4)
    /\
    Z.of_nat (List.length (GameRoom.players room)) <= Z.max 1 4.
Proof.
  eexists. split; [reflexivity|]. split; [reflexivity|].
  exact (proj2 (reachable_rooms_within_capacity Scenario.gathering "room_t" _
                  eq_refl) 4 eq_refl).
Defined.

(** X10.  In every state the game manager reaches, the room list and the
    lookup by id agree: [getRooms] lists every room once (no id occurs
    twice), an entry of the list is what [getRoom] returns for the entry's
    id, and what [getRoom] returns for an id is in the list and carries that
    id. *)
Theorem reachable_queries_agree trace :
  let s := fst (run initial trace) in
  NoDup (map SerializedRoom.id (getRooms s)) /\
  (forall entry, In entry (getRooms s) ->
     getRoom s (SerializedRoom.id entry) = Some entry) /\
  (forall roomId entry, getRoom s roomId = Some entry ->
     In entry (getRooms s) /\ SerializedRoom.id entry = roomId).
Proof.
  intros s.
  destruct (run_sound trace initial initial_sound) as [_ [Hwf Hid]].
  fold s in Hwf, Hid.
  assert (Hids : map SerializedRoom.id (getRooms s) = JsMap.keys (rooms s)).
  { unfold getRooms, JsMap.values, JsMap.keys. rewrite !map_map.
    apply map_ext_in. intros [k room] Hin. cbn. now apply Hid. }
  split; [rewrite Hids; exact Hwf|]. split.
  - intros entry Hin. unfold getRooms, JsMap.values in Hin.
    rewrite map_map in Hin. apply in_map_iff in Hin.
    destruct Hin as ([k room] & <- & Hin). cbn.
    rewrite (Hid k room Hin). unfold getRoom.
    now rewrite (JsMapFacts.In_get k room (rooms s) Hwf Hin).
  - intros roomId entry. unfold getRoom.
    destruct (JsMap.get roomId (rooms s)) as [room|] eqn:Hroom;
      [|discriminate].
    intros [= <-]. apply JsMapFacts.get_In in Hroom. split.
    + unfold getRooms, JsMap.values. rewrite map_map.
      apply in_map_iff. exists (roomId, room). auto.
    + cbn. now apply Hid.
Qed.

(** *** Timers *)

(** A room is changed in place, its status kept, and the timers are as they
    were. *)
Lemma timers_update s s' roomId room room' :
  JsMap.get roomId (rooms s) = Some room ->
  rooms s' = JsMap.set roomId room' (rooms s) ->
  gameTimers s' = gameTimers s ->
  GameRoom.status room' = GameRoom.status room ->
  Observe.timersShape s -> Observe.timersShape s'.
Proof.
  intros Hroom Hrooms Htimers Hstatus [Harmed Hplaying].
  unfold Observe.timersShape. rewrite Hrooms, Htimers. split.
  - intros r timer Ht. destruct (Harmed r timer Ht) as [-> Hex].
    split; [reflexivity|].
    destruct (String.eqb_spec r roomId) as [->|Hne].
    + rewrite JsMapFacts.get_set_same. discriminate.
    + now rewrite JsMapFacts.get_set_other.
  - intros r room0. destruct (String.eqb_spec r roomId) as [->|Hne].
    + rewrite JsMapFacts.get_set_same. intros [= <-] Hp.
      apply (Hplaying roomId room Hroom). congruence.
    + rewrite JsMapFacts.get_set_other by auto. apply Hplaying.
Qed.

(** A room is removed and its timer cleared. *)
Lemma timers_remove s roomId index :
  Observe.timersShape s ->
  Observe.timersShape
    (clearGameTimer roomId
       (mkManager (JsMap.delete roomId (rooms s)) index (gameTimers s))).
Proof.
  intros [Harmed Hplaying]. unfold Observe.timersShape.
  rewrite GameSyncFacts.clearGameTimer_rooms. cbn [rooms]. split.
  - intros r timer. destruct (String.eqb_spec r roomId) as [->|Hne].
    + now rewrite GameSyncFacts.clearGameTimer_cleared.
    + rewrite GameSyncFacts.clearGameTimer_others by auto.
      cbn [gameTimers]. intros Ht.
      rewrite JsMapFacts.get_delete_other by auto. auto.
  - intros r room. destruct (String.eqb_spec r roomId) as [->|Hne].
    + now rewrite JsMapFacts.get_delete_same.
    + rewrite JsMapFacts.get_delete_other by auto.
      rewrite GameSyncFacts.clearGameTimer_others by auto.
      cbn [gameTimers]. apply Hplaying.
Qed.

Ltac timers_lookup s roomIdent Hs :=
  let room := fresh "room" in
  let Hroom := fresh "Hroom" in
  destruct (JsMap.get roomIdent (rooms s)) as [room|] eqn:Hroom;
  [|exact Hs].

Lemma createGameRoom_timers rs s ws rnd gameType settings playerInfo :
  Observe.timersShape s ->
  Observe.timersShape
    (fst (createGameRoom rs s ws rnd gameType settings playerInfo)).
Proof.
  intros [Harmed Hplaying]. unfold createGameRoom, Observe.timersShape.
  cbn [fst rooms gameTimers]. split.
  - intros r timer Ht. destruct (Harmed r timer Ht) as [-> Hex].
    split; [reflexivity|].
    destruct (String.eqb_spec r (generateRoomId rnd)) as [->|Hne].
    + rewrite JsMapFacts.get_set_same. discriminate.
    + now rewrite JsMapFacts.get_set_other.
  - intros r room.
    destruct (String.eqb_spec r (generateRoomId rnd)) as [->|Hne].
    + rewrite JsMapFacts.get_set_same. intros [= <-]. discriminate.
    + rewrite JsMapFacts.get_set_other by auto. apply Hplaying.
Qed.

Lemma joinGameRoom_timers rs s ws roomId playerInfo password rnd_x rnd_y :
  Observe.timersShape s ->
  Observe.timersShape
    (fst (joinGameRoom rs s ws roomId playerInfo password rnd_x rnd_y)).
Proof.
  intros Hs. unfold joinGameRoom.
  destruct roomId as [roomId|]; [|exact Hs].
  timers_lookup s roomId Hs.
  destruct (Status_eqb _ _); [exact Hs|].
  destruct (Number.leb _ _); [exact Hs|].
  destruct (_ && _); [exact Hs|]. cbn [fst].
  refine (timers_update s _ roomId room _ Hroom _ _ _ Hs); reflexivity.
Qed.

Lemma leaveGameRoom_timers rs s roomId playerId :
  Observe.timersShape s ->
  Observe.timersShape (fst (leaveGameRoom rs s roomId playerId)).
Proof.
  intros Hs. unfold leaveGameRoom. timers_lookup s roomId Hs.
  destruct (negb _); [exact Hs|].
  match goal with
  | |- context [if JsMap.size (GameRoom.players ?r) =? 0 then _ else _] =>
      set (room2 := r)
  end.
  destruct (JsMap.size (GameRoom.players room2) =? 0); cbn [fst].
  - now apply timers_remove.
  - refine (timers_update s _ roomId room room2 Hroom _ _ _ Hs);
      try reflexivity.
    subst room2. cbn [GameRoom.hostId GameRoom.with_players].
    destruct (_ && _); [destruct (JsMap.first _) as [[key newHost]|]|];
      reflexivity.
Qed.

Lemma startGame_timers rs s roomId hostId :
  Observe.timersShape s ->
  Observe.timersShape (fst (startGame rs s roomId hostId)).
Proof.
  intros Hs. unfold startGame. timers_lookup s roomId Hs.
  destruct (negb _); [exact Hs|]. destruct (negb _); [exact Hs|].
  cbn [fst]. destruct Hs as [Harmed Hplaying].
  unfold startGameTimer, storeRoom. cbn [rooms].
  rewrite JsMapFacts.get_set_same.
  unfold Observe.timersShape.
  rewrite GameSyncFacts.clearGameTimer_rooms. cbn [rooms gameTimers]. split.
  - intros r timer. destruct (String.eqb_spec r roomId) as [->|Hne].
    + rewrite !JsMapFacts.get_set_same. intros [= <-].
      split; [reflexivity | discriminate].
    + rewrite !JsMapFacts.get_set_other by auto.
      rewrite GameSyncFacts.clearGameTimer_others by auto.
      cbn [gameTimers]. apply Harmed.
  - intros r room0. destruct (String.eqb_spec r roomId) as [->|Hne].
    + rewrite !JsMapFacts.get_set_same. discriminate.
    + rewrite !JsMapFacts.get_set_other by auto.
      rewrite GameSyncFacts.clearGameTimer_others by auto.
      cbn [gameTimers]. apply Hplaying.
Qed.

Lemma endGame_timers rs s roomId reason :
  Observe.timersShape s ->
  Observe.timersShape (fst (endGame rs s roomId reason)).
Proof.
  intros Hs. unfold endGame. timers_lookup s roomId Hs.
  cbn [fst]. destruct Hs as [Harmed Hplaying].
  unfold Observe.timersShape, storeRoom.
  rewrite GameSyncFacts.clearGameTimer_rooms. cbn [rooms]. split.
  - intros r timer. destruct (String.eqb_spec r roomId) as [->|Hne].
    + now rewrite GameSyncFacts.clearGameTimer_cleared.
    + rewrite GameSyncFacts.clearGameTimer_others by auto.
      cbn [gameTimers]. rewrite JsMapFacts.get_set_other by auto.
      apply Harmed.
  - intros r room0. destruct (String.eqb_spec r roomId) as [->|Hne].
    + rewrite JsMapFacts.get_set_same. intros [= <-]. discriminate.
    + rewrite JsMapFacts.get_set_other by auto.
      rewrite GameSyncFacts.clearGameTimer_others by auto.
      cbn [gameTimers]. apply Hplaying.
Qed.

Lemma step_timers rs s e :
  Observe.timersShape s -> Observe.timersShape (fst (step rs s e)).
Proof.
  intros Hs. destruct e as [ws message|ws|roomId]; unfold step.
  - destruct message; unfold handleGameMessage.
    + now apply createGameRoom_timers.
    + now apply joinGameRoom_timers.
    + now apply leaveGameRoom_timers.
    + now apply startGame_timers.
    + unfold handlePlayerMove. timers_lookup s roomId Hs.
      destruct (negb _); [exact Hs|].
      destruct (JsMap.get playerId _); [|exact Hs]. cbn [fst].
      refine (timers_update s _ roomId room _ Hroom _ _ _ Hs); reflexivity.
    + unfold handlePlayerScore. timers_lookup s roomId Hs.
      destruct (JsMap.get playerId _); [|exact Hs]. cbn [fst].
      refine (timers_update s _ roomId room _ Hroom _ _ _ Hs); reflexivity.
    + unfold broadcastGameState. timers_lookup s roomId Hs. cbn [fst].
      refine (timers_update s _ roomId room _ Hroom _ _ _ Hs); reflexivity.
    + unfold handleFruitSpawn. timers_lookup s roomId Hs.
      destruct (negb _); [exact Hs|].
      match goal with |- context [match ?v with JArr _ => _ | _ => _ end] =>
        destruct v; try exact Hs
      end.
      cbn [fst]. refine (timers_update s _ roomId room _ Hroom _ _ _ Hs); reflexivity.
    + unfold handleBombExplosion. timers_lookup s roomId Hs. cbn [fst].
      refine (timers_update s _ roomId room _ Hroom _ _ _ Hs); reflexivity.
    + exact Hs.
  - unfold handlePlayerDisconnect.
    destruct (findSocket ws (rooms s)) as [[roomId playerId]|]; [|exact Hs].
    now apply leaveGameRoom_timers.
  - destruct (JsMap.get roomId (gameTimers s)); [|exact Hs].
    now apply endGame_timers.
Qed.

Lemma run_timers trace :
  forall s, Observe.timersShape s -> Observe.timersShape (fst (run s trace)).
Proof.
  induction trace as [|[rs e] trace IH]; simpl; intros s Hs; [exact Hs|].
  pose proof (step_timers rs s e Hs) as H1.
  destruct (step rs s e) as [s1 out1]. cbn [fst] in H1.
  specialize (IH s1 H1). destruct (run s1 trace) as [s2 out2]. exact IH.
Qed.

Lemma initial_timers : Observe.timersShape initial.
Proof. split; simpl; intros; discriminate. Qed.

(** X11.  In every state the game manager reaches, a room in play has its
    timeout armed, and an armed timeout is the five-minute one of a room
    that is still in the store.  When it expires, that room's game is ended:
    the room gets status [finished] and the timer is gone, so a second
    expiry does nothing. *)
Theorem reachable_timeout_ends_game rs trace :
  let s := fst (run initial trace) in
  (forall roomId room,
     JsMap.get roomId (rooms s) = Some room ->
     GameRoom.status room = playing ->
     JsMap.get roomId (gameTimers s)
     = Some (Timeout.mk 300000 roomId "timeout")) /\
  (forall roomId timer,
     JsMap.get roomId (gameTimers s) = Some timer ->
     let s' := fst (step rs s (on_timeout roomId)) in
     exists room,
       JsMap.get roomId (rooms s) = Some room /\
       JsMap.get roomId (rooms s')
       = Some (GameRoom.with_status finished room) /\
       JsMap.get roomId (gameTimers s') = None /\
       step rs s' (on_timeout roomId) = (s', [])).
Proof.
  intros s.
  destruct (run_timers trace initial initial_timers) as [Harmed Hplaying].
  fold s in Harmed, Hplaying. split.
  - intros roomId room Hroom Hstatus.
    specialize (Hplaying roomId room Hroom Hstatus).
    destruct (JsMap.get roomId (gameTimers s)) as [timer|] eqn:Ht;
      [|congruence].
    destruct (Harmed roomId timer Ht) as [-> _]. reflexivity.
  - intros roomId timer Ht. destruct (Harmed roomId timer Ht) as [-> Hex].
    destruct (JsMap.get roomId (rooms s)) as [room|] eqn:Hroom;
      [|congruence].
    assert (Hstep : step rs s (on_timeout roomId)
                    = endGame rs s roomId "timeout")
      by (unfold step; now rewrite Ht).
    cbv zeta. rewrite Hstep. unfold endGame. rewrite Hroom. cbn [fst].
    set (s' := clearGameTimer roomId _).
    assert (Hcleared : JsMap.get roomId (gameTimers s') = None)
      by apply GameSyncFacts.clearGameTimer_cleared.
    exists room. split; [reflexivity|]. split.
    { subst s'. rewrite GameSyncFacts.clearGameTimer_rooms.
      unfold storeRoom. cbn [rooms]. apply JsMapFacts.get_set_same. }
    split; [exact Hcleared|].
    unfold step. now rewrite Hcleared.
Qed.

Lemma reachable_timeout_ends_game_witness :
  let s := fst (run initial Scenario.kickoff) in
  let s' := fst (step Scenario.allOpen s (on_timeout "room_a")) in
  exists room,
    JsMap.get "room_a" (rooms s) = Some room /\
    GameRoom.status room = playing /\
    JsMap.get "room_a" (gameTimers s)
    = Some (Timeout.mk 300000 "room_a" "timeout") /\
    JsMap.get "room_a" (rooms s')
    = Some (GameRoom.with_status finished room) /\
    JsMap.get "room_a" (gameTimers s') = None.
Proof.
  intros s s'.
  destruct (reachable_timeout_ends_game Scenario.allOpen Scenario.kickoff)
    as [Harmed Hexpiry].
  pose proof (Harmed "room_a" _ eq_refl eq_refl) as Htimer.
  destruct (Hexpiry "room_a" _ Htimer) as (room & Hroom & Hended & Hgone & _).
  exists room. split; [exact Hroom|].
  split; [injection Hroom as <-; reflexivity|].
  split; [exact Htimer|]. split; [exact Hended | exact Hgone].
Defined.

(** *** Readiness *)

Section Flags.
Context {V : Type} (f : V -> bool).

Lemma flags_set_present k v v' (m : JsMap.t V) :
  JsMap.get k m = Some v -> f v' = f v ->
  map f (JsMap.values (JsMap.set k v' m)) = map f (JsMap.values m).
Proof.
  intros Hget Hf. induction m as [|[k0 v0] m IH]; [discriminate|].
  cbn [JsMap.get] in Hget. cbn [JsMap.set].
  destruct (k0 =? k)%string.
  - injection Hget as ->. cbn. now rewrite Hf.
  - cbn. f_equal. exact (IH Hget).
Qed.

Lemma flags_map (g : V -> V) (m : JsMap.t V) :
  (forall v, f (g v) = f v) ->
  map f (JsMap.values (map (fun kv => (fst kv, g (snd kv))) m))
  = map f (JsMap.values m).
Proof.
  intros Hg. unfold JsMap.values. rewrite !map_map.
  apply map_ext. intros [k v]. cbn. apply Hg.
Qed.

Lemma count_flags (l : list V) :
  List.length (filter f l)
  = List.length (filter (fun b : bool => b) (map f l)).
Proof.
  induction l as [|v l IH]; [reflexivity|]. cbn.
  destruct (f v); cbn; now rewrite IH.
Qed.

Lemma forallb_flags (l : list V) :
  forallb f l = forallb (fun b : bool => b) (map f l).
Proof.
  induction l as [|v l IH]; [reflexivity|]. cbn. now rewrite IH.
Qed.

Lemma count_set_false k v (m : JsMap.t V) :
  f v = false ->
  (List.length (filter f (JsMap.values (JsMap.set k v m)))
   <= List.length (filter f (JsMap.values m)))%nat.
Proof.
  intros Hf. induction m as [|[k0 v0] m IH]; cbn [JsMap.set].
  - cbn. rewrite Hf. cbn. lia.
  - destruct (k0 =? k)%string; cbn.
    + rewrite Hf. destruct (f v0); cbn; lia.
    + destruct (f v0); cbn; unfold JsMap.values in IH; lia.
Qed.

Lemma count_delete k (m : JsMap.t V) :
  (List.length (filter f (JsMap.values (JsMap.delete k m)))
   <= List.length (filter f (JsMap.values m)))%nat.
Proof.
  induction m as [|[k0 v0] m IH]; cbn [JsMap.delete]; [cbn; lia|].
  unfold JsMap.values in *.
  destruct (k0 =? k)%string; cbn; destruct (f v0); cbn; lia.
Qed.

Lemma forallb_delete k (m : JsMap.t V) :
  forallb f (JsMap.values m) = true ->
  forallb f (JsMap.values (JsMap.delete k m)) = true.
Proof.
  induction m as [|[k0 v0] m IH]; cbn [JsMap.delete]; [auto|].
  unfold JsMap.values in *. cbn. intros H.
  apply andb_true_iff in H. destruct H as [H0 H].
  destruct (k0 =? k)%string; cbn; [auto|]. rewrite H0. cbn. auto.
Qed.

Lemma forallb_filter (l : list V) : forallb f l = true -> filter f l = l.
Proof.
  induction l as [|v l IH]; [reflexivity|]. cbn. intros H.
  apply andb_true_iff in H. destruct H as [-> H]. now rewrite IH.
Qed.

End Flags.

(** The players are replaced by players with the same readiness flags. *)
Lemma readyShape_flags room room' :
  map GamePlayer.isReady (JsMap.values (GameRoom.players room'))
  = map GamePlayer.isReady (JsMap.values (GameRoom.players room)) ->
  (GameRoom.status room' = playing -> GameRoom.status room = playing) ->
  Observe.readyShape room -> Observe.readyShape room'.
Proof.
  intros Hflags Hstatus [Hcount Hall]. split.
  - now rewrite count_flags, Hflags, <- count_flags.
  - intros H. rewrite forallb_flags, Hflags, <- forallb_flags. auto.
Qed.

(** A player leaves, or a player that is not ready arrives. *)
Lemma readyShape_fewer room room' :
  (List.length
     (filter GamePlayer.isReady (JsMap.values (GameRoom.players room')))
   <= List.length
        (filter GamePlayer.isReady (JsMap.values (GameRoom.players room))))%nat
  ->
  (GameRoom.status room' = playing ->
   forallb GamePlayer.isReady (JsMap.values (GameRoom.players room')) = true)
  ->
  Observe.readyShape room -> Observe.readyShape room'.
Proof. intros Hle Hall [Hcount _]. split; [lia | exact Hall]. Qed.

Local Abbreviation ready s :=
  (Forall Observe.readyShape (JsMap.values (rooms s))).

Lemma ready_set s roomId room' index timers :
  ready s -> Observe.readyShape room' ->
  ready (mkManager (JsMap.set roomId room' (rooms s)) index timers).
Proof. intros Hs Hroom. cbn [rooms]. now apply JsMapFacts.Forall_values_set. Qed.

Lemma ready_rooms s s' : rooms s' = rooms s -> ready s -> ready s'.
Proof. now intros ->. Qed.

Ltac ready_lookup s roomIdent Hs :=
  let room := fresh "room" in
  let Hroom := fresh "Hroom" in
  let Hready := fresh "Hready" in
  destruct (JsMap.get roomIdent (rooms s)) as [room|] eqn:Hroom;
  [pose proof (JsMapFacts.Forall_values_get _ roomIdent room (rooms s) Hs
                 Hroom) as Hready
  | exact Hs].

Lemma leaveGameRoom_ready rs s roomId playerId :
  ready s -> ready (fst (leaveGameRoom rs s roomId playerId)).
Proof.
  intros Hs. unfold leaveGameRoom. ready_lookup s roomId Hs.
  destruct (negb _); [exact Hs|].
  set (remaining := JsMap.delete playerId (GameRoom.players room)).
  match goal with
  | |- context [if JsMap.size (GameRoom.players ?r) =? 0 then _ else _] =>
      set (room2 := r)
  end.
  destruct (JsMap.size (GameRoom.players room2) =? 0); cbn [fst].
  - eapply ready_rooms; [apply GameSyncFacts.clearGameTimer_rooms|].
    cbn [rooms]. now apply JsMapFacts.Forall_values_delete.
  - apply ready_set; [exact Hs|].
    assert (H1 : Observe.readyShape (GameRoom.with_players remaining room)).
    { apply (readyShape_fewer room); [| |exact Hready].
      - apply count_delete.
      - intros Hplaying. apply forallb_delete.
        exact (proj2 Hready Hplaying). }
    subst room2. cbn [GameRoom.hostId GameRoom.with_players].
    destruct (_ && _); [|exact H1].
    destruct (JsMap.first remaining) as [[key newHost]|] eqn:Hfirst;
      [|exact H1].
    refine (readyShape_flags _ _ _ _ H1); [|auto].
    cbn [GameRoom.players GameRoom.with_players GameRoom.with_hostId].
    apply (flags_set_present _ key newHost); [|reflexivity].
    destruct remaining as [|[k0 v0] rest]; [discriminate|].
    injection Hfirst as -> ->. cbn. now rewrite String.eqb_refl.
Qed.

Lemma step_ready rs s e : ready s -> ready (fst (step rs s e)).
Proof.
  intros Hs. destruct e as [ws message|ws|roomId]; unfold step.
  - destruct message; unfold handleGameMessage.
    + unfold createGameRoom. cbn [fst]. apply ready_set; [exact Hs|].
      split; [cbn; lia | discriminate].
    + unfold joinGameRoom.
      destruct roomId as [roomId|]; [|exact Hs].
      ready_lookup s roomId Hs.
      destruct (Status_eqb (GameRoom.status room) playing) eqn:Hstatus;
        [exact Hs|].
      destruct (Number.leb _ _); [exact Hs|].
      destruct (_ && _); [exact Hs|]. cbn [fst].
      apply ready_set; [exact Hs|].
      apply (readyShape_fewer room); [| |exact Hready].
      * cbn [GameRoom.players GameRoom.with_players].
        now apply count_set_false.
      * cbn [GameRoom.status GameRoom.with_players]. intros Hplaying.
        rewrite Hplaying in Hstatus. discriminate.
    + now apply leaveGameRoom_ready.
    + unfold startGame. ready_lookup s roomId Hs.
      destruct (negb _); [exact Hs|].
      destruct (forallb GamePlayer.isReady
                  (JsMap.values (GameRoom.players room))) eqn:Hall;
        cbn [negb]; [|exact Hs].
      cbn [fst].
      eapply ready_rooms; [apply GameSyncFacts.startGameTimer_rooms|].
      apply ready_set; [exact Hs|].
      split; [exact (proj1 Hready) | intros _; exact Hall].
    + unfold handlePlayerMove. ready_lookup s roomId Hs.
      destruct (negb _); [exact Hs|].
      destruct (JsMap.get playerId (GameRoom.players room)) as [p|] eqn:Hp;
        [|exact Hs].
      cbn [fst]. apply ready_set; [exact Hs|].
      refine (readyShape_flags _ _ _ _ Hready); [|auto].
      now apply (flags_set_present _ playerId p).
    + unfold handlePlayerScore. ready_lookup s roomId Hs.
      destruct (JsMap.get playerId (GameRoom.players room)) as [p|] eqn:Hp;
        [|exact Hs].
      cbn [fst]. apply ready_set; [exact Hs|].
      refine (readyShape_flags _ _ _ _ Hready); [|auto].
      now apply (flags_set_present _ playerId p).
    + unfold broadcastGameState. ready_lookup s roomId Hs.
      cbn [fst]. now apply ready_set.
    + unfold handleFruitSpawn. ready_lookup s roomId Hs.
      destruct (negb _); [exact Hs|].
      match goal with |- context [match ?v with JArr _ => _ | _ => _ end] =>
        destruct v; try exact Hs
      end.
      cbn [fst]. now apply ready_set.
    + unfold handleBombExplosion. ready_lookup s roomId Hs.
      cbn [fst]. apply ready_set; [exact Hs|].
      refine (readyShape_flags _ _ _ _ Hready); [|auto].
      cbn [GameRoom.players GameRoom.with_players].
      apply flags_map. intros p. unfold applyBlast.
      now destruct (inBlast data p).
    + exact Hs.
  - unfold handlePlayerDisconnect.
    destruct (findSocket ws (rooms s)) as [[roomId playerId]|]; [|exact Hs].
    now apply leaveGameRoom_ready.
  - destruct (JsMap.get roomId (gameTimers s)) as [timer|]; [|exact Hs].
    unfold endGame. ready_lookup s (Timeout.roomId timer) Hs. cbn [fst].
    eapply ready_rooms; [apply GameSyncFacts.clearGameTimer_rooms|].
    apply ready_set; [exact Hs|].
    split; [exact (proj1 Hready) | discriminate].
Qed.

Lemma run_ready trace : forall s, ready s -> ready (fst (run s trace)).
Proof.
  induction trace as [|[rs e] trace IH]; simpl; intros s Hs; [exact Hs|].
  pose proof (step_ready rs s e Hs) as H1.
  destruct (step rs s e) as [s1 out1]. cbn [fst] in H1.
  specialize (IH s1 H1). destruct (run s1 trace) as [s2 out2]. exact IH.
Qed.

(** X12.  In every state the game manager reaches, a room in play has
    exactly one member: its host, who is ready.  Only a room's creator is
    ever ready and [game_start] needs every member ready, so a game starts
    only in a room that holds nobody but its creator, and nobody can join a
    room in play.  A [player_move] therefore never reaches anybody. *)
Theorem reachable_play_is_solo rs trace :
  let s := fst (run initial trace) in
  (forall roomId room,
     JsMap.get roomId (rooms s) = Some room ->
     GameRoom.status room = playing ->
     exists host,
       GameRoom.players room = [(GameRoom.hostId room, host)] /\
       GamePlayer.id host = GameRoom.hostId room /\
       GamePlayer.isReady host = true) /\
  (forall roomId playerId position timestamp,
     snd (handlePlayerMove rs s roomId playerId position timestamp) = []).
Proof.
  intros s.
  assert (Hsolo : forall roomId room,
             JsMap.get roomId (rooms s) = Some room ->
             GameRoom.status room = playing ->
             exists host,
               GameRoom.players room = [(GameRoom.hostId room, host)] /\
               GamePlayer.id host = GameRoom.hostId room /\
               GamePlayer.isReady host = true).
  { intros roomId room Hroom Hplaying.
    assert (Hs : Observe.gameShape s).
    { apply GameSyncFacts.run_shape. unfold Observe.gameShape. simpl.
      constructor. }
    assert (Hr : ready s).
    { apply run_ready. simpl. constructor. }
    destruct (GameSyncFacts.gameShape_get s roomId room Hs Hroom)
      as (Hwf & Hid & _ & Hmem).
    destruct (JsMapFacts.Forall_values_get _ roomId room (rooms s) Hr Hroom)
      as [Hcount Hall].
    specialize (Hall Hplaying).
    rewrite (forallb_filter _ _ Hall) in Hcount.
    unfold JsMap.values in Hcount, Hall. rewrite length_map in Hcount.
    unfold JsMap.has in Hmem.
    destruct (GameRoom.players room) as [|[k p] [|kv rest]] eqn:Hplayers.
    - discriminate.
    - cbn in Hmem, Hall.
      destruct (String.eqb_spec k (GameRoom.hostId room)) as [->|];
        [|discriminate].
      exists p. split; [reflexivity|].
      split; [apply Hid; now left|].
      now rewrite andb_true_r in Hall.
    - cbn [List.length] in Hcount. lia. }
  split; [exact Hsolo|].
  intros roomId playerId position timestamp. unfold handlePlayerMove.
  destruct (JsMap.get roomId (rooms s)) as [room|] eqn:Hroom; [|reflexivity].
  destruct (Status_eqb (GameRoom.status room) playing) eqn:Hstatus;
    cbn [negb]; [|reflexivity].
  assert (Hplaying : GameRoom.status room = playing)
    by (destruct (GameRoom.status room); (discriminate || reflexivity)).
  destruct (Hsolo roomId room Hroom Hplaying) as (host & Hplayers & _).
  destruct (JsMap.get playerId (GameRoom.players room)) as [p|] eqn:Hp;
    [|reflexivity].
  rewrite Hplayers in Hp. cbn in Hp.
  destruct (String.eqb_spec (GameRoom.hostId room) playerId) as [Hhost|];
    [|discriminate].
  cbn [snd]. unfold broadcastToRoom, storeRoom. cbn [rooms].
  rewrite JsMapFacts.get_set_same.
  cbn [GameRoom.players GameRoom.with_players]. rewrite Hplayers.
  subst playerId. cbn [JsMap.set]. rewrite String.eqb_refl.
  cbn [flat_map fst snd app]. unfold excluded.
  cbn [fst]. rewrite String.eqb_refl. reflexivity.
Qed.

Lemma reachable_play_is_solo_witness :
  let s := fst (run initial Scenario.kickoff) in
  exists room host,
    JsMap.get "room_a" (rooms s) = Some room /\
    GameRoom.status room = playing /\
    GameRoom.players room = [("alice", host)] /\
    GamePlayer.isReady host = true.
Proof.
  intros s.
  destruct (reachable_play_is_solo Scenario.allOpen Scenario.kickoff)
    as [Hsolo _].
  destruct (Hsolo "room_a" _ eq_refl eq_refl) as (host & Hplayers & _ & Hready).
  eexists. exists host. split; [reflexivity|]. split; [reflexivity|].
  split; [exact Hplayers | exact Hready].
Defined.

End GameSyncMore.

(** ** The voice manager: the rest of the room life cycle *)

Module VoiceChatMore.
Import VoiceChat.
Import Observe.

(** *** Leaving *)

Lemma removeUserFromRoom_found rs s userId roomId room user :
  JsMap.get roomId (rooms s) = Some room ->
  JsMap.get userId (VoiceRoom.users room) = Some user ->
  let room' :=
    VoiceRoom.with_users (JsMap.delete userId (VoiceRoom.users room)) room in
  let s1 :=
    mkManager (JsMap.set roomId room' (rooms s))
      (JsMap.delete userId (userRooms s)) in
  removeUserFromRoom rs s userId roomId
  = (if VoiceRoom.isTemporary room
        && (JsMap.size (JsMap.delete userId (VoiceRoom.users room)) =? 0)
     then mkManager (JsMap.delete roomId (rooms s1)) (userRooms s1)
     else s1,
     broadcastToVoiceRoom rs s1 roomId
       (Message.mk "voice_user_status" roomId userId
          (user_left
             ("غادر " ++ VoiceUser.username user ++ " المحادثة الصوتية")))
       None).
Proof.
  intros Hroom Huser. unfold removeUserFromRoom. rewrite Hroom, Huser.
  cbn [VoiceRoom.isTemporary VoiceRoom.with_users VoiceRoom.users].
  now destruct (_ && _).
Qed.

(** X13.  When a member leaves a voice room, it is no longer a member, its
    index entry is removed and no room is reported for it; the members that
    remain and whose socket is open are told; a temporary room that becomes
    empty is deleted, any other room stays with the remaining members; no
    other room is touched. *)
Theorem handleRoomLeave_removes rs s roomId userId room user :
  JsMap.get roomId (rooms s) = Some room ->
  JsMap.get userId (VoiceRoom.users room) = Some user ->
  let s' := fst (handleRoomLeave rs s roomId userId) in
  let out := snd (handleRoomLeave rs s roomId userId) in
  let remaining := JsMap.delete userId (VoiceRoom.users room) in
  voiceUser s' roomId userId = None /\
  JsMap.get userId (userRooms s') = None /\
  getUserVoiceRoom s' userId = None /\
  (VoiceRoom.isTemporary room = true -> remaining = [] ->
   JsMap.get roomId (rooms s') = None) /\
  (VoiceRoom.isTemporary room = false \/ remaining <> [] ->
   JsMap.get roomId (rooms s')
   = Some (VoiceRoom.with_users remaining room)) /\
  (forall other, other <> roomId ->
     JsMap.get other (rooms s') = JsMap.get other (rooms s)) /\
  exists message,
    Message.type message = "voice_user_status" /\
    Message.userId message = userId /\
    out = map (fun kv => Send (VoiceUser.ws (snd kv)) message)
            (filter (fun kv => isOPEN (rs (VoiceUser.ws (snd kv))))
               remaining).
Proof.
  intros Hroom Huser s' out remaining. subst s' out.
  unfold handleRoomLeave.
  rewrite (removeUserFromRoom_found rs s userId roomId room user Hroom Huser).
  cbv zeta. cbn [fst snd]. fold remaining.
  set (room' := VoiceRoom.with_users remaining room).
  set (s1 := mkManager (JsMap.set roomId room' (rooms s)) _).
  assert (Hget1 : JsMap.get roomId (rooms s1) = Some room')
    by apply JsMapFacts.get_set_same.
  assert (Hempty : (JsMap.size remaining =? 0) = true <-> remaining = []).
  { split.
    - intros H. apply Z.eqb_eq in H. now apply JsMapFacts.size_zero.
    - now intros ->. }
  assert (Hidx : forall rooms0,
             JsMap.get userId (userRooms (mkManager rooms0 (userRooms s1)))
             = None) by (intros; apply JsMapFacts.get_delete_same).
  split.
  { unfold voiceUser. destruct (_ && _); cbn [rooms].
    - now rewrite JsMapFacts.get_delete_same.
    - rewrite Hget1. apply JsMapFacts.get_delete_same. }
  split; [destruct (_ && _); apply Hidx|].
  split.
  { unfold getUserVoiceRoom. destruct (_ && _); unfold s1;
      cbn [userRooms]; now rewrite JsMapFacts.get_delete_same. }
  split.
  { intros Htemp Hrem. rewrite Htemp. apply Hempty in Hrem. rewrite Hrem.
    cbn [andb rooms]. apply JsMapFacts.get_delete_same. }
  split.
  { intros Hkeep.
    assert (Hcond : VoiceRoom.isTemporary room
                    && (JsMap.size remaining =? 0) = false).
    { destruct Hkeep as [->|Hne]; [reflexivity|].
      destruct (JsMap.size remaining =? 0) eqn:E;
        [|apply andb_false_r].
      exfalso. apply Hne. now apply Hempty. }
    rewrite Hcond. exact Hget1. }
  split.
  { intros other Hne. destruct (_ && _); cbn [rooms].
    - rewrite JsMapFacts.get_delete_other by auto.
      now apply JsMapFacts.get_set_other.
    - now apply JsMapFacts.get_set_other. }
  eexists. split; [|split]; [| |].
  3: { erewrite VoiceChatFacts.broadcastToVoiceRoom_members by exact Hget1.
       reflexivity. }
  all: reflexivity.
Qed.

Lemma handleRoomLeave_removes_witness :
  let s' :=
    fst (handleRoomLeave Scenario.allOpen Scenario.talking "general" "ann") in
  exists room user,
    JsMap.get "general" (rooms Scenario.talking) = Some room /\
    JsMap.get "ann" (VoiceRoom.users room) = Some user /\
    voiceUser s' "general" "ann" = None /\
    getUserVoiceRoom s' "ann" = None /\
    JsMap.get "general" (rooms s')
    = Some (VoiceRoom.with_users (JsMap.delete "ann" (VoiceRoom.users room))
              room).
Proof.
  intros s'.
  destruct (handleRoomLeave_removes Scenario.allOpen Scenario.talking
              "general" "ann" _ _ eq_refl eq_refl)
    as (Hgone & _ & Hreport & _ & Hstays & _).
  eexists. eexists. split; [reflexivity|]. split; [reflexivity|].
  split; [exact Hgone|]. split; [exact Hreport|].
  apply Hstays. left. reflexivity.
Defined.

(** *** Creating *)

(** X14.  [voice_room_create], run to completion, stores under the
    generated id an empty temporary room owned by the requester, with the
    name, the description, the privacy and the password of the request: a
    missing or empty name becomes the requester's room, a missing
    [isPrivate] false, and a missing or 0 [maxUsers] 10, so the capacity is
    never 0.  The requester is not made a member: the join issued names no
    room and is refused.  The index and the other rooms are untouched, and
    the requester's socket, when open, gets the refusal followed by the
    confirmation of the creation. *)
Theorem handleRoomCreate_leaves_creator_out rs now s ws rnd roomData
    userInfo :
  let roomId := ("voice_" ++ rnd)%string in
  let capacity :=
    match RoomData.maxUsers roomData with
    | Some (Number.finite q) =>
        if Qeq_bool q 0 then Number.finite 10 else Number.finite q
    | Some n => n
    | None => Number.finite 10
    end in
  let name :=
    match RoomData.name roomData with
    | Some (String c rest) => String c rest
    | _ => ("غرفة " ++ UserInfo.username userInfo)%string
    end in
  let room :=
    VoiceRoom.mk roomId name (RoomData.description roomData) []
      (Settings.mk capacity
         (match RoomData.isPrivate roomData with
          | Some b => b
          | None => false
          end)
         (RoomData.password roomData) false true true 64000 44100)
      (UserInfo.id userInfo) true in
  let s' := fst (handleRoomCreate rs now s ws rnd roomData userInfo) in
  let out := snd (handleRoomCreate rs now s ws rnd roomData userInfo) in
  JsMap.get roomId (rooms s') = Some room /\
  (forall q, capacity = Number.finite q -> ~ (q == 0)%Q) /\
  (forall u, voiceUser s' roomId u = None) /\
  userRooms s' = userRooms s /\
  (forall other, other <> roomId ->
     JsMap.get other (rooms s') = JsMap.get other (rooms s)) /\
  out = if isOPEN (rs ws)
        then [Send ws
                (Message.mk "voice_room_join" "" ""
                   (error "الغرفة الصوتية غير موجودة"));
              Send ws
                (Message.mk "voice_room_create" roomId
                   (UserInfo.id userInfo)
                   (room_created (serializeVoiceRoom room)
                      "تم إنشاء الغرفة الصوتية بنجاح"))]
        else [].
Proof.
  intros roomId capacity name room s' out. subst s' out.
  unfold handleRoomCreate, createRoom, handleRoomJoin. cbv zeta.
  cbn [fst snd]. change (generateRoomId rnd) with roomId.
  assert (Hcapacity :
            js_or Number.truthy (RoomData.maxUsers roomData) (Number.of_Z 10)
            = capacity).
  { unfold js_or, capacity, Number.truthy.
    destruct (RoomData.maxUsers roomData) as [[q| |]|]; try reflexivity.
    destruct (Qeq_bool q 0); reflexivity. }
  assert (Hname :
            js_or truthy_str (RoomData.name roomData)
              ("غرفة " ++ UserInfo.username userInfo) = name).
  { unfold js_or, name.
    destruct (RoomData.name roomData) as [[|c rest]|]; reflexivity. }
  assert (Hprivate :
            js_or truthy_bool (RoomData.isPrivate roomData) false
            = match RoomData.isPrivate roomData with
              | Some b => b
              | None => false
              end).
  { destruct (RoomData.isPrivate roomData) as [[|]|]; reflexivity. }
  rewrite Hcapacity, Hname, Hprivate.
  change (newRoom
            (RoomConfig.mk roomId name (RoomData.description roomData)
               (UserInfo.id userInfo)
               match RoomData.isPrivate roomData with
               | Some b => b
               | None => false
               end (RoomData.password roomData) capacity true))
    with room.
  split; [apply JsMapFacts.get_set_same|].
  split.
  { intros q Hq Hzero. unfold capacity in Hq.
    destruct (RoomData.maxUsers roomData) as [[q'| |]|]; try discriminate.
    - destruct (Qeq_bool q' 0) eqn:Hq'; injection Hq as <-.
      + discriminate Hzero.
      + apply Qeq_bool_neq in Hq'. contradiction.
    - injection Hq as <-. discriminate Hzero. }
  split.
  { intros u. unfold voiceUser. cbn [rooms].
    now rewrite JsMapFacts.get_set_same. }
  split; [reflexivity|].
  split; [intros other Hne; now apply JsMapFacts.get_set_other|].
  unfold sendError, sendToUser. destruct (isOPEN (rs ws)); reflexivity.
Qed.

(** *** Joining *)

(** The join of a room that passes the admission checks, after the
    eviction of the previous membership has led to [s1] with effects
    [out1]. *)
Lemma handleRoomJoin_admitted rs now s ws roomId userInfo password room :
  JsMap.get roomId (rooms s) = Some room ->
  Number.leb (Settings.maxUsers (VoiceRoom.settings room))
    (Number.of_Z (JsMap.size (VoiceRoom.users room))) = false ->
  Settings.isPrivate (VoiceRoom.settings room)
  && strict_neq (Settings.password (VoiceRoom.settings room)) password
  = false ->
  handleRoomJoin rs now s ws (Some roomId) userInfo password
  = let userId := UserInfo.id userInfo in
    let (s1, out1) :=
      match JsMap.get userId (userRooms s) with
      | Some previousRoomId =>
          if truthy_str previousRoomId
          then removeUserFromRoom rs s userId previousRoomId
          else (s, [])
      | None => (s, [])
      end in
    let voiceUser :=
      VoiceUser.mk userId (UserInfo.username userInfo)
        (js_or truthy_bool (UserInfo.isAdmin userInfo) false)
        false false false 100 medium ws now true true in
    let stored := JsMap.get roomId (rooms s1) in
    let current :=
      match stored with
      | Some r => r
      | None =>
          VoiceRoom.with_users
            (JsMap.delete userId (VoiceRoom.users room)) room
      end in
    let room' :=
      VoiceRoom.with_users
        (JsMap.set userId voiceUser (VoiceRoom.users current)) current in
    let s' :=
      mkManager
        (match stored with
         | Some _ => JsMap.set roomId room' (rooms s1)
         | None => rooms s1
         end)
        (JsMap.set userId roomId (userRooms s1)) in
    (s', (out1
          ++ sendToUser rs ws
               (Message.mk "voice_room_join" roomId userId
                  (welcome (serializeVoiceRoom room')
                     (VoiceRoom.settings room')
                     ("مرحباً بك في " ++ VoiceRoom.name room')))
          ++ broadcastToVoiceRoom rs s' roomId
               (Message.mk "voice_user_status" roomId userId
                  (user_joined (serializeVoiceUser voiceUser)
                     ("انضم " ++ UserInfo.username userInfo
                      ++ " للمحادثة الصوتية")))
               (Some userId))%list).
Proof.
  intros Hroom Hsize Hpw. unfold handleRoomJoin.
  rewrite Hroom, Hsize, Hpw. reflexivity.
Qed.

(** X15.  An admitted [voice_room_join] of a user the index does not know
    adds the user to the room with a fresh record (not muted, not speaking,
    not deafened, volume 100, on the requesting socket), keeps the other
    members, records the room in the index and touches no other room; the
    requester's socket gets the room snapshot, and the other members whose
    socket is open, never the joiner, are told of the arrival. *)
Theorem handleRoomJoin_admits rs now s ws roomId userInfo password room :
  JsMap.get roomId (rooms s) = Some room ->
  Number.leb (Settings.maxUsers (VoiceRoom.settings room))
    (Number.of_Z (JsMap.size (VoiceRoom.users room))) = false ->
  Settings.isPrivate (VoiceRoom.settings room)
  && strict_neq (Settings.password (VoiceRoom.settings room)) password
  = false ->
  JsMap.get (UserInfo.id userInfo) (userRooms s) = None ->
  let userId := UserInfo.id userInfo in
  let s' :=
    fst (handleRoomJoin rs now s ws (Some roomId) userInfo password) in
  let out :=
    snd (handleRoomJoin rs now s ws (Some roomId) userInfo password) in
  exists room' me snapshot notice,
    JsMap.get roomId (rooms s') = Some room' /\
    VoiceRoom.users room' = JsMap.set userId me (VoiceRoom.users room) /\
    VoiceUser.id me = userId /\
    VoiceUser.ws me = ws /\
    VoiceUser.isMuted me = false /\
    VoiceUser.isSpeaking me = false /\
    VoiceUser.isDeafened me = false /\
    VoiceUser.volume me = 100 /\
    VoiceUser.lastActivity me = now /\
    JsMap.get userId (userRooms s') = Some roomId /\
    (forall other, other <> roomId ->
       JsMap.get other (rooms s') = JsMap.get other (rooms s)) /\
    Message.type snapshot = "voice_room_join" /\
    Message.type notice = "voice_user_status" /\
    Message.userId notice = userId /\
    out = ((if isOPEN (rs ws) then [Send ws snapshot] else [])
           ++ map (fun kv => Send (VoiceUser.ws (snd kv)) notice)
                (filter
                   (fun kv => negb (fst kv =? userId)%string
                              && isOPEN (rs (VoiceUser.ws (snd kv))))
                   (VoiceRoom.users room)))%list.
Proof.
  intros Hroom Hsize Hpw Hidx userId s' out. subst s' out userId.
  set (userId := UserInfo.id userInfo) in *.
  rewrite (handleRoomJoin_admitted rs now s ws roomId userInfo password room
             Hroom Hsize Hpw).
  cbv zeta. fold userId. rewrite Hidx, Hroom. cbn [fst snd app].
  set (me := VoiceUser.mk _ _ _ _ _ _ _ _ _ _ _ _).
  set (room' := VoiceRoom.with_users _ room).
  set (snapshot := Message.mk "voice_room_join" _ _ _).
  set (notice := Message.mk "voice_user_status" _ _ _).
  exists room', me, snapshot, notice.
  assert (Hget : forall idx,
             JsMap.get roomId
               (rooms (mkManager (JsMap.set roomId room' (rooms s)) idx))
             = Some room') by (intros; apply JsMapFacts.get_set_same).
  split; [apply Hget|]. split; [reflexivity|].
  split; [reflexivity|]. split; [reflexivity|]. split; [reflexivity|].
  split; [reflexivity|]. split; [reflexivity|]. split; [reflexivity|].
  split; [reflexivity|].
  split; [apply JsMapFacts.get_set_same|].
  split; [intros other Hne; now apply JsMapFacts.get_set_other|].
  split; [reflexivity|]. split; [reflexivity|]. split; [reflexivity|].
  f_equal.
  erewrite VoiceChatFacts.broadcastToVoiceRoom_members by apply Hget.
  subst room'. cbn [VoiceRoom.users VoiceRoom.with_users excluded].
  now rewrite JsMapMore.filter_set_excluded.
Qed.

Lemma handleRoomJoin_admits_witness :
  let s' :=
    fst (handleRoomJoin Scenario.allOpen 1000 initial 1%nat (Some "general")
           Scenario.ann None) in
  exists room room' me,
    JsMap.get "general" (rooms initial) = Some room /\
    Number.leb (Settings.maxUsers (VoiceRoom.settings room))
      (Number.of_Z (JsMap.size (VoiceRoom.users room))) = false /\
    Settings.isPrivate (VoiceRoom.settings room) = false /\
    JsMap.get "ann" (userRooms initial) = None /\
    JsMap.get "general" (rooms s') = Some room' /\
    VoiceRoom.users room' = JsMap.set "ann" me (VoiceRoom.users room) /\
    VoiceUser.isMuted me = false /\
    JsMap.get "ann" (userRooms s') = Some "general".
Proof.
  intros s'.
  destruct (handleRoomJoin_admits Scenario.allOpen 1000 initial 1%nat
              "general" Scenario.ann None _ eq_refl eq_refl eq_refl eq_refl)
    as (room' & me & snapshot & notice & Hroom' & Husers & _ & _ & Hmuted & _
        & _ & _ & _ & Hindex & _).
  eexists. exists room', me. split; [reflexivity|]. split; [reflexivity|].
  split; [reflexivity|]. split; [reflexivity|]. split; [exact Hroom'|].
  split; [exact Husers|]. split; [exact Hmuted | exact Hindex].
Defined.

(** X16.  An admitted [voice_room_join] of a user who is a member of
    another room moves the user: the user is taken out of the previous room,
    whose remaining members are told first, and is put in the new room with
    a fresh record; the index names the new room. *)
Theorem handleRoomJoin_moves rs now s ws roomId userInfo password room
    previous old record :
  JsMap.get roomId (rooms s) = Some room ->
  Number.leb (Settings.maxUsers (VoiceRoom.settings room))
    (Number.of_Z (JsMap.size (VoiceRoom.users room))) = false ->
  Settings.isPrivate (VoiceRoom.settings room)
  && strict_neq (Settings.password (VoiceRoom.settings room)) password
  = false ->
  JsMap.get (UserInfo.id userInfo) (userRooms s) = Some previous ->
  previous <> "" -> previous <> roomId ->
  JsMap.get previous (rooms s) = Some old ->
  JsMap.get (UserInfo.id userInfo) (VoiceRoom.users old) = Some record ->
  let userId := UserInfo.id userInfo in
  let s' :=
    fst (handleRoomJoin rs now s ws (Some roomId) userInfo password) in
  let out :=
    snd (handleRoomJoin rs now s ws (Some roomId) userInfo password) in
  voiceUser s' previous userId = None /\
  (exists me,
     voiceUser s' roomId userId = Some me /\
     VoiceUser.ws me = ws /\ VoiceUser.isMuted me = false /\
     VoiceUser.isSpeaking me = false) /\
  JsMap.get userId (userRooms s') = Some roomId /\
  exists departure rest,
    Message.type departure = "voice_user_status" /\
    Message.roomId departure = previous /\
    out = (map (fun kv => Send (VoiceUser.ws (snd kv)) departure)
             (filter (fun kv => isOPEN (rs (VoiceUser.ws (snd kv))))
                (JsMap.delete userId (VoiceRoom.users old)))
           ++ rest)%list.
Proof.
  intros Hroom Hsize Hpw Hidx Htruthy Hne Hold Hrecord userId s' out.
  subst s' out userId. set (userId := UserInfo.id userInfo) in *.
  rewrite (handleRoomJoin_admitted rs now s ws roomId userInfo password room
             Hroom Hsize Hpw).
  cbv zeta. fold userId. rewrite Hidx.
  replace (truthy_str previous) with true
    by (unfold truthy_str; destruct (String.eqb_spec previous "");
        [contradiction | reflexivity]).
  rewrite (removeUserFromRoom_found rs s userId previous old record Hold
             Hrecord).
  cbv zeta.
  set (old' := VoiceRoom.with_users _ old).
  set (s0 := mkManager (JsMap.set previous old' (rooms s)) _).
  set (s1 := if _ && _ then _ else s0).
  assert (Hget0 : JsMap.get previous (rooms s0) = Some old')
    by apply JsMapFacts.get_set_same.
  assert (Hroom1 : JsMap.get roomId (rooms s1) = Some room).
  { unfold s1, s0. destruct (VoiceRoom.isTemporary old && _); cbn [rooms].
    - rewrite JsMapFacts.get_delete_other by auto.
      rewrite JsMapFacts.get_set_other by auto. exact Hroom.
    - rewrite JsMapFacts.get_set_other by auto. exact Hroom. }
  assert (Hprev1 : match JsMap.get previous (rooms s1) with
                   | Some r => JsMap.get userId (VoiceRoom.users r)
                   | None => None
                   end = None).
  { unfold s1, s0. destruct (VoiceRoom.isTemporary old && _); cbn [rooms].
    - now rewrite JsMapFacts.get_delete_same.
    - rewrite JsMapFacts.get_set_same. apply JsMapFacts.get_delete_same. }
  cbn [fst snd]. rewrite Hroom1.
  split.
  { unfold voiceUser. cbn [rooms].
    rewrite JsMapFacts.get_set_other by auto. exact Hprev1. }
  split.
  { eexists. split.
    - unfold voiceUser. cbn [rooms]. rewrite JsMapFacts.get_set_same.
      cbn [VoiceRoom.users VoiceRoom.with_users].
      apply JsMapFacts.get_set_same.
    - repeat split. }
  split; [apply JsMapFacts.get_set_same|].
  eexists. eexists. split; [|split]; [| |].
  3: { erewrite VoiceChatFacts.broadcastToVoiceRoom_members by exact Hget0.
       f_equal. }
  all: reflexivity.
Qed.

Lemma handleRoomJoin_moves_witness :
  let s' :=
    fst (handleRoomJoin Scenario.allOpen 1000 Scenario.talking 1%nat
           (Some "gaming") Scenario.ann None) in
  JsMap.get "ann" (userRooms Scenario.talking) = Some "general" /\
  voiceUser Scenario.talking "general" "ann" <> None /\
  voiceUser s' "general" "ann" = None /\
  voiceUser s' "gaming" "ann" <> None /\
  JsMap.get "ann" (userRooms s') = Some "gaming".
Proof.
  intros s'.
  assert (Hne1 : "general"%string <> ""%string) by discriminate.
  assert (Hne2 : "general"%string <> "gaming"%string) by discriminate.
  destruct (handleRoomJoin_moves Scenario.allOpen 1000 Scenario.talking
              1%nat "gaming" Scenario.ann None _ "general" _ _ eq_refl
              eq_refl eq_refl eq_refl Hne1 Hne2 eq_refl eq_refl)
    as (Hgone & (me & Hme & _) & Hindex & _).
  split; [reflexivity|]. split; [discriminate|]. split; [exact Hgone|].
  split; [|exact Hindex].
  intros Hnone. pose proof (eq_trans (eq_sym Hme) Hnone) as Habs.
  discriminate Habs.
Defined.

(** X17.  A user who is alone in a temporary room and joins that same room
    again destroys it: the eviction empties and deletes the room, and the
    new record is written to the deleted room object.  Afterwards the room
    is not in the store, the user is a member of no room, yet the index
    still names the deleted room; the requester only gets a snapshot that
    shows itself in the room. *)
Theorem handleRoomJoin_alone_again rs now s ws roomId userInfo password
    room :
  JsMap.get roomId (rooms s) = Some room ->
  VoiceRoom.isTemporary room = true ->
  JsMap.keys (VoiceRoom.users room) = [UserInfo.id userInfo] ->
  Number.leb (Settings.maxUsers (VoiceRoom.settings room)) (Number.of_Z 1)
  = false ->
  Settings.isPrivate (VoiceRoom.settings room)
  && strict_neq (Settings.password (VoiceRoom.settings room)) password
  = false ->
  JsMap.get (UserInfo.id userInfo) (userRooms s) = Some roomId ->
  roomId <> "" ->
  let userId := UserInfo.id userInfo in
  let s' :=
    fst (handleRoomJoin rs now s ws (Some roomId) userInfo password) in
  let out :=
    snd (handleRoomJoin rs now s ws (Some roomId) userInfo password) in
  JsMap.get roomId (rooms s') = None /\
  voiceUser s' roomId userId = None /\
  JsMap.get userId (userRooms s') = Some roomId /\
  getUserVoiceRoom s' userId = None /\
  exists snapshot shown,
    Message.data snapshot
    = welcome shown (VoiceRoom.settings room)
        ("مرحباً بك في " ++ VoiceRoom.name room) /\
    map SerializedUser.id (SerializedRoom.users shown) = [userId] /\
    out = if isOPEN (rs ws) then [Send ws snapshot] else [].
Proof.
  intros Hroom Htemp Hkeys Hmax Hpw Hidx Htruthy userId s' out.
  subst s' out userId. set (userId := UserInfo.id userInfo) in *.
  destruct (VoiceRoom.users room) as [|[k record] [|? ?]] eqn:Husers;
    try discriminate.
  injection Hkeys as Hk. subst k.
  assert (Hsize : Number.leb (Settings.maxUsers (VoiceRoom.settings room))
                    (Number.of_Z (JsMap.size (VoiceRoom.users room)))
                  = false)
    by (rewrite Husers; exact Hmax).
  assert (Hrecord : JsMap.get userId (VoiceRoom.users room) = Some record)
    by (rewrite Husers; simpl; now rewrite String.eqb_refl).
  rewrite (handleRoomJoin_admitted rs now s ws roomId userInfo password room
             Hroom Hsize Hpw).
  cbv zeta. fold userId. rewrite Hidx.
  replace (truthy_str roomId) with true
    by (unfold truthy_str; destruct (String.eqb_spec roomId "");
        [contradiction | reflexivity]).
  rewrite (removeUserFromRoom_found rs s userId roomId room record Hroom
             Hrecord).
  cbv zeta. rewrite Htemp, Husers.
  cbn [JsMap.delete]. rewrite String.eqb_refl.
  replace (JsMap.size (@nil (string * VoiceUser.t)) =? 0) with true
    by reflexivity.
  cbn [andb fst snd rooms userRooms].
  rewrite JsMapFacts.get_delete_same.
  assert (Hnone : forall message exclude,
             broadcastToVoiceRoom rs
               (mkManager
                  (JsMap.set roomId (VoiceRoom.with_users [] room) (rooms s))
                  (JsMap.delete userId (userRooms s)))
               roomId message exclude = []).
  { intros. unfold broadcastToVoiceRoom. cbn [rooms].
    now rewrite JsMapFacts.get_set_same. }
  rewrite Hnone. cbn [app].
  assert (Hgone : forall idx message exclude,
             broadcastToVoiceRoom rs
               (mkManager
                  (JsMap.delete roomId
                     (JsMap.set roomId (VoiceRoom.with_users [] room)
                        (rooms s)))
                  idx)
               roomId message exclude = []).
  { intros. unfold broadcastToVoiceRoom. cbn [rooms].
    now rewrite JsMapFacts.get_delete_same. }
  rewrite Hgone, app_nil_r.
  split; [apply JsMapFacts.get_delete_same|]. split.
  { unfold voiceUser. cbn [rooms]. now rewrite JsMapFacts.get_delete_same. }
  split; [apply JsMapFacts.get_set_same|]. split.
  { unfold getUserVoiceRoom, getVoiceRoom. cbn [rooms userRooms].
    rewrite JsMapFacts.get_set_same.
    destruct (truthy_str roomId); [|reflexivity].
    now rewrite JsMapFacts.get_delete_same. }
  unfold sendToUser. do 2 eexists. split; [|split]; [| |reflexivity].
  - reflexivity.
  - reflexivity.
Qed.

Lemma handleRoomJoin_alone_again_witness :
  let s' :=
    fst (handleRoomJoin Scenario.allOpen 1000 Scenario.den 1%nat
           (Some "voice_d") Scenario.ann None) in
  exists room,
    JsMap.get "voice_d" (rooms Scenario.den) = Some room /\
    VoiceRoom.isTemporary room = true /\
    JsMap.keys (VoiceRoom.users room) = ["ann"] /\
    JsMap.get "ann" (userRooms Scenario.den) = Some "voice_d" /\
    JsMap.get "voice_d" (rooms s') = None /\
    JsMap.get "ann" (userRooms s') = Some "voice_d" /\
    getUserVoiceRoom s' "ann" = None.
Proof.
  intros s'.
  assert (Hne : "voice_d"%string <> ""%string) by discriminate.
  destruct (handleRoomJoin_alone_again Scenario.allOpen 1000 Scenario.den
              1%nat "voice_d" Scenario.ann None _ eq_refl eq_refl eq_refl
              eq_refl eq_refl eq_refl Hne)
    as (Hdeleted & _ & Hindex & Hreport & _).
  eexists. split; [reflexivity|]. split; [reflexivity|].
  split; [reflexivity|]. split; [reflexivity|]. split; [exact Hdeleted|].
  split; [exact Hindex | exact Hreport].
Defined.

(** *** Speaking, muting and audio *)

Lemma storeUser_twice s roomId userId room user1 user2 :
  storeUser roomId userId
    (VoiceRoom.with_users
       (JsMap.set userId user1 (VoiceRoom.users room)) room)
    user2 (storeUser roomId userId room user1 s)
  = storeUser roomId userId room user2 s.
Proof.
  unfold storeUser, storeRoom. cbn [rooms userRooms].
  cbn [VoiceRoom.users VoiceRoom.with_users].
  now rewrite !JsMapMore.set_set.
Qed.

Lemma storeUser_lookup s roomId userId room user :
  JsMap.get roomId (rooms (storeUser roomId userId room user s))
  = Some (VoiceRoom.with_users
            (JsMap.set userId user (VoiceRoom.users room)) room).
Proof. unfold storeUser, storeRoom. apply JsMapFacts.get_set_same. Qed.

(** X18.  [voice_stop_speaking] of a member clears its speaking flag, also
    when the member is muted, changes no other field of its record (its
    [lastActivity] included), no other record and not the index; the other
    members whose socket is open, never the member itself, are told.  A
    [voice_start_speaking] followed by a [voice_stop_speaking] leaves the
    member not speaking, with the time of the start as its [lastActivity]
    unless it is muted, and everything else as it was: what the stop alone
    leaves, up to that [lastActivity]. *)
Theorem handleStopSpeaking_clears rs now s roomId userId room user :
  JsMap.get roomId (rooms s) = Some room ->
  JsMap.get userId (VoiceRoom.users room) = Some user ->
  let s' := fst (handleStopSpeaking rs s roomId userId) in
  let out := snd (handleStopSpeaking rs s roomId userId) in
  let restarted :=
    fst (handleStopSpeaking rs
           (fst (handleStartSpeaking rs now s roomId userId)) roomId userId)
  in
  let stopped (lastActivity : Z) :=
    VoiceUser.mk (VoiceUser.id user) (VoiceUser.username user)
      (VoiceUser.isAdmin user) (VoiceUser.isMuted user) false
      (VoiceUser.isDeafened user) (VoiceUser.volume user)
      (VoiceUser.quality user) (VoiceUser.ws user) lastActivity
      (VoiceUser.micEnabled user) (VoiceUser.speakerEnabled user) in
  voiceUser s' roomId userId = Some (stopped (VoiceUser.lastActivity user)) /\
  (forall r u, (r, u) <> (roomId, userId) ->
     voiceUser s' r u = voiceUser s r u) /\
  userRooms s' = userRooms s /\
  out = map (fun kv =>
               Send (VoiceUser.ws (snd kv))
                 (Message.mk "voice_stop_speaking" roomId userId
                    (silent (VoiceUser.username user))))
          (filter
             (fun kv => negb (fst kv =? userId)%string
                        && isOPEN (rs (VoiceUser.ws (snd kv))))
             (VoiceRoom.users room)) /\
  voiceUser restarted roomId userId
  = Some (stopped (if VoiceUser.isMuted user then VoiceUser.lastActivity user
                   else now)) /\
  (forall r u, (r, u) <> (roomId, userId) ->
     voiceUser restarted r u = voiceUser s r u) /\
  userRooms restarted = userRooms s /\
  (VoiceUser.isMuted user = true \/ VoiceUser.lastActivity user = now ->
   restarted = s').
Proof.
  intros Hroom Huser s' out restarted stopped. subst s' out restarted.
  assert (Hstop : handleStopSpeaking rs s roomId userId
                  = (storeUser roomId userId room
                       (VoiceUser.with_isSpeaking false user) s,
                     broadcastToVoiceRoom rs
                       (storeUser roomId userId room
                          (VoiceUser.with_isSpeaking false user) s)
                       roomId
                       (Message.mk "voice_stop_speaking" roomId userId
                          (silent (VoiceUser.username user)))
                       (Some userId)))
    by (unfold handleStopSpeaking; now rewrite Hroom, Huser).
  assert (Hothers : forall user' r u,
             (r, u) <> (roomId, userId) ->
             voiceUser (storeUser roomId userId room user' s) r u
             = voiceUser s r u).
  { intros user' r u Hne.
    rewrite (VoiceChatFacts.voiceUser_storeUser_at s roomId userId room _
               r u Hroom).
    destruct (String.eqb_spec r roomId) as [->|]; cbn [andb]; auto.
    destruct (String.eqb_spec u userId) as [->|]; auto. congruence. }
  assert (Hmine : forall user',
             voiceUser (storeUser roomId userId room user' s) roomId userId
             = Some user').
  { intros user'.
    rewrite (VoiceChatFacts.voiceUser_storeUser_at s roomId userId room _
               roomId userId Hroom).
    now rewrite !String.eqb_refl. }
  assert (Hrestarted :
            fst (handleStopSpeaking rs
                   (fst (handleStartSpeaking rs now s roomId userId)) roomId
                   userId)
            = storeUser roomId userId room
                (stopped (if VoiceUser.isMuted user
                          then VoiceUser.lastActivity user else now)) s).
  { unfold handleStartSpeaking. rewrite Hroom, Huser.
    destruct (VoiceUser.isMuted user) eqn:Hmuted; cbn [fst].
    - rewrite Hstop. cbn [fst]. unfold stopped, VoiceUser.with_isSpeaking.
      rewrite ?Hmuted. reflexivity.
    - unfold handleStopSpeaking. rewrite storeUser_lookup.
      cbn [VoiceRoom.users VoiceRoom.with_users].
      rewrite JsMapFacts.get_set_same. cbn [fst].
      rewrite storeUser_twice.
      unfold stopped, VoiceUser.with_isSpeaking, VoiceUser.with_lastActivity.
      cbn [VoiceUser.id VoiceUser.username VoiceUser.isAdmin
           VoiceUser.isMuted VoiceUser.isSpeaking VoiceUser.isDeafened
           VoiceUser.volume VoiceUser.quality VoiceUser.ws
           VoiceUser.lastActivity VoiceUser.micEnabled
           VoiceUser.speakerEnabled].
      rewrite ?Hmuted. reflexivity. }
  rewrite Hstop, Hrestarted. cbn [fst snd].
  split; [apply Hmine|]. split; [apply Hothers|].
  split; [reflexivity|]. split.
  { erewrite VoiceChatFacts.broadcastToVoiceRoom_members
      by apply storeUser_lookup.
    cbn [VoiceRoom.users VoiceRoom.with_users excluded].
    now rewrite JsMapMore.filter_set_excluded. }
  split; [apply Hmine|]. split; [apply Hothers|].
  split; [reflexivity|].
  intros [Hmuted| Hsame].
  - rewrite Hmuted. reflexivity.
  - rewrite <- Hsame.
    replace (if VoiceUser.isMuted user
             then VoiceUser.lastActivity user
             else VoiceUser.lastActivity user)
      with (VoiceUser.lastActivity user)
      by (clear; destruct (VoiceUser.isMuted user); reflexivity).
    reflexivity.
Qed.

Lemma handleStopSpeaking_clears_witness :
  let started :=
    fst (handleStartSpeaking Scenario.allOpen 2000 Scenario.talking "general"
           "ann") in
  exists room user,
    JsMap.get "general" (rooms started) = Some room /\
    JsMap.get "ann" (VoiceRoom.users room) = Some user /\
    VoiceUser.isSpeaking user = true /\
    VoiceUser.lastActivity user = 2000 /\
    option_map
      (fun u => (VoiceUser.isSpeaking u, VoiceUser.lastActivity u))
      (voiceUser
         (fst (handleStopSpeaking Scenario.allOpen started "general" "ann"))
         "general" "ann")
    = Some (false, 2000).
Proof.
  intros started.
  destruct (handleStopSpeaking_clears Scenario.allOpen 0 started "general"
              "ann" _ _ eq_refl eq_refl)
    as (Hcleared & _).
  eexists. eexists. split; [reflexivity|]. split; [reflexivity|].
  split; [reflexivity|]. split; [reflexivity|].
  rewrite Hcleared. reflexivity.
Defined.

(** X19.  [voice_unmute] of a member clears its mute flag and leaves its
    speaking flag as it is, changes no other record and tells every member
    whose socket is open, the member included.  After a mute and an unmute
    the member is neither muted nor speaking, and its next
    [voice_start_speaking] is accepted again. *)
Theorem handleUnmute_clears rs now s roomId userId room user :
  JsMap.get roomId (rooms s) = Some room ->
  JsMap.get userId (VoiceRoom.users room) = Some user ->
  let s' := fst (handleUnmute rs s roomId userId) in
  let out := snd (handleUnmute rs s roomId userId) in
  let muted_then_unmuted :=
    fst (handleUnmute rs (fst (handleMute rs s roomId userId)) roomId userId)
  in
  voiceUser s' roomId userId = Some (VoiceUser.with_isMuted false user) /\
  (forall r u, (r, u) <> (roomId, userId) ->
     voiceUser s' r u = voiceUser s r u) /\
  (exists room',
     JsMap.get roomId (rooms s') = Some room' /\
     out = map (fun kv =>
                  Send (VoiceUser.ws (snd kv))
                    (Message.mk "voice_unmute" roomId userId
                       (muted (VoiceUser.username user) false)))
             (filter (fun kv => isOPEN (rs (VoiceUser.ws (snd kv))))
                (VoiceRoom.users room'))) /\
  voiceUser muted_then_unmuted roomId userId
  = Some (VoiceUser.with_isSpeaking false
            (VoiceUser.with_isMuted false user)) /\
  isSpeaking
    (fst (handleStartSpeaking rs now muted_then_unmuted roomId userId))
    roomId userId = true.
Proof.
  intros Hroom Huser s' out both. subst s' out both.
  assert (Hunmute : handleUnmute rs s roomId userId
                    = (storeUser roomId userId room
                         (VoiceUser.with_isMuted false user) s,
                       broadcastToVoiceRoom rs
                         (storeUser roomId userId room
                            (VoiceUser.with_isMuted false user) s)
                         roomId
                         (Message.mk "voice_unmute" roomId userId
                            (muted (VoiceUser.username user) false))
                         None))
    by (unfold handleUnmute; now rewrite Hroom, Huser).
  rewrite Hunmute. cbn [fst snd].
  split.
  { rewrite (VoiceChatFacts.voiceUser_storeUser_at s roomId userId room _
               roomId userId Hroom).
    now rewrite !String.eqb_refl. }
  split.
  { intros r u Hne.
    rewrite (VoiceChatFacts.voiceUser_storeUser_at s roomId userId room _
               r u Hroom).
    destruct (String.eqb_spec r roomId) as [->|]; cbn [andb]; auto.
    destruct (String.eqb_spec u userId) as [->|]; auto. congruence. }
  split.
  { eexists. split; [apply storeUser_lookup|].
    erewrite VoiceChatFacts.broadcastToVoiceRoom_members
      by apply storeUser_lookup.
    reflexivity. }
  unfold handleMute. rewrite Hroom, Huser. cbn [fst].
  unfold handleUnmute. rewrite storeUser_lookup.
  cbn [VoiceRoom.users VoiceRoom.with_users].
  rewrite JsMapFacts.get_set_same. cbn [fst].
  rewrite storeUser_twice.
  split.
  { rewrite (VoiceChatFacts.voiceUser_storeUser_at s roomId userId room _
               roomId userId Hroom).
    now rewrite !String.eqb_refl. }
  unfold handleStartSpeaking. rewrite storeUser_lookup.
  cbn [VoiceRoom.users VoiceRoom.with_users].
  rewrite JsMapFacts.get_set_same.
  cbn [VoiceUser.isMuted VoiceUser.with_isMuted VoiceUser.with_isSpeaking
       fst].
  rewrite storeUser_twice. unfold isSpeaking.
  rewrite (VoiceChatFacts.voiceUser_storeUser_at s roomId userId room _
             roomId userId Hroom).
  now rewrite !String.eqb_refl.
Qed.

Lemma handleUnmute_clears_witness :
  exists room user,
    JsMap.get "general" (rooms Scenario.hushed) = Some room /\
    JsMap.get "ann" (VoiceRoom.users room) = Some user /\
    VoiceUser.isMuted user = true /\
    isMuted
      (fst (handleUnmute Scenario.allOpen Scenario.hushed "general" "ann"))
      "general" "ann" = false.
Proof.
  destruct (handleUnmute_clears Scenario.allOpen 0 Scenario.hushed "general"
              "ann" _ _ eq_refl eq_refl)
    as (Hcleared & _).
  eexists. eexists. split; [reflexivity|]. split; [reflexivity|].
  split; [reflexivity|].
  unfold isMuted. rewrite Hcleared. reflexivity.
Defined.

(** X20.  Audio never changes the manager.  From a member that is not
    muted it is forwarded to exactly the other members that are not
    deafened, have their speaker enabled and an open socket, never back to
    the sender; each recipient's copy carries that recipient's own volume
    divided by 100 under the key [volume] and keeps every other key of the
    payload. *)
Theorem handleAudioData_relays rs s roomId userId audioData room sender :
  JsMap.get roomId (rooms s) = Some room ->
  JsMap.get userId (VoiceRoom.users room) = Some sender ->
  VoiceUser.isMuted sender = false ->
  (forall room0 user0 data0,
     fst (handleAudioData rs s room0 user0 data0) = s) /\
  snd (handleAudioData rs s roomId userId audioData)
  = map (fun kv =>
           Send (VoiceUser.ws (snd kv))
             (Message.mk "voice_audio_data" roomId userId
                (audio
                   (applyVolumeControl audioData (VoiceUser.volume (snd kv)))
                   userId (VoiceUser.username sender)
                   (VoiceUser.quality sender))))
      (filter
         (fun kv => negb (fst kv =? userId)%string
                    && negb (VoiceUser.isDeafened (snd kv))
                    && VoiceUser.speakerEnabled (snd kv)
                    && isOPEN (rs (VoiceUser.ws (snd kv))))
         (VoiceRoom.users room)) /\
  (forall volume,
     JsMap.get "volume" (applyVolumeControl audioData volume)
     = Some (JNum (volume # 100)) /\
     forall k, k <> "volume" ->
       JsMap.get k (applyVolumeControl audioData volume)
       = JsMap.get k audioData).
Proof.
  intros Hroom Hsender Hmuted. split; [|split].
  - intros room0 user0 data0. unfold handleAudioData.
    destruct (JsMap.get room0 (rooms s)) as [r0|]; [|reflexivity].
    destruct (JsMap.get user0 (VoiceRoom.users r0)) as [u0|]; [|reflexivity].
    now destruct (VoiceUser.isMuted u0).
  - unfold handleAudioData. rewrite Hroom, Hsender, Hmuted. cbn [snd].
    clear Hsender.
    induction (VoiceRoom.users room) as [|kv users IH]; [reflexivity|].
    cbn [flat_map filter map]. rewrite IH. unfold sendToUser.
    destruct (negb (fst kv =? userId)%string
              && negb (VoiceUser.isDeafened (snd kv))
              && VoiceUser.speakerEnabled (snd kv));
      destruct (isOPEN (rs (VoiceUser.ws (snd kv))));
      cbn [andb app map]; reflexivity.
  - intros volume. unfold applyVolumeControl. split.
    + apply JsMapFacts.get_set_same.
    + intros k Hk. now apply JsMapFacts.get_set_other.
Qed.

Lemma handleAudioData_relays_witness :
  let chunk := [("samples", JStr "pcm")] in
  exists room sender message,
    JsMap.get "general" (rooms Scenario.talking) = Some room /\
    JsMap.get "ann" (VoiceRoom.users room) = Some sender /\
    VoiceUser.isMuted sender = false /\
    snd (handleAudioData Scenario.allOpen Scenario.talking "general" "ann"
           chunk)
    = [Send 2%nat message] /\
    Message.type message = "voice_audio_data".
Proof.
  intros chunk.
  destruct (handleAudioData_relays Scenario.allOpen Scenario.talking
              "general" "ann" chunk _ _ eq_refl eq_refl eq_refl)
    as (_ & Hout & _).
  eexists. eexists. eexists. split; [reflexivity|]. split; [reflexivity|].
  split; [reflexivity|]. split; [rewrite Hout; reflexivity | reflexivity].
Defined.

(** X21.  [voice_noise_reduction] from someone who is not a member of the
    room, or from a member without the admin flag, is dropped: nothing
    changes and nothing is sent.  From an admin member it sets the room's
    noise-reduction setting to the requested value, leaves every other
    setting, the members and the index as they are, and sends the new
    settings to every member whose socket is open. *)
Theorem handleNoiseReduction_admin_only rs s roomId userId enabled room :
  JsMap.get roomId (rooms s) = Some room ->
  let s' := fst (handleNoiseReduction rs s roomId userId enabled) in
  let out := snd (handleNoiseReduction rs s roomId userId enabled) in
  (JsMap.get userId (VoiceRoom.users room) = None -> s' = s /\ out = []) /\
  (forall user,
     JsMap.get userId (VoiceRoom.users room) = Some user ->
     VoiceUser.isAdmin user = false -> s' = s /\ out = []) /\
  (forall user,
     JsMap.get userId (VoiceRoom.users room) = Some user ->
     VoiceUser.isAdmin user = true ->
     exists room' text,
       JsMap.get roomId (rooms s') = Some room' /\
       Settings.noiseReduction (VoiceRoom.settings room') = enabled /\
       Settings.with_noiseReduction
         (Settings.noiseReduction (VoiceRoom.settings room))
         (VoiceRoom.settings room')
       = VoiceRoom.settings room /\
       VoiceRoom.users room' = VoiceRoom.users room /\
       VoiceRoom.isTemporary room' = VoiceRoom.isTemporary room /\
       userRooms s' = userRooms s /\
       (forall other, other <> roomId ->
          JsMap.get other (rooms s') = JsMap.get other (rooms s)) /\
       out = map (fun kv =>
                    Send (VoiceUser.ws (snd kv))
                      (Message.mk "voice_room_settings" roomId userId
                         (settings_changed (VoiceRoom.settings room') text)))
               (filter (fun kv => isOPEN (rs (VoiceUser.ws (snd kv))))
                  (VoiceRoom.users room))).
Proof.
  intros Hroom s' out. subst s' out. unfold handleNoiseReduction.
  rewrite Hroom. split; [|split].
  - intros H. rewrite H. split; reflexivity.
  - intros user H1 H2. rewrite H1, H2. split; reflexivity.
  - intros user H1 H2. rewrite H1, H2. cbn [negb fst snd].
    set (room' := VoiceRoom.with_settings _ room).
    assert (Hget : JsMap.get roomId (rooms (storeRoom roomId room' s))
                   = Some room')
      by (unfold storeRoom; apply JsMapFacts.get_set_same).
    exists room'. eexists. split; [exact Hget|].
    split; [reflexivity|]. split.
    { subst room'. cbn. now destruct (VoiceRoom.settings room). }
    split; [reflexivity|]. split; [reflexivity|]. split; [reflexivity|].
    split.
    { intros other Hne. unfold storeRoom. cbn [rooms].
      now apply JsMapFacts.get_set_other. }
    erewrite VoiceChatFacts.broadcastToVoiceRoom_members by exact Hget.
    reflexivity.
Qed.

Lemma handleNoiseReduction_admin_only_witness :
  let refused :=
    handleNoiseReduction Scenario.allOpen Scenario.moderated "general" "ann"
      false in
  let s' :=
    fst (handleNoiseReduction Scenario.allOpen Scenario.moderated "general"
           "root" false) in
  exists room room',
    JsMap.get "general" (rooms Scenario.moderated) = Some room /\
    Settings.noiseReduction (VoiceRoom.settings room) = true /\
    refused = (Scenario.moderated, []) /\
    JsMap.get "general" (rooms s') = Some room' /\
    Settings.noiseReduction (VoiceRoom.settings room') = false /\
    VoiceRoom.users room' = VoiceRoom.users room.
Proof.
  intros refused s'.
  destruct (handleNoiseReduction_admin_only Scenario.allOpen
              Scenario.moderated "general" "ann" false _ eq_refl)
    as (_ & Hplain & _).
  destruct (Hplain _ eq_refl eq_refl) as [Hsame Hnone].
  destruct (handleNoiseReduction_admin_only Scenario.allOpen
              Scenario.moderated "general" "root" false _ eq_refl)
    as (_ & _ & Hadmin).
  destruct (Hadmin _ eq_refl eq_refl)
    as (room' & text & Hroom' & Hset & _ & Husers & _).
  eexists. exists room'. split; [reflexivity|]. split; [reflexivity|].
  split; [|split; [exact Hroom'|split; [exact Hset | exact Husers]]].
  unfold refused.
  rewrite (surjective_pairing (handleNoiseReduction _ _ _ _ _)).
  now rewrite Hsame, Hnone.
Defined.

(** *** What every reachable state of the voice manager satisfies *)

(** The store lists every room once under its own id; each room keeps its
    users keyed by their id, once each; the two default rooms are there. *)
Local Abbreviation entryOK k room :=
  (VoiceRoom.id room = k /\ voiceRoomShape room).

Local Abbreviation vsound s :=
  ((JsMap.wf (rooms s) /\
    forall k room, In (k, room) (rooms s) -> entryOK k room) /\
   permanentRoom s "general" 50 /\ permanentRoom s "gaming" 20).

Lemma permanent_set s id n roomId room room' index :
  JsMap.get roomId (rooms s) = Some room ->
  VoiceRoom.isTemporary room' = VoiceRoom.isTemporary room ->
  Settings.maxUsers (VoiceRoom.settings room')
  = Settings.maxUsers (VoiceRoom.settings room) ->
  permanentRoom s id n ->
  permanentRoom (mkManager (JsMap.set roomId room' (rooms s)) index) id n.
Proof.
  intros Hroom Htemp Hmax (room0 & Hget & Hperm & Hn).
  unfold permanentRoom. cbn [rooms].
  destruct (String.eqb_spec id roomId) as [->|Hne].
  - exists room'. rewrite JsMapFacts.get_set_same.
    assert (room0 = room) by congruence. subst room0.
    repeat split; congruence.
  - exists room0. rewrite JsMapFacts.get_set_other by auto. auto.
Qed.

Lemma permanent_delete s id n roomId room index :
  JsMap.get roomId (rooms s) = Some room ->
  VoiceRoom.isTemporary room = true ->
  permanentRoom s id n ->
  permanentRoom (mkManager (JsMap.delete roomId (rooms s)) index) id n.
Proof.
  intros Hroom Htemp (room0 & Hget & Hperm & Hn).
  unfold permanentRoom. cbn [rooms].
  destruct (String.eqb_spec id roomId) as [->|Hne]; [congruence|].
  exists room0. rewrite JsMapFacts.get_delete_other by auto. auto.
Qed.

Lemma vsound_set s roomId room room' index :
  vsound s ->
  JsMap.get roomId (rooms s) = Some room ->
  entryOK roomId room' ->
  VoiceRoom.isTemporary room' = VoiceRoom.isTemporary room ->
  Settings.maxUsers (VoiceRoom.settings room')
  = Settings.maxUsers (VoiceRoom.settings room) ->
  vsound (mkManager (JsMap.set roomId room' (rooms s)) index).
Proof.
  intros [[Hwf Hentries] [Hgeneral Hgaming]] Hroom Hok Htemp Hmax.
  split; [split|split].
  - cbn [rooms]. now apply JsMapFacts.wf_set.
  - cbn [rooms]. intros k room0 H. apply JsMapFacts.In_set in H.
    destruct H as [[= -> ->]|H]; auto.
  - now apply (permanent_set s _ _ roomId room).
  - now apply (permanent_set s _ _ roomId room).
Qed.

Lemma vsound_delete s roomId room index :
  vsound s ->
  JsMap.get roomId (rooms s) = Some room ->
  VoiceRoom.isTemporary room = true ->
  vsound (mkManager (JsMap.delete roomId (rooms s)) index).
Proof.
  intros [[Hwf Hentries] [Hgeneral Hgaming]] Hroom Htemp.
  split; [split|split].
  - cbn [rooms]. now apply JsMapFacts.wf_delete.
  - cbn [rooms]. intros k room0 H. apply JsMapFacts.In_delete in H.
    destruct H. auto.
  - now apply (permanent_delete s _ _ roomId room).
  - now apply (permanent_delete s _ _ roomId room).
Qed.

Lemma vsound_index s index : vsound s -> vsound (mkManager (rooms s) index).
Proof. auto. Qed.

Lemma vsound_get s roomId room :
  vsound s -> JsMap.get roomId (rooms s) = Some room -> entryOK roomId room.
Proof.
  intros [[Hwf Hentries] _] Hroom. apply Hentries.
  now apply JsMapFacts.get_In.
Qed.

Lemma shape_delete room userId :
  voiceRoomShape room ->
  voiceRoomShape
    (VoiceRoom.with_users (JsMap.delete userId (VoiceRoom.users room)) room).
Proof.
  intros [Hwf Hid]. split; cbn [VoiceRoom.users VoiceRoom.with_users].
  - now apply JsMapFacts.wf_delete.
  - intros k user H. apply JsMapFacts.In_delete in H. destruct H. auto.
Qed.

Lemma shape_set room userId user :
  voiceRoomShape room -> VoiceUser.id user = userId ->
  voiceRoomShape
    (VoiceRoom.with_users
       (JsMap.set userId user (VoiceRoom.users room)) room).
Proof.
  intros [Hwf Hid] Hkey. split; cbn [VoiceRoom.users VoiceRoom.with_users].
  - now apply JsMapFacts.wf_set.
  - intros k u H. apply JsMapFacts.In_set in H.
    destruct H as [[= -> ->]|H]; auto.
Qed.

Lemma removeUserFromRoom_vsound rs s userId roomId :
  vsound s -> vsound (fst (removeUserFromRoom rs s userId roomId)).
Proof.
  intros Hs. unfold removeUserFromRoom.
  destruct (JsMap.get roomId (rooms s)) as [room|] eqn:Hroom; [|exact Hs].
  destruct (JsMap.get userId (VoiceRoom.users room)) as [user|]; [|exact Hs].
  destruct (vsound_get s roomId room Hs Hroom) as (Hkey & Hshape).
  set (room' := VoiceRoom.with_users _ room).
  assert (Hs1 : vsound (mkManager (JsMap.set roomId room' (rooms s))
                          (JsMap.delete userId (userRooms s)))).
  { apply (vsound_set s roomId room); auto.
    split; [exact Hkey | now apply shape_delete]. }
  destruct (VoiceRoom.isTemporary room') eqn:Htemp; cbn [andb fst];
    [|exact Hs1].
  destruct (_ =? 0); cbn [fst]; [|exact Hs1].
  refine (vsound_delete _ roomId room' _ Hs1 _ Htemp).
  apply JsMapFacts.get_set_same.
Qed.

Lemma handleRoomJoin_vsound rs now s ws roomId userInfo password :
  vsound s ->
  vsound (fst (handleRoomJoin rs now s ws roomId userInfo password)).
Proof.
  intros Hs. unfold handleRoomJoin.
  destruct roomId as [roomId|]; [|exact Hs].
  destruct (JsMap.get roomId (rooms s)) as [room|] eqn:Hroom; [|exact Hs].
  destruct (Number.leb _ _); [exact Hs|].
  destruct (Settings.isPrivate _ && _); [exact Hs|].
  set (userId := UserInfo.id userInfo).
  set (evicted :=
         match JsMap.get userId (userRooms s) with
         | Some previousRoomId =>
             if truthy_str previousRoomId
             then removeUserFromRoom rs s userId previousRoomId
             else (s, [])
         | None => (s, [])
         end).
  assert (Hevicted : vsound (fst evicted)).
  { subst evicted.
    destruct (JsMap.get userId (userRooms s)) as [prev|]; [|exact Hs].
    destruct (truthy_str prev); [|exact Hs].
    now apply removeUserFromRoom_vsound. }
  destruct evicted as [s1 out1]. cbn [fst] in *.
  destruct (JsMap.get roomId (rooms s1)) as [current|] eqn:Hcur; cbn [fst].
  - destruct (vsound_get s1 roomId current Hevicted Hcur) as (Hkey & Hshape).
    apply (vsound_set s1 roomId current); auto.
    split; [exact Hkey | now apply shape_set].
  - now apply vsound_index.
Qed.

Lemma storeUser_vsound s roomId userId room user user' :
  JsMap.get roomId (rooms s) = Some room ->
  JsMap.get userId (VoiceRoom.users room) = Some user ->
  VoiceUser.id user' = VoiceUser.id user ->
  vsound s -> vsound (storeUser roomId userId room user' s).
Proof.
  intros Hroom Huser Hid Hs.
  destruct (vsound_get s roomId room Hs Hroom) as (Hkey & Hshape).
  unfold storeUser, storeRoom.
  apply (vsound_set s roomId room); auto.
  split; [exact Hkey|].
  apply shape_set; [exact Hshape|]. rewrite Hid.
  destruct Hshape as [_ Hids]. apply Hids.
  now apply JsMapFacts.get_In.
Qed.

Lemma createRoom_vsound s config :
  (forall ch rest, RoomConfig.id config = String ch rest ->
                   ch = "v"%char) ->
  RoomConfig.id config <> "" ->
  vsound s -> vsound (fst (createRoom s config)).
Proof.
  intros Hprefix Hne [[Hwf Hentries] [Hgeneral Hgaming]].
  assert (Hkeep : forall id n,
             id <> RoomConfig.id config -> permanentRoom s id n ->
             permanentRoom (fst (createRoom s config)) id n).
  { intros id n Hid (room0 & Hget & Hperm & Hn). exists room0.
    unfold createRoom. cbn [fst rooms].
    rewrite JsMapFacts.get_set_other by auto. auto. }
  split; [split|split].
  - unfold createRoom. cbn [fst rooms]. now apply JsMapFacts.wf_set.
  - unfold createRoom. cbn [fst rooms]. intros k room H.
    apply JsMapFacts.In_set in H. destruct H as [[= -> ->]|H]; auto.
    split; [reflexivity|].
    split; cbn; [constructor | intros k user []].
  - apply Hkeep; [|exact Hgeneral]. intros H. symmetry in H.
    apply Hprefix in H. discriminate.
  - apply Hkeep; [|exact Hgaming]. intros H. symmetry in H.
    apply Hprefix in H. discriminate.
Qed.

Ltac vuser_lookup s roomIdent userIdent Hs :=
  let room := fresh "room" in
  let Hroom := fresh "Hroom" in
  let user := fresh "user" in
  let Huser := fresh "Huser" in
  destruct (JsMap.get roomIdent (rooms s)) as [room|] eqn:Hroom;
  [|exact Hs];
  destruct (JsMap.get userIdent (VoiceRoom.users room)) as [user|] eqn:Huser;
  [|exact Hs].

(** Every handler keeps the store in that shape. *)
Lemma handleVoiceMessage_vsound rs now s ws message :
  vsound s -> vsound (fst (handleVoiceMessage rs now s ws message)).
Proof.
  intros Hs. destruct message; cbn [handleVoiceMessage].
  - now apply handleRoomJoin_vsound.
  - now apply removeUserFromRoom_vsound.
  - unfold handleStartSpeaking. vuser_lookup s roomId userId Hs.
    destruct (VoiceUser.isMuted user); [exact Hs|].
    cbn [fst]. now apply (storeUser_vsound s roomId userId room user).
  - unfold handleStopSpeaking. vuser_lookup s roomId userId Hs.
    cbn [fst]. now apply (storeUser_vsound s roomId userId room user).
  - unfold handleAudioData. vuser_lookup s roomId userId Hs.
    destruct (VoiceUser.isMuted user); exact Hs.
  - unfold handleMute. vuser_lookup s roomId userId Hs.
    cbn [fst]. now apply (storeUser_vsound s roomId userId room user).
  - unfold handleUnmute. vuser_lookup s roomId userId Hs.
    cbn [fst]. now apply (storeUser_vsound s roomId userId room user).
  - destruct (VoiceChatFacts.handleRoomCreate_begin_state rs now s ws rnd
                roomData userInfo) as (config & Hid & _ & -> & _).
    apply createRoom_vsound; [| |exact Hs]; rewrite Hid.
    + intros ch rest [= <- _]. reflexivity.
    + discriminate.
  - unfold handleQualityChange. vuser_lookup s roomId userId Hs.
    cbn [fst]. now apply (storeUser_vsound s roomId userId room user).
  - exact Hs.
  - unfold handleNoiseReduction. vuser_lookup s roomId userId Hs.
    destruct (negb _); [exact Hs|]. cbn [fst].
    destruct (vsound_get s roomId room Hs Hroom) as (Hkey & Hshape).
    unfold storeRoom. apply (vsound_set s roomId room); auto.
  - exact Hs.
Qed.

(** So does every event of a run, the resumption of a suspended handler
    included. *)
Lemma step_vsound moment w e :
  vsound (manager w) -> vsound (manager (fst (step moment w e))).
Proof.
  intros Hs. rewrite VoiceChatFacts.step_manager. cbv zeta.
  destruct e as [ws message|ws|n]; [|exact Hs|].
  - destruct message;
      try exact (handleVoiceMessage_vsound _ _ _ _ _ Hs).
    destruct (joinAwaits _ _ _ _) as [[r prev]|].
    + now apply removeUserFromRoom_vsound.
    + now apply handleRoomJoin_vsound.
  - destruct (nth_error (suspended w) n) as [k|]; [|exact Hs].
    destruct (Suspended.continuation k); [|exact Hs].
    destruct (VoiceChatFacts.handleRoomJoin_resume_manager
                (Moment.readyState moment) (Moment.now moment)
                (mkWorld (manager w) (cells w) (remove_nth n (suspended w)))
                k)
      as [->|[(cell & room & _ & _ & ->)
             |(room & user & _ & Hroom & _ & _ & Hid & ->)]];
      cbn [manager] in *.
    + exact Hs.
    + now apply vsound_index.
    + destruct (vsound_get _ _ room Hs Hroom) as (Hkey & Hshape).
      apply (vsound_set (manager w) _ room); auto.
      split; [exact Hkey | now apply shape_set].
Qed.

Lemma run_vsound trace :
  forall w, vsound (manager w) -> vsound (manager (fst (run w trace))).
Proof.
  induction trace as [|[moment e] trace IH]; simpl; intros w Hs;
    [exact Hs|].
  pose proof (step_vsound moment w e Hs) as H1.
  destruct (step moment w e) as [w1 out1]. cbn [fst] in H1.
  specialize (IH w1 H1). destruct (run w1 trace) as [w2 out2]. exact IH.
Qed.

Lemma initial_vsound : vsound initial.
Proof.
  split; [split|split].
  - unfold JsMap.wf. simpl. repeat constructor; simpl; intuition discriminate.
  - simpl. intros k room [[= <- <-]|[[= <- <-]|[]]];
      (split; [reflexivity|]; split; simpl; [constructor | tauto]).
  - eexists. repeat split.
  - eexists. repeat split.
Qed.

(** X22.  The two default rooms are never removed: in every state the voice
    manager reaches, whatever handlers are suspended, ["general"] is a
    permanent room of capacity 50 and ["gaming"] a permanent room of
    capacity 20. *)
Theorem reachable_default_rooms trace :
  let s := manager (fst (run start trace)) in
  permanentRoom s "general" 50 /\ permanentRoom s "gaming" 20.
Proof.
  intros s. exact (proj2 (run_vsound trace start initial_vsound)).
Qed.

(** X24.  In every state the voice manager reaches, the room list and the
    lookup by id agree: [getVoiceRooms] lists every room once, an entry of
    the list is what [getVoiceRoom] returns for the entry's id and its
    [userCount] is the number of users it lists, and what [getVoiceRoom]
    returns for an id is in the list and carries that id. *)
Theorem reachable_voice_queries_agree trace :
  let s := manager (fst (run start trace)) in
  NoDup (map SerializedRoom.id (getVoiceRooms s)) /\
  (forall entry, In entry (getVoiceRooms s) ->
     getVoiceRoom s (SerializedRoom.id entry) = Some entry /\
     SerializedRoom.userCount entry
     = Z.of_nat (List.length (SerializedRoom.users entry))) /\
  (forall roomId entry, getVoiceRoom s roomId = Some entry ->
     In entry (getVoiceRooms s) /\ SerializedRoom.id entry = roomId).
Proof.
  intros s.
  destruct (run_vsound trace start initial_vsound) as [[Hwf Hentries] _].
  fold s in Hwf, Hentries.
  assert (Hid : forall k room, In (k, room) (rooms s) -> VoiceRoom.id room = k)
    by (intros k room Hin; exact (proj1 (Hentries k room Hin))).
  assert (Hids : map SerializedRoom.id (getVoiceRooms s)
                 = JsMap.keys (rooms s)).
  { unfold getVoiceRooms, JsMap.values, JsMap.keys. rewrite !map_map.
    apply map_ext_in. intros [k room] Hin. cbn. now apply Hid. }
  split; [rewrite Hids; exact Hwf|]. split.
  - intros entry Hin. unfold getVoiceRooms, JsMap.values in Hin.
    rewrite map_map in Hin. apply in_map_iff in Hin.
    destruct Hin as ([k room] & <- & Hin). cbn. split.
    + rewrite (Hid k room Hin). unfold getVoiceRoom.
      now rewrite (JsMapFacts.In_get k room (rooms s) Hwf Hin).
    + unfold JsMap.size, JsMap.values. now rewrite !length_map.
  - intros roomId entry. unfold getVoiceRoom.
    destruct (JsMap.get roomId (rooms s)) as [room|] eqn:Hroom;
      [|discriminate].
    intros [= <-]. apply JsMapFacts.get_In in Hroom. split.
    + unfold getVoiceRooms, JsMap.values. rewrite map_map.
      apply in_map_iff. exists (roomId, room). auto.
    + cbn. now apply Hid.
Qed.

Lemma run_quiet trace r u :
  forall w, quiet (manager w) r u -> quiet (manager (fst (run w trace))) r u.
Proof.
  induction trace as [|[moment e] trace IH]; simpl; intros w Hs;
    [exact Hs|].
  pose proof (VoiceChatFacts.step_quiet moment w e r u Hs) as H1.
  destruct (step moment w e) as [w1 out1]. cbn [fst] in H1.
  specialize (IH w1 H1). destruct (run w1 trace) as [w2 out2]. exact IH.
Qed.

(** X25.  In every state the voice manager reaches, no member of a room is
    both muted and speaking. *)
Theorem reachable_muted_not_speaking trace roomId userId user :
  voiceUser (manager (fst (run start trace))) roomId userId = Some user ->
  VoiceUser.isMuted user = true -> VoiceUser.isSpeaking user = false.
Proof.
  intros Huser Hmuted.
  assert (Hq : quiet (manager start) roomId userId).
  { unfold quiet, isMuted, isSpeaking, voiceUser, start, initial,
      setupDefaultRooms, createRoom. cbn [fst rooms manager].
    destruct (String.eqb_spec roomId "gaming") as [->|Hg].
    - rewrite JsMapFacts.get_set_same. reflexivity.
    - rewrite JsMapFacts.get_set_other by auto.
      destruct (String.eqb_spec roomId "general") as [->|Hn].
      + rewrite JsMapFacts.get_set_same. reflexivity.
      + rewrite JsMapFacts.get_set_other by auto. reflexivity. }
  pose proof (run_quiet trace roomId userId start Hq) as H.
  unfold quiet, isMuted, isSpeaking in H. rewrite Huser in H. auto.
Qed.

Lemma reachable_muted_not_speaking_witness :
  exists user,
    voiceUser (manager (fst (run start Scenario.hushing))) "general" "ann"
    = Some user /\
    VoiceUser.isMuted user = true /\
    VoiceUser.isSpeaking user = false.
Proof.
  eexists. split; [reflexivity|]. split; [reflexivity|].
  exact (reachable_muted_not_speaking Scenario.hushing "general" "ann" _
           eq_refl eq_refl).
Defined.

Lemma fold_left_users (l : list VoiceRoom.t) : forall a,
  fold_left (fun sum room => sum + JsMap.size (VoiceRoom.users room)) l a
  = a + fold_left (fun sum room => sum + JsMap.size (VoiceRoom.users room))
          l 0.
Proof.
  induction l as [|room l IH]; intros a; cbn [fold_left]; [lia|].
  rewrite (IH (a + _)), (IH (0 + _)). lia.
Qed.

Lemma active_le_users (l : list VoiceRoom.t) :
  0 <= Z.of_nat
         (List.length
            (filter (fun room => JsMap.size (VoiceRoom.users room) >? 0) l))
    <= Z.of_nat (List.length l) /\
  Z.of_nat
    (List.length
       (filter (fun room => JsMap.size (VoiceRoom.users room) >? 0) l))
  <= fold_left (fun sum room => sum + JsMap.size (VoiceRoom.users room)) l 0.
Proof.
  induction l as [|room l IH]; cbn [filter fold_left List.length]; [lia|].
  rewrite fold_left_users.
  pose proof (JsMapFacts.size_nonneg (VoiceRoom.users room)) as Hsize.
  destruct (Z.gtb_spec (JsMap.size (VoiceRoom.users room)) 0);
    cbn [List.length]; lia.
Qed.

(** X28.  In every state the voice manager reaches, the statistics are
    consistent: there are at least the two default rooms, the occupied rooms
    are among the rooms, and there are at least as many users as occupied
    rooms; no room is occupied exactly when there is no user. *)
Theorem reachable_stats_consistent trace :
  let stats := getRoomStats (manager (fst (run start trace))) in
  2 <= Stats.totalRooms stats /\
  0 <= Stats.activeRooms stats <= Stats.totalRooms stats /\
  Stats.activeRooms stats <= Stats.totalUsers stats /\
  (Stats.activeRooms stats = 0 <-> Stats.totalUsers stats = 0).
Proof.
  set (s := manager (fst (run start trace))). intros stats.
  destruct (run_vsound trace start initial_vsound)
    as [_ [(general & Hgeneral & _) (gaming & Hgaming & _)]].
  fold s in Hgeneral, Hgaming.
  unfold stats, getRoomStats.
  cbn [Stats.totalRooms Stats.totalUsers Stats.activeRooms].
  pose proof (active_le_users (JsMap.values (rooms s))) as [Hactive Husers].
  assert (Hlen : Z.of_nat (List.length (JsMap.values (rooms s)))
                 = JsMap.size (rooms s))
    by (unfold JsMap.size, JsMap.values; now rewrite length_map).
  rewrite Hlen in Hactive.
  assert (Htwo : 2 <= JsMap.size (rooms s)).
  { unfold JsMap.size. destruct (rooms s) as [|[k1 v1] [|[k2 v2] rest]].
    - discriminate.
    - cbn in Hgeneral, Hgaming.
      destruct (String.eqb_spec k1 "general"); [|discriminate].
      destruct (String.eqb_spec k1 "gaming"); [|discriminate].
      congruence.
    - cbn [List.length]. lia. }
  repeat split; try lia.
  - intros Hzero.
    assert (Hnone : forall l : list VoiceRoom.t,
               Z.of_nat
                 (List.length
                    (filter
                       (fun room => JsMap.size (VoiceRoom.users room) >? 0)
                       l)) = 0 ->
               fold_left
                 (fun sum room => sum + JsMap.size (VoiceRoom.users room))
                 l 0 = 0).
    { induction l as [|room l IH]; cbn [filter fold_left]; [reflexivity|].
      rewrite fold_left_users.
      pose proof (JsMapFacts.size_nonneg (VoiceRoom.users room)).
      destruct (Z.gtb_spec (JsMap.size (VoiceRoom.users room)) 0);
        cbn [List.length]; [lia|].
      intros Hl. rewrite (IH Hl). lia. }
    now apply Hnone.
Qed.

End VoiceChatMore.
